(** * Telegram-blockpost-bot: the user store, the handlers and the polling loop

    A shallow embedding of [UsersHandler.py] and [BotHandler.py].

    - A user is the Python dict the code reads from and writes to the JSON
      database: a finite map from field names to JSON values.
    - The handlers are written in a state-and-exception monad over the
      [World]: the database file, the calls made to the Telegram API, the log,
      and the fields of the [BotHandler] object.
    - [start_bot] is a state machine driven by what each polling round ends
      with. *)

From Stdlib Require Import ZArith String Ascii List Lia DecimalString.
From stdpp Require Import base option list gmap strings.

Local Open Scope Z_scope.
Local Open Scope string_scope.
Local Open Scope list_scope.

(** ** Python values and built-ins *)

Module Py.

(** The JSON values a user record holds: [None], booleans, integers and
    strings (the values this program writes; floats are not modelled). *)
Inductive value : Type :=
  | VNone
  | VBool (b : bool)
  | VInt (n : Z)
  | VStr (s : string).

#[global] Instance value_eq_dec : EqDecision value.
Proof. solve_decision. Defined.

(** The exceptions the modelled code can raise. *)
Inductive exn : Type :=
  | KeyError (key : string)
  | TypeError
  | AttributeError.

(** A Python [str] is a Rocq [string]: a sequence of characters with code
    points below 256. The escape ["\n"] of Python source is the one character
    [LF] below; the two characters backslash and [n] are written ["\n"] in
    Rocq, which has no escapes. *)

(** A bool is an int in Python: [True == 1], [True + 1 == 2]. *)
Definition as_int (v : value) : option Z :=
  match v with
  | VInt n => Some n
  | VBool b => Some (Z.b2z b)
  | _ => None
  end.

(** [a == b]. *)
Definition py_eq (a b : value) : bool :=
  match as_int a, as_int b with
  | Some x, Some y => Z.eqb x y
  | _, _ =>
      match a, b with
      | VNone, VNone => true
      | VStr s, VStr t => if decide (s = t) then true else false
      | _, _ => false
      end
  end.

(** Truth value of [v] in [if v:]. *)
Definition truthy (v : value) : bool :=
  match v with
  | VNone => false
  | VBool b => b
  | VInt n => negb (Z.eqb n 0)
  | VStr s => negb (if decide (s = "") then true else false)
  end.

(** [str(n)] for an int: decimal digits, with a leading minus sign. *)
Definition str_of_int (n : Z) : string := NilZero.string_of_int (Z.to_int n).

(** [str(v)], which is also what ["{0}".format(v)] renders. *)
Definition py_str (v : value) : string :=
  match v with
  | VNone => "None"
  | VBool true => "True"
  | VBool false => "False"
  | VInt n => str_of_int n
  | VStr s => s
  end.

Definition LF : string := String (ascii_of_nat 10) "".
Definition TAB : string := String (ascii_of_nat 9) "".

(** [s.startswith(p)]. *)
Fixpoint startswith (p s : string) : bool :=
  match p, s with
  | "", _ => true
  | String a p', String b s' => if decide (a = b) then startswith p' s' else false
  | String _ _, "" => false
  end.

(** [p in s] for strings. *)
Fixpoint contains (p s : string) : bool :=
  startswith p s ||
  match s with
  | "" => false
  | String _ s' => contains p s'
  end.

(** [s.replace(old, new)] for a non-empty [old]: occurrences are found left
    to right and do not overlap. [skip] counts the characters of a matched
    occurrence that are still to be dropped. *)
Fixpoint replace_from (old new : string) (skip : nat) (s : string) : string :=
  match s with
  | "" => ""
  | String c s' =>
      match skip with
      | S k => replace_from old new k s'
      | O =>
          if startswith old s
          then new +:+ replace_from old new (Nat.pred (String.length old)) s'
          else String c (replace_from old new O s')
      end
  end.

Definition replace (old new s : string) : string := replace_from old new O s.

(** [c.isspace()] for a character with code point below 256. *)
Definition isspace (c : ascii) : bool :=
  let n := nat_of_ascii c in
  ((9 <=? n) && (n <=? 13) || (28 <=? n) && (n <=? 32) || (n =? 133) || (n =? 160))%nat.

Fixpoint lstrip (s : string) : string :=
  match s with
  | "" => ""
  | String c s' => if isspace c then lstrip s' else s
  end.

Fixpoint rstrip (s : string) : string :=
  match s with
  | "" => ""
  | String c s' =>
      match rstrip s' with
      | "" => if isspace c then "" else String c ""
      | r => String c r
      end
  end.

(** [s.strip()]. *)
Definition strip (s : string) : string := rstrip (lstrip s).

End Py.
Export Py.

(** ** The world the bot runs in *)

Module Runtime.

(** A user record: the dict stored in the JSON database. *)
Abbreviation user := (gmap string value).

Inductive level : Type := WARNING | ERROR.

(** What the program does to the outside, in the order it does it. *)
Inductive effect : Type :=
  | Log (l : level) (text : string)
  | Send (chat_id : value) (text : string)   (* a call of [bot.send_message] *)
  | Sleep (seconds : Z)                      (* a call of [time.sleep] that returned *)
  | Build.                                   (* the application is built and polling starts *)

Record World : Type := mkWorld {
  (** what [JSONReaderWriter.load_json(config["users_database"])] yields now *)
  users_database : option (list user);
  trace : list effect;
  (** [BotHandler._restart_requested_flag] *)
  restart_requested_flag : bool;
  (** [BotHandler._form_message] *)
  form_message : string;
  (** the event loop of the running application was stopped and closed *)
  event_loop_closed : bool;
  (** [send_message_after_restart] threads started and not yet finished, each
      with the [user] dict its closure captured *)
  threads : list user
}.

Definition set_users_database (d : option (list user)) (w : World) : World :=
  mkWorld d (trace w) (restart_requested_flag w) (form_message w) (event_loop_closed w) (threads w).
Definition emit (e : effect) (w : World) : World :=
  mkWorld (users_database w) (trace w ++ [e])%list (restart_requested_flag w) (form_message w)
          (event_loop_closed w) (threads w).
Definition set_restart_requested_flag (b : bool) (w : World) : World :=
  mkWorld (users_database w) (trace w) b (form_message w) (event_loop_closed w) (threads w).
Definition set_form_message (s : string) (w : World) : World :=
  mkWorld (users_database w) (trace w) (restart_requested_flag w) s (event_loop_closed w) (threads w).
Definition set_event_loop_closed (b : bool) (w : World) : World :=
  mkWorld (users_database w) (trace w) (restart_requested_flag w) (form_message w) b (threads w).
Definition set_threads (t : list user) (w : World) : World :=
  mkWorld (users_database w) (trace w) (restart_requested_flag w) (form_message w)
          (event_loop_closed w) t.

(** The [send_message] calls of a trace, oldest first. *)
Fixpoint sends (t : list effect) : list (value * string) :=
  match t with
  | [] => []
  | Send c s :: t' => (c, s) :: sends t'
  | _ :: t' => sends t'
  end.

(** The [time.sleep] calls of a trace. *)
Fixpoint sleeps (t : list effect) : list Z :=
  match t with
  | [] => []
  | Sleep n :: t' => n :: sleeps t'
  | _ :: t' => sleeps t'
  end.

(** How often the application was built. *)
Fixpoint builds (t : list effect) : nat :=
  match t with
  | [] => O
  | Build :: t' => S (builds t')
  | _ :: t' => builds t'
  end.

(** The result of running a piece of Python: a value or a raised exception. *)
Inductive res (A : Type) : Type :=
  | Ok (a : A)
  | Raise (e : exn).
Arguments Ok {A} a.
Arguments Raise {A} e.

(** Computations: they change the world and return or raise. What was done
    before an exception stays done. *)
Definition M (A : Type) : Type := World -> res A * World.

Definition ret {A} (a : A) : M A := fun w => (Ok a, w).
Definition raise {A} (e : exn) : M A := fun w => (Raise e, w).
Definition bind {A B} (c : M A) (k : A -> M B) : M B :=
  fun w => match c w with
           | (Ok a, w') => k a w'
           | (Raise e, w') => (Raise e, w')
           end.
Definition lift {A} (r : res A) : M A := fun w => (r, w).
Definition modify (f : World -> World) : M unit := fun w => (Ok tt, f w).
Definition gets {A} (f : World -> A) : M A := fun w => (Ok (f w), w).

Declare Scope py_scope.
Delimit Scope py_scope with py.
Notation "x <- c1 ;; c2" := (bind c1 (fun x => c2))
  (at level 100, c1 at next level, right associativity) : py_scope.
Notation "c1 ;; c2" := (bind c1 (fun _ => c2))
  (at level 100, right associativity) : py_scope.
Local Open Scope py_scope.

(** [for x in l: body(x)]. *)
Fixpoint for_each {A} (l : list A) (body : A -> M unit) : M unit :=
  match l with
  | [] => ret tt
  | x :: l' => body x ;; for_each l' body
  end.

(** [d[k]]. *)
Definition getitem (d : user) (k : string) : M value :=
  match d !! k with
  | Some v => ret v
  | None => raise (KeyError k)
  end.

(** [v + 1]: ints and bools add, anything else is a [TypeError]. *)
Definition py_add_one (v : value) : res value :=
  match as_int v with
  | Some n => Ok (VInt (n + 1))
  | None => Raise TypeError
  end.

(** [v <= n] for an int [n]. *)
Definition py_le (v : value) (n : Z) : res bool :=
  match as_int v with
  | Some m => Ok (m <=? n)%Z
  | None => Raise TypeError
  end.

Definition logging_warning (text : string) : M unit := modify (emit (Log WARNING text)).
Definition logging_error (text : string) : M unit := modify (emit (Log ERROR text)).

End Runtime.
Export Runtime.
Open Scope py_scope.

(** ** JSONReaderWriter (the interface UsersHandler uses) *)

Module JSONReaderWriter.

(** Modelled from the spec: [JSONReaderWriter.load_json], whose source is not
    part of the files at hand. The store has whole-collection read semantics;
    a store that cannot be read yields nothing ([None]). *)
Definition load_json : M (option (list user)) := gets users_database.

(** Modelled from the spec: [JSONReaderWriter.save_json], whose source is not
    part of the files at hand. The whole collection is written, and is what
    the next read yields. *)
Definition save_json (users : list user) : M unit := modify (set_users_database (Some users)).

End JSONReaderWriter.

(** ** UsersHandler.py *)

Module UsersHandler.

(** [read_users]: the users of the database, or [[]] when there is none. *)
Definition read_users : M (list user) :=
  users <- JSONReaderWriter.load_json ;;
  match users with
  | None => ret []
  | Some users => ret users
  end.

(** The loop of [save_user]: the first index [i] with
    [users[i]["id"] == user_data["id"]], counting from [i]. [None] is the
    [user_index = -1] the loop starts with. *)
Fixpoint find_index (user_data : user) (users : list user) (i : nat) : res (option nat) :=
  match users with
  | [] => Ok None
  | u :: rest =>
      match u !! "id" with
      | None => Raise (KeyError "id")
      | Some a =>
          match user_data !! "id" with
          | None => Raise (KeyError "id")
          | Some b => if py_eq a b then Ok (Some i) else find_index user_data rest (S i)
          end
      end
  end.

(** [for new_key in user_data.keys(): old[new_key] = user_data[new_key]]:
    every key of [user_data] is set in [old], the other keys of [old] stay. *)
Definition merge_keys (user_data old : user) : user := user_data ∪ old.

(** [save_user]. The list read from the database is a fresh copy, so the
    dict passed in is not aliased by anything that outlives the call. *)
Definition save_user (user_data : option user) : M unit :=
  match user_data with
  | None => ret tt
  | Some user_data =>
      users <- read_users ;;
      user_index <- lift (find_index user_data users O) ;;
      let users :=
        match user_index with
        | Some i => alter (merge_keys user_data) i users
        | None => (users ++ [user_data])%list
        end in
      JSONReaderWriter.save_json users
  end.

Definition new_user (id_ : Z) : user :=
  {[ "id" := VInt id_; "username" := VStr ""; "full_name" := VStr "";
     "admin" := VBool false; "banned" := VBool false; "messages_total" := VInt 0 ]}.

(** [_create_user]. *)
Definition _create_user (id_ : Z) : M user :=
  logging_warning ("Creating new user with id: " +:+ str_of_int id_) ;;
  let user := new_user id_ in
  save_user (Some user) ;;
  ret user.

(** The loop of [get_user_by_id]: the first user with [user["id"] == id_]. *)
Fixpoint find_user (id_ : Z) (users : list user) : res (option user) :=
  match users with
  | [] => Ok None
  | u :: rest =>
      match u !! "id" with
      | None => Raise (KeyError "id")
      | Some a => if py_eq a (VInt id_) then Ok (Some u) else find_user id_ rest
      end
  end.

(** [get_user_by_id]. *)
Definition get_user_by_id (id_ : Z) : M user :=
  users <- read_users ;;
  found <- lift (find_user id_ users) ;;
  match found with
  | Some u => ret u
  | None => _create_user id_
  end.

End UsersHandler.
Export UsersHandler.

(** ** BotHandler.py *)

Module BotHandler.

(** The entries of [config.json] the handlers read. *)
Record Config : Type := mkConfig {
  user_max_messages : Z;
  confirmation_message : string;
  banned_message : string;
  ban_confirmation_message : string;
  unban_confirmation_message : string;
  resetmessages_confirmation_message : string;
  admin_message : string;
  restart_message_start : string;
  restart_message_done : string
}.

(** [update.message]: the sender's handle (None when they have none), their
    full name, and the text. *)
Record Message : Type := mkMessage {
  from_username : option string;
  from_full_name : string;
  text : string
}.

(** A Telegram update. [message] is [None] for an update that carries an
    edited message or a channel post instead of a new message. *)
Record Update : Type := mkUpdate {
  effective_chat_id : Z;
  message : option Message
}.

Definition BOT_COMMAND_START := "start".
Definition BOT_COMMAND_CHAT_ID := "chatid".
Definition BOT_COMMAND_ADMIN_USERS := "users".
Definition BOT_COMMAND_ADMIN_RESETMESSAGES := "resetmessages".
Definition BOT_COMMAND_ADMIN_BAN := "ban".
Definition BOT_COMMAND_ADMIN_UNBAN := "unban".
Definition BOT_COMMAND_ADMIN_RESTART := "restart".

Definition RESTART_ON_ERROR_DELAY : Z := 10.

(** ["{0} ({1}) ({2})".format(a, b, c)] *)
Definition format_user (a b c : value) : string :=
  py_str a +:+ " (" +:+ py_str b +:+ ") (" +:+ py_str c +:+ ")".

Section Handlers.

(** [self.config] *)
Variable config : Config.
(** Whether the Telegram API accepts a [send_message] call (otherwise the
    call raises). *)
Variable transport : value -> string -> bool.
(** Python's [int(s)] on a string: the integer, or the text [str(e)] of the
    [ValueError] it raises. *)
Variable int_of_str : string -> Z + string.

(** [_send_safe]: the call is made with the escapes expanded; an exception
    of the call is logged and goes no further. *)
Definition _send_safe (chat_id : value) (text : string) : M unit :=
  let text := replace "\t" TAB (replace "\n" LF text) in
  modify (emit (Send chat_id text)) ;;
  if transport chat_id text then ret tt
  else logging_error ("Error sending " +:+ text +:+ " to " +:+ py_str chat_id +:+ "!").

(** [_user_check_get] *)
Definition _user_check_get (update : Update) : M user :=
  let telegram_chat_id := effective_chat_id update in
  let telegram_user_username :=
    match message update with Some m => from_username m | None => None end in
  let telegram_user_full_name :=
    match message update with Some m => Some (from_full_name m) | None => None end in
  user <- get_user_by_id telegram_chat_id ;;
  user <- match telegram_user_username with
          | Some s =>
              let user := <["username" := VStr s]> user in
              save_user (Some user) ;; ret user
          | None => ret user
          end ;;
  user <- match telegram_user_full_name with
          | Some s =>
              let user := <["full_name" := VStr s]> user in
              save_user (Some user) ;; ret user
          | None => ret user
          end ;;
  banned <- getitem user "banned" ;;
  (if truthy banned then
     let banned_message := strip (banned_message config) in
     if (0 <? String.length banned_message)%nat
     then _send_safe (VInt telegram_chat_id) banned_message
     else ret tt
   else ret tt) ;;
  ret user.

(** The log line every handler writes after [_user_check_get]:
    [logging.warning("... from {0} ({1}) ({2})".format(user["full_name"],
    user["username"], user["id"]))]. *)
Definition log_from (what : string) (user : user) : M unit :=
  full_name <- getitem user "full_name" ;;
  username <- getitem user "username" ;;
  id <- getitem user "id" ;;
  logging_warning (what +:+ " from " +:+ format_user full_name username id).

(** [bot_message] *)
Definition bot_message (update : Update) : M unit :=
  user <- _user_check_get update ;;
  log_from "Text message" user ;;
  banned <- getitem user "banned" ;;
  if truthy banned then ret tt else
  admin <- getitem user "admin" ;;
  if truthy admin then ret tt else
  total <- getitem user "messages_total" ;;
  total <- lift (py_add_one total) ;;
  let user := <["messages_total" := total]> user in
  save_user (Some user) ;;
  total <- getitem user "messages_total" ;;
  within <- lift (py_le total (user_max_messages config)) ;;
  if within : bool then
    message_text <- match message update with
                    | Some m => ret (text m)
                    | None => raise AttributeError
                    end ;;
    users <- read_users ;;
    full_name <- getitem user "full_name" ;;
    username <- getitem user "username" ;;
    id <- getitem user "id" ;;
    let message_text :=
      py_str full_name +:+ " (@" +:+ py_str username +:+ ") (" +:+ py_str id +:+ ")"
      +:+ LF +:+ LF +:+ message_text in
    for_each users (fun broadcast_user =>
      admin <- getitem broadcast_user "admin" ;;
      if truthy admin then
        log_from "Sending user request to" broadcast_user ;;
        id <- getitem broadcast_user "id" ;;
        _send_safe id message_text
      else ret tt) ;;
    id <- getitem user "id" ;;
    _send_safe id (confirmation_message config)
  else ret tt.

(** The argument check shared by [/ban], [/unban] and [/resetmessages]:
    [if not context.args or len(context.args) < 1: return], then
    [int(str(context.args[0]).strip())]; a parse error is sent to the
    caller. [context.args] is [None] or a list of words. *)
Definition with_target (user : user) (args : option (list string)) (k : Z -> M unit) : M unit :=
  match args with
  | None | Some [] => ret tt
  | Some (arg0 :: _) =>
      match int_of_str (strip arg0) with
      | inr e => id <- getitem user "id" ;; _send_safe id e
      | inl target_id => k target_id
      end
  end.

(** [bot_command_ban_unban] *)
Definition bot_command_ban_unban (ban : bool) (update : Update) (args : option (list string)) : M unit :=
  user <- _user_check_get update ;;
  log_from ("/" +:+ (if ban then "ban" else "unban") +:+ " command") user ;;
  banned <- getitem user "banned" ;;
  if truthy banned then ret tt else
  admin <- getitem user "admin" ;;
  if negb (truthy admin) then ret tt else
  with_target user args (fun ban_user_id =>
    banned_user <- get_user_by_id ban_user_id ;;
    let banned_user := <["banned" := VBool ban]> banned_user in
    save_user (Some banned_user) ;;
    id <- getitem user "id" ;;
    if ban then _send_safe id (ban_confirmation_message config)
    else _send_safe id (unban_confirmation_message config)).

Definition bot_command_ban := bot_command_ban_unban true.
Definition bot_command_unban := bot_command_ban_unban false.

(** [bot_command_resetmessages] *)
Definition bot_command_resetmessages (update : Update) (args : option (list string)) : M unit :=
  user <- _user_check_get update ;;
  log_from "/resetmessages command" user ;;
  banned <- getitem user "banned" ;;
  if truthy banned then ret tt else
  admin <- getitem user "admin" ;;
  if negb (truthy admin) then ret tt else
  with_target user args (fun reset_user_id =>
    reset_user <- get_user_by_id reset_user_id ;;
    let reset_user := <["messages_total" := VInt 0]> reset_user in
    save_user (Some reset_user) ;;
    id <- getitem user "id" ;;
    _send_safe id (resetmessages_confirmation_message config)).

(** One line of the [/users] listing. *)
Definition users_line (user_info : user) : M string :=
  id <- getitem user_info "id" ;;
  username <- getitem user_info "username" ;;
  full_name <- getitem user_info "full_name" ;;
  admin <- getitem user_info "admin" ;;
  banned <- getitem user_info "banned" ;;
  total <- getitem user_info "messages_total" ;;
  ret (py_str id +:+ TAB +:+ "@" +:+ py_str username +:+ TAB +:+ py_str full_name +:+ TAB
       +:+ py_str admin +:+ TAB +:+ py_str banned +:+ TAB +:+ py_str total +:+ LF).

Fixpoint users_listing (users : list user) (message : string) : M string :=
  match users with
  | [] => ret message
  | user_info :: rest =>
      line <- users_line user_info ;;
      users_listing rest (message +:+ line)
  end.

(** [bot_command_users] *)
Definition bot_command_users (update : Update) : M unit :=
  user <- _user_check_get update ;;
  log_from "/users command" user ;;
  banned <- getitem user "banned" ;;
  if truthy banned then ret tt else
  admin <- getitem user "admin" ;;
  if negb (truthy admin) then ret tt else
  users <- read_users ;;
  message <- users_listing users
               ("id" +:+ TAB +:+ "Username" +:+ TAB +:+ "Full name" +:+ TAB +:+ "Admin?"
                +:+ TAB +:+ "Banned?" +:+ TAB +:+ "Total messages" +:+ LF +:+ LF) ;;
  id <- getitem user "id" ;;
  _send_safe id message.

(** The thread [/restart] starts, from the point where it has seen the
    restart flag cleared: one [sendMessage] call, with only the newline
    escape replaced; any exception of the [try] body is logged. *)
Definition send_message_after_restart (user : user) : M unit :=
  logging_warning "Restarting done" ;;
  match user !! "id" with
  | None => logging_error "Error sending message!"
  | Some id =>
      let text := replace "\n" LF (restart_message_done config) in
      modify (emit (Send id text)) ;;
      if transport id text then ret tt else logging_error "Error sending message!"
  end.

(** [bot_command_restart] *)
Definition bot_command_restart (update : Update) : M unit :=
  user <- _user_check_get update ;;
  log_from "/restart command" user ;;
  banned <- getitem user "banned" ;;
  if truthy banned then ret tt else
  admin <- getitem user "admin" ;;
  if negb (truthy admin) then ret tt else
  logging_warning "Restarting" ;;
  id <- getitem user "id" ;;
  _send_safe id (restart_message_start config) ;;
  modify (set_restart_requested_flag true) ;;
  modify (set_event_loop_closed true) ;;
  modify (fun w => set_threads (threads w ++ [user])%list w).

(** [bot_command_chatid] *)
Definition bot_command_chatid (update : Update) : M unit :=
  user <- _user_check_get update ;;
  log_from "/chatid command" user ;;
  id <- getitem user "id" ;;
  _send_safe id (py_str id).

(** [bot_command_start] *)
Definition bot_command_start (update : Update) : M unit :=
  user <- _user_check_get update ;;
  log_from "/start command" user ;;
  banned <- getitem user "banned" ;;
  if truthy banned then ret tt else
  admin <- getitem user "admin" ;;
  id <- getitem user "id" ;;
  if truthy admin then _send_safe id (admin_message config)
  else form <- gets form_message ;; _send_safe id form.

(** The handlers [start_bot] registers. *)
Inductive handler : Type :=
  | on_start | on_chatid | on_message | on_users
  | on_ban | on_unban | on_restart | on_resetmessages.

(** The [CommandHandler] registered for a command word; an unknown command
    has none. *)
Definition command_handler (command : string) : option handler :=
  if decide (command = BOT_COMMAND_START) then Some on_start
  else if decide (command = BOT_COMMAND_CHAT_ID) then Some on_chatid
  else if decide (command = BOT_COMMAND_ADMIN_USERS) then Some on_users
  else if decide (command = BOT_COMMAND_ADMIN_BAN) then Some on_ban
  else if decide (command = BOT_COMMAND_ADMIN_UNBAN) then Some on_unban
  else if decide (command = BOT_COMMAND_ADMIN_RESTART) then Some on_restart
  else if decide (command = BOT_COMMAND_ADMIN_RESETMESSAGES) then Some on_resetmessages
  else None.

Definition run_handler (h : handler) (update : Update) (args : option (list string)) : M unit :=
  match h with
  | on_start => bot_command_start update
  | on_chatid => bot_command_chatid update
  | on_message => bot_message update
  | on_users => bot_command_users update
  | on_ban => bot_command_ban update args
  | on_unban => bot_command_unban update args
  | on_restart => bot_command_restart update
  | on_resetmessages => bot_command_resetmessages update args
  end.

(** *** start_bot *)

(** How the [try] block of one round of [start_bot] is left. *)
Inductive ending : Type :=
  | KeyboardInterrupt
  | Raised (text : string)    (* any other exception [e], with [str(e)] *)
  | Returned.

(** An update the application dispatches, with [context.args]. *)
Record Inbound : Type := mkInbound {
  in_handler : handler;
  in_update : Update;
  in_args : option (list string)
}.

(** What the outside does during one round of the loop of [start_bot]. *)
Record Round : Type := mkRound {
  (** the text of the form file, or [str(e)] of the exception opening or
      reading it raises *)
  form_file : string + string;
  (** the updates that arrive while the application polls *)
  inbound : list Inbound;
  (** how [run_until_complete(run_polling())] ends *)
  polling_end : ending;
  (** a [KeyboardInterrupt] arrives during [time.sleep] *)
  sleep_interrupted : bool
}.

(** The application calls the handler of an update; an exception of a
    handler is logged by the library. A stopped event loop dispatches
    nothing more. *)
Definition dispatch (i : Inbound) (w : World) : World :=
  if event_loop_closed w then w
  else match run_handler (in_handler i) (in_update i) (in_args i) w with
       | (Ok _, w') => w'
       | (Raise _, w') =>
           emit (Log ERROR "No error handlers are registered, logging exception.") w'
       end.

(** The [try] block. *)
Definition try_block (r : Round) (w : World) : ending * World :=
  match form_file r with
  | inr e => (Raised e, w)
  | inl form =>
      let w := set_form_message form w in
      let w := emit (Log WARNING "Starting telegram bot") w in
      let w := emit Build (set_event_loop_closed false w) in
      let w := fold_left (fun w i => dispatch i w) (inbound r) w in
      (polling_end r, w)
  end.

Inductive status : Type := Running | Stopped.

(** [if not self._restart_requested_flag: ... time.sleep(...)], then
    ["Restarting bot polling"] and the flag is cleared. *)
Definition wait_and_restart (r : Round) (w : World) : status * World :=
  let waited :=
    if restart_requested_flag w then (Running, w)
    else
      let w := emit (Log WARNING ("Restarting bot polling after "
                                  +:+ str_of_int RESTART_ON_ERROR_DELAY +:+ " seconds")) w in
      if sleep_interrupted r
      then (Stopped, emit (Log WARNING "KeyboardInterrupt @ bot_start") w)
      else (Running, emit (Sleep RESTART_ON_ERROR_DELAY) w) in
  match waited with
  | (Stopped, w) => (Stopped, w)
  | (Running, w) =>
      (Running, set_restart_requested_flag false (emit (Log WARNING "Restarting bot polling") w))
  end.

(** One pass through the body of [while True:]. [Stopped] is [break]. *)
Definition round (r : Round) (w : World) : status * World :=
  match try_block r w with
  | (KeyboardInterrupt, w) => (Stopped, emit (Log WARNING "KeyboardInterrupt @ bot_start") w)
  | (Raised e, w) =>
      if contains "Event loop is closed" e then
        if negb (restart_requested_flag w)
        then (Stopped, emit (Log WARNING "Stopping telegram bot") w)
        else wait_and_restart r w
      else wait_and_restart r (emit (Log ERROR "Telegram bot error!") w)
  | (Returned, w) => wait_and_restart r w
  end.

(** [start_bot] against a finite script of rounds. [Running] means the
    script ended while the loop goes on; after [break] the final line is
    logged. *)
Fixpoint start_bot (rounds : list Round) (w : World) : status * World :=
  match rounds with
  | [] => (Running, w)
  | r :: rest =>
      match round r w with
      | (Stopped, w) => (Stopped, emit (Log WARNING "Telegram bot stopped") w)
      | (Running, w) => start_bot rest w
      end
  end.

(** A waiting [send_message_after_restart] thread: it sleeps while the
    flag is set, then runs and ends. *)
Definition thread_step (w : World) : World :=
  if restart_requested_flag w then w
  else match threads w with
       | [] => w
       | user :: rest => snd (send_message_after_restart user (set_threads rest w))
       end.

End Handlers.

End BotHandler.
Export BotHandler.

(** ** Reading the store *)

Module Store.

(** The list [read_users] returns for a database. *)
Definition users_of (d : option (list user)) : list user :=
  match d with
  | Some users => users
  | None => []
  end.

(** [u["id"] == v], false when [u] has no id. *)
Definition id_is (v : value) (u : user) : bool :=
  match u !! "id" with
  | Some a => py_eq a v
  | None => false
  end.

(** The record [get_user_by_id] finds for an id, when the loop raises
    nothing. *)
Definition lookup_user (id_ : Z) (users : list user) : option user :=
  List.find (id_is (VInt id_)) users.

(** The profile of an id: the stored one, or the default one a first contact
    creates. *)
Definition view (id_ : Z) (users : list user) : user :=
  match lookup_user id_ users with
  | Some u => u
  | None => new_user id_
  end.

(** The store after a lookup-or-create of an id. *)
Definition ensure (id_ : Z) (users : list user) : list user :=
  match lookup_user id_ users with
  | Some _ => users
  | None => (users ++ [new_user id_])%list
  end.

(** The first record with the id replaced by [new]. *)
Fixpoint set_user (id_ : Z) (new : user) (users : list user) : list user :=
  match users with
  | [] => []
  | u :: rest => if id_is (VInt id_) u then new :: rest else u :: set_user id_ new rest
  end.

(** What [save_user] writes for a record with id [id_]. *)
Fixpoint upsert (id_ : Z) (user_data : user) (users : list user) : list user :=
  match users with
  | [] => [user_data]
  | u :: rest =>
      if id_is (VInt id_) u then merge_keys user_data u :: rest
      else u :: upsert id_ user_data rest
  end.

(** Python's [==] compares a bool as the int it is: the representative of a
    value under [==]. *)
Definition canon (v : value) : value :=
  match as_int v with
  | Some n => VInt n
  | None => v
  end.

(** The result of the loop of [save_user] started at index [i], from its
    result started at index 0. *)
Definition shift (i : nat) (r : res (option nat)) : res (option nat) :=
  match r with
  | Ok (Some j) => Ok (Some (i + j)%nat)
  | other => other
  end.

(** The list [save_user] would write for [user_data], or the exception its
    loop raises. *)
Definition saved (user_data : user) (users : list user) : res (list user) :=
  match find_index user_data users O with
  | Ok (Some i) => Ok (alter (merge_keys user_data) i users)
  | Ok None => Ok (users ++ [user_data])%list
  | Raise e => Raise e
  end.

(** How many records carry an id equal to [v]. *)
Definition id_count (v : value) (users : list user) : nat :=
  length (List.filter (id_is v) users).

(** No two records of the list have ids that are [==]. *)
Fixpoint distinct_ids (users : list user) : bool :=
  match users with
  | [] => true
  | u :: rest =>
      forallb (fun u' => match u !! "id" with
                         | Some a => negb (id_is a u')
                         | None => true
                         end) rest
      && distinct_ids rest
  end.

(** Each id occurs at most once. *)
Definition unique_ids (users : list user) : Prop := forall v, (id_count v users <= 1)%nat.

(** The typed fields of a profile. *)
Definition uid (u : user) : Z := match u !! "id" with Some (VInt n) => n | _ => 0 end.
Definition uname (u : user) : string := match u !! "username" with Some (VStr s) => s | _ => "" end.
Definition ufull (u : user) : string := match u !! "full_name" with Some (VStr s) => s | _ => "" end.
Definition uadmin (u : user) : bool := match u !! "admin" with Some (VBool b) => b | _ => false end.
Definition ubanned (u : user) : bool := match u !! "banned" with Some (VBool b) => b | _ => false end.
Definition utotal (u : user) : Z := match u !! "messages_total" with Some (VInt n) => n | _ => 0 end.

(** A record with the six fields of a profile, each of its type (other keys
    may be present too). *)
Definition wf_user (u : user) : Prop :=
  u !! "id" = Some (VInt (uid u)) /\
  u !! "username" = Some (VStr (uname u)) /\
  u !! "full_name" = Some (VStr (ufull u)) /\
  u !! "admin" = Some (VBool (uadmin u)) /\
  u !! "banned" = Some (VBool (ubanned u)) /\
  u !! "messages_total" = Some (VInt (utotal u)).

Definition wf_users (users : list user) : Prop := Forall wf_user users.

(** A database that is unreadable, or holds profiles only. *)
Definition wf_db (w : World) : Prop := wf_users (users_of (users_database w)).

(** The fields of the [BotHandler] object and the threads. *)
Definition frame (w : World) : bool * string * bool * list user :=
  (restart_requested_flag w, form_message w, event_loop_closed w, threads w).

End Store.
Export Store.

(** ** What the handlers do, in terms of the store *)

Module Relay.

(** The text [_send_safe] passes to [send_message]. *)
Definition expand (text : string) : string := replace "\t" TAB (replace "\n" LF text).

(** The profile after [_user_check_get] refreshed handle and full name. *)
Definition refresh (update : Update) (u : user) : user :=
  match message update with
  | Some m =>
      let u := match from_username m with
               | Some s => <["username" := VStr s]> u
               | None => u
               end in
      <["full_name" := VStr (from_full_name m)]> u
  | None => u
  end.

(** The banned notice as sent, or nothing when it is blank. *)
Definition banned_notice (config : Config) (chat : Z) : list (value * string) :=
  if (0 <? String.length (strip (banned_message config)))%nat
  then [(VInt chat, expand (strip (banned_message config)))]
  else [].

(** The admins of a store. *)
Definition admins (users : list user) : list user := List.filter uadmin users.

(** The header [bot_message] puts before a relayed text. *)
Definition relay_prefix (u : user) : string :=
  ufull u +:+ " (@" +:+ uname u +:+ ") (" +:+ str_of_int (uid u) +:+ ")".

(** A round that ends in an error of the transport: the form file is read,
    nothing arrives, and polling raises an exception that is not the closed
    event loop; the wait is not interrupted. *)
Definition transport_error (r : Round) : Prop :=
  (exists form, form_file r = inl form) /\ inbound r = [] /\
  (exists text, polling_end r = Raised text /\ contains "Event loop is closed" text = false) /\
  sleep_interrupted r = false.

End Relay.
Export Relay.

(** ** A concrete setting for examples *)

Module Sample.

(** Decimal digits to a number, most significant first. *)
Fixpoint digits_value (s : string) (acc : Z) : option Z :=
  match s with
  | "" => Some acc
  | String c s' =>
      match Ascii.is_nat c with
      | Some d => digits_value s' (10 * acc + Z.of_nat d)
      | None => None
      end
  end.

(** [int(s)] on the literals the examples use: an optional sign and ASCII
    digits; anything else is the [ValueError] Python raises for a plain
    word. *)
Definition int_literal (s : string) : Z + string :=
  let bad := inr ("invalid literal for int() with base 10: '" +:+ s +:+ "'") in
  let unsigned (t : string) (sign : Z) :=
    match t with
    | "" => bad
    | _ => match digits_value t 0 with Some n => inl (sign * n) | None => bad end
    end in
  match s with
  | String "-" t => unsigned t (-1)
  | String "+" t => unsigned t 1
  | _ => unsigned s 1
  end.

Definition always_delivered (chat_id : value) (text : string) : bool := true.

Definition cfg : Config := {|
  user_max_messages := 3;
  confirmation_message := "Sent\nThank you";
  banned_message := " You are banned ";
  ban_confirmation_message := "Banned";
  unban_confirmation_message := "Unbanned";
  resetmessages_confirmation_message := "Reset";
  admin_message := "Admin help";
  restart_message_start := "Restarting...";
  restart_message_done := "Done\n\tok"
|}.

Definition mk_user (id : Z) (username full_name : string) (admin banned : bool) (total : Z) : user :=
  {[ "id" := VInt id; "username" := VStr username; "full_name" := VStr full_name;
     "admin" := VBool admin; "banned" := VBool banned; "messages_total" := VInt total ]}.

Definition world_of (users : option (list user)) : World :=
  mkWorld users [] false "Fill in the form" false [].

Definition admin1 : user := mk_user 1 "root" "Root" true false 0.
Definition admin7 : user := mk_user 7 "seven" "Seven" true false 0.
Definition bob : user := mk_user 5 "bob" "Bob" false true 0.

Definition from_alice (t : string) : Update :=
  mkUpdate 42 (Some (mkMessage (Some "alice") "Alice A" t)).
Definition from_root : Update :=
  mkUpdate 1 (Some (mkMessage (Some "root") "Root" "")).
Definition from_bob : Update :=
  mkUpdate 5 (Some (mkMessage (Some "bob") "Bob" "let me in")).

Definition w0 : World := world_of (Some [admin1; bob; admin7]).

(** A store in which alice has used two of her three messages. *)
Definition w2 : World := world_of (Some [admin1; mk_user 42 "alice" "Alice A" false false 2]).

(** Polling during which the admin sends [/restart]; the closed event loop
    ends it. *)
Definition restart_round : Round :=
  mkRound (inl "Fill in the form") [mkInbound on_restart from_root None]
          (Raised "Event loop is closed") false.

(** Polling that ends with a network error. *)
Definition error_round : Round :=
  mkRound (inl "Fill in the form") [] (Raised "httpx.ConnectError: connection reset") false.

(** Polling that is interrupted from the keyboard. *)
Definition interrupt_round : Round :=
  mkRound (inl "Fill in the form") [] KeyboardInterrupt false.

(** A network error, and the wait after it is interrupted. *)
Definition interrupted_wait_round : Round :=
  mkRound (inl "Fill in the form") [] (Raised "httpx.ConnectError: connection reset") true.

End Sample.

(** ** Further definitions *)

Module More.

(** The handlers that check [user["admin"]] and return when it is false. *)
Definition admin_only (h : handler) : bool :=
  match h with
  | on_users | on_ban | on_unban | on_restart | on_resetmessages => true
  | on_start | on_chatid | on_message => false
  end.

(** The handlers that assign to [banned], and those that assign to
    [messages_total]. *)
Definition writes_banned (h : handler) : bool :=
  match h with
  | on_ban | on_unban => true
  | _ => false
  end.
Definition writes_total (h : handler) : bool :=
  match h with
  | on_message | on_resetmessages => true
  | _ => false
  end.

(** The store [_user_check_get] leaves for an update. *)
Definition checked (update : Update) (users : list user) : list user :=
  let k := effective_chat_id update in
  set_user k (refresh update (view k users)) (ensure k users).

(** What a handler can have done to the store: what [_user_check_get]
    does, and after it at most one profile, looked up or created, stored with
    a new [banned] flag or a new [messages_total]. *)
Inductive store_step (h : handler) (update : Update) (users users' : list user) : Prop :=
  | step_checked :
      users' = checked update users -> store_step h update users users'
  | step_banned (t : Z) (b : bool) :
      writes_banned h = true ->
      users' = set_user t (<["banned" := VBool b]> (view t (checked update users)))
                 (ensure t (checked update users)) ->
      store_step h update users users'
  | step_total (t n : Z) :
      writes_total h = true ->
      users' = set_user t (<["messages_total" := VInt n]> (view t (checked update users)))
                 (ensure t (checked update users)) ->
      store_step h update users users'.

(** The line of [/users] for a profile. *)
Definition line_of (u : user) : string :=
  str_of_int (uid u) +:+ TAB +:+ "@" +:+ uname u +:+ TAB +:+ ufull u +:+ TAB
  +:+ py_str (VBool (uadmin u)) +:+ TAB +:+ py_str (VBool (ubanned u)) +:+ TAB
  +:+ str_of_int (utotal u) +:+ LF.

Definition listing_header : string :=
  "id" +:+ TAB +:+ "Username" +:+ TAB +:+ "Full name" +:+ TAB +:+ "Admin?"
  +:+ TAB +:+ "Banned?" +:+ TAB +:+ "Total messages" +:+ LF +:+ LF.

(** The text of [/users] for a store. *)
Definition listing_of (users : list user) : string :=
  fold_left (fun message u => message +:+ line_of u) users listing_header.

(** A record that carries an id and a handle only. *)
Definition bobby : user := {[ "id" := VInt 5; "username" := VStr "bobby" ]}.

(** A record without an id. *)
Definition nameless : user := {[ "username" := VStr "ghost" ]}.

(** An update for an edited message of alice: [update.message] is [None]. *)
Definition alice_edits : Update := mkUpdate 42 None.

(** Alice, an ordinary sender, and a store that holds her. *)
Definition alice : user := Sample.mk_user 42 "alice" "Alice A" false false 3.
Definition w_alice : World := Sample.world_of (Some [Sample.admin1; alice]).

(** A round in which the form file cannot be opened. *)
Definition no_form_round : Round :=
  mkRound (inr "[Errno 2] No such file or directory: 'form.txt'") [] Returned false.

(** A round that ends with the event loop closed and no restart asked for. *)
Definition closed_round : Round :=
  mkRound (inl "Fill in the form") [] (Raised "Event loop is closed") false.

End More.

Example replace_newline : replace "\n" LF "a\nb\\n" = "a" +:+ LF +:+ "b\" +:+ LF.
Proof. reflexivity. Qed.

Example replace_no_overlap : replace "aa" "b" "aaa" = "ba".
Proof. reflexivity. Qed.

Example strip_both : strip (" " +:+ TAB +:+ "you are banned " +:+ LF) = "you are banned".
Proof. reflexivity. Qed.

Example str_of_int_neg : str_of_int (-1001234) = "-1001234" /\ str_of_int 0 = "0".
Proof. split; reflexivity. Qed.

Example contains_marker : contains "Event loop is closed" "RuntimeError: Event loop is closed" = true.
Proof. reflexivity. Qed.

(** * Properties *)

(** ** Running the monad *)

Lemma bind_ok {A B} (c : M A) (k : A -> M B) w a w' :
  c w = (Ok a, w') -> bind c k w = k a w'.
Proof. intros H. unfold bind. now rewrite H. Qed.

Lemma bind_raise {A B} (c : M A) (k : A -> M B) w e w' :
  c w = (Raise e, w') -> bind c k w = (Raise e, w').
Proof. intros H. unfold bind. now rewrite H. Qed.

Lemma read_users_run w : read_users w = (Ok (users_of (users_database w)), w).
Proof.
  unfold read_users, JSONReaderWriter.load_json, bind, gets.
  now destruct (users_database w).
Qed.

Lemma getitem_run (u : user) k v w : u !! k = Some v -> getitem u k w = (Ok v, w).
Proof. intros H. unfold getitem. now rewrite H. Qed.

(** ** Python equality is an equivalence *)

Lemma bool_eq_decide (P : Prop) `{Decision P} (b : bool) :
  (b = true <-> P) -> b = bool_decide P.
Proof.
  intros E. destruct b.
  - symmetry. apply bool_decide_eq_true. now apply E.
  - symmetry. apply bool_decide_eq_false. intros HP. apply E in HP. discriminate.
Qed.

Lemma py_eq_canon a b : py_eq a b = bool_decide (canon a = canon b).
Proof.
  apply bool_eq_decide.
  destruct a as [|b1|x|s], b as [|b2|y|t]; cbn; split; intros H;
    try discriminate H; try reflexivity;
    try (apply Z.eqb_eq in H; congruence);
    try (injection H as H; apply Z.eqb_eq; assumption).
  - destruct (decide (s = t)); [congruence | discriminate].
  - injection H as ->. now destruct (decide (t = t)).
Qed.

Lemma py_eq_true a b : py_eq a b = true <-> canon a = canon b.
Proof. rewrite py_eq_canon. apply bool_decide_eq_true. Qed.

Lemma py_eq_int (n m : Z) : py_eq (VInt n) (VInt m) = (n =? m)%Z.
Proof. reflexivity. Qed.

Lemma id_is_congr a b u : py_eq a b = true -> id_is a u = id_is b u.
Proof.
  intros H%py_eq_true. unfold id_is. destruct (u !! "id"); [|reflexivity].
  rewrite !py_eq_canon. now rewrite H.
Qed.

(** ** The loops of UsersHandler *)

Lemma find_index_shift ud us i : find_index ud us i = shift i (find_index ud us O).
Proof.
  revert i. induction us as [|u rest IH]; intros i; cbn; [reflexivity|].
  destruct (u !! "id") as [a|]; [|reflexivity].
  destruct (ud !! "id") as [b|]; [|reflexivity].
  destruct (py_eq a b).
  - cbn. now rewrite Nat.add_0_r.
  - rewrite (IH (S i)), (IH 1%nat).
    destruct (find_index ud rest 0) as [[j|]|e]; cbn; try reflexivity.
    do 2 f_equal. lia.
Qed.

Lemma saved_nil ud : saved ud [] = Ok [ud].
Proof. reflexivity. Qed.

Lemma saved_cons ud u rest :
  saved ud (u :: rest) =
  match u !! "id" with
  | None => Raise (KeyError "id")
  | Some a =>
      match ud !! "id" with
      | None => Raise (KeyError "id")
      | Some b =>
          if py_eq a b then Ok (merge_keys ud u :: rest)
          else match saved ud rest with
               | Ok l => Ok (u :: l)
               | Raise e => Raise e
               end
      end
  end.
Proof.
  unfold saved. cbn [find_index].
  destruct (u !! "id") as [a|]; [|reflexivity].
  destruct (ud !! "id") as [b|]; [|reflexivity].
  destruct (py_eq a b); [reflexivity|].
  rewrite (find_index_shift ud rest 1).
  destruct (find_index ud rest 0) as [[j|]|e]; reflexivity.
Qed.

Lemma save_user_run ud w :
  save_user (Some ud) w =
  match saved ud (users_of (users_database w)) with
  | Ok l => (Ok tt, set_users_database (Some l) w)
  | Raise e => (Raise e, w)
  end.
Proof.
  unfold save_user. rewrite (bind_ok _ _ _ _ _ (read_users_run w)).
  unfold saved, bind, lift, JSONReaderWriter.save_json, modify.
  destruct (find_index ud (users_of (users_database w)) 0) as [[j|]|e]; reflexivity.
Qed.

Lemma find_user_lookup k us r : find_user k us = Ok r -> r = lookup_user k us.
Proof.
  unfold lookup_user. induction us as [|u rest IH]; cbn; [congruence|].
  unfold id_is at 1. destruct (u !! "id") as [a|]; [|discriminate].
  destruct (py_eq a (VInt k)); [congruence | exact IH].
Qed.

Lemma find_user_none k us :
  find_user k us = Ok None ->
  Forall (fun u => is_Some (u !! "id") /\ id_is (VInt k) u = false) us.
Proof.
  induction us as [|u rest IH]; cbn; [constructor|].
  destruct (u !! "id") as [a|] eqn:E; [|discriminate].
  destruct (py_eq a (VInt k)) eqn:P; [discriminate|].
  intros H. constructor; [|now apply IH].
  split; [now exists a|]. unfold id_is. now rewrite E.
Qed.

Lemma find_user_app k us l : find_user k us = Ok None -> find_user k (us ++ l) = find_user k l.
Proof.
  induction us as [|u rest IH]; cbn; [reflexivity|].
  destruct (u !! "id") as [a|]; [|discriminate].
  destruct (py_eq a (VInt k)); [discriminate | exact IH].
Qed.

Lemma saved_absent k ud us :
  ud !! "id" = Some (VInt k) -> find_user k us = Ok None -> saved ud us = Ok (us ++ [ud]).
Proof.
  intros Hid. induction us as [|u rest IH]; [reflexivity|].
  rewrite saved_cons. cbn [find_user]. rewrite Hid.
  destruct (u !! "id") as [a|]; [|discriminate].
  destruct (py_eq a (VInt k)); [discriminate|].
  intros H. now rewrite (IH H).
Qed.

Lemma new_user_id k : new_user k !! "id" = Some (VInt k).
Proof. reflexivity. Qed.

Lemma py_eq_refl a : py_eq a a = true.
Proof. now apply py_eq_true. Qed.

Lemma get_user_by_id_run k w :
  get_user_by_id k w =
  match find_user k (users_of (users_database w)) with
  | Raise e => (Raise e, w)
  | Ok (Some u) => (Ok u, w)
  | Ok None =>
      (Ok (new_user k),
       set_users_database (Some (users_of (users_database w) ++ [new_user k]))
         (emit (Log WARNING ("Creating new user with id: " +:+ str_of_int k)) w))
  end.
Proof.
  unfold get_user_by_id. rewrite (bind_ok _ _ _ _ _ (read_users_run w)).
  unfold bind at 1, lift.
  destruct (find_user k (users_of (users_database w))) as [[u|]|e] eqn:F; try reflexivity.
  unfold _create_user, logging_warning, bind at 1, modify.
  unfold bind at 1. rewrite save_user_run. cbn [users_database emit].
  now rewrite (saved_absent k _ _ (new_user_id k) F).
Qed.

(** ** Counting ids *)

Lemma id_count_cons v u us :
  id_count v (u :: us) = ((if id_is v u then 1 else 0) + id_count v us)%nat.
Proof. unfold id_count. cbn. now destruct (id_is v u). Qed.

Lemma id_count_app v us l : id_count v (us ++ l) = (id_count v us + id_count v l)%nat.
Proof. unfold id_count. now rewrite List.filter_app, length_app. Qed.

Lemma id_is_merge v ud u a b :
  u !! "id" = Some a -> ud !! "id" = Some b -> py_eq a b = true ->
  id_is v (merge_keys ud u) = id_is v u.
Proof.
  intros Ha Hb E. unfold id_is, merge_keys.
  rewrite (lookup_union_Some_l _ _ _ _ Hb), Ha.
  apply py_eq_true in E. rewrite !py_eq_canon. now rewrite E.
Qed.

Lemma saved_count ud us l v :
  saved ud us = Ok l ->
  id_count v l = id_count v us \/
  (id_count v us = 0%nat /\ id_count v l = 1%nat /\ id_is v ud = true).
Proof.
  revert l. induction us as [|u rest IH]; intros l.
  - rewrite saved_nil. intros [= <-]. rewrite id_count_cons. unfold id_count. cbn.
    destruct (id_is v ud); [right | left]; auto.
  - rewrite saved_cons.
    destruct (u !! "id") as [a|] eqn:Ha; [|discriminate].
    destruct (ud !! "id") as [b|] eqn:Hb; [|discriminate].
    destruct (py_eq a b) eqn:E.
    + intros [= <-]. left. rewrite !id_count_cons.
      now rewrite (id_is_merge v ud u a b Ha Hb E).
    + destruct (saved ud rest) as [l'|e]; [|discriminate].
      intros [= <-]. rewrite !id_count_cons.
      destruct (IH l' eq_refl) as [-> | (Z0 & Z1 & Hv)]; [now left|].
      rewrite Z0, Z1.
      destruct (id_is v u) eqn:Hu; [|right; auto].
      exfalso. unfold id_is in Hu, Hv. rewrite Ha in Hu. rewrite Hb in Hv.
      apply py_eq_true in Hu, Hv.
      assert (py_eq a b = true) by (apply py_eq_true; congruence).
      congruence.
Qed.

Lemma saved_unique ud us l : saved ud us = Ok l -> unique_ids us -> unique_ids l.
Proof.
  intros S U v. specialize (U v).
  destruct (saved_count ud us l v S) as [-> | (_ & -> & _)]; lia.
Qed.

Lemma distinct_ids_unique us : distinct_ids us = true -> unique_ids us.
Proof.
  induction us as [|u rest IH]; intros D v.
  - unfold id_count. cbn. lia.
  - cbn in D. apply andb_true_iff in D as [D1 D2].
    rewrite id_count_cons. specialize (IH D2 v).
    destruct (id_is v u) eqn:Hu; [|lia].
    enough (id_count v rest = 0%nat) by lia.
    unfold id_count. apply length_zero_iff_nil.
    rewrite forallb_forall in D1.
    clear IH D2. induction rest as [|u' r IHr]; [reflexivity|].
    cbn. assert (id_is v u' = false) as ->.
    { specialize (D1 u' (or_introl eq_refl)).
      unfold id_is in Hu. destruct (u !! "id") as [a|]; [|discriminate].
      apply negb_true_iff in D1.
      rewrite <- D1. symmetry. apply id_is_congr. exact Hu. }
    apply IHr. intros x Hx. apply D1. now right.
Qed.

(** ** The user directory *)

Lemma merge_keys_lookup (ud old : user) key :
  merge_keys ud old !! key = match ud !! key with Some v => Some v | None => old !! key end.
Proof.
  unfold merge_keys. destruct (ud !! key) as [v|] eqn:E.
  - now apply lookup_union_Some_l.
  - now apply lookup_union_r.
Qed.

Lemma find_index_some ud us i0 i :
  find_index ud us i0 = Ok (Some i) -> exists j old, i = (i0 + j)%nat /\ us !! j = Some old.
Proof.
  revert i0. induction us as [|u rest IH]; intros i0; cbn; [discriminate|].
  destruct (u !! "id"); [|discriminate]. destruct (ud !! "id"); [|discriminate].
  destruct (py_eq _ _).
  - intros [= <-]. exists O, u. split; [lia | reflexivity].
  - intros F. destruct (IH _ F) as (j & old & -> & H).
    exists (S j), old. split; [lia | exact H].
Qed.

(** C10. [save_user(None)] returns normally and changes nothing: the
    database, and the rest of the world, are as before. *)
Theorem save_user_None_unchanged (w : World) : save_user None w = (Ok tt, w).
Proof. reflexivity. Qed.

(** C6. A second [get_user_by_id] with the same id returns what the first
    returned and changes nothing. When the id is absent the first call
    returns the default profile and appends it to the database; when it is
    present the stored profile is returned and nothing is written. *)
Theorem get_user_by_id_twice (id_ : Z) (w : World) :
  let users := users_of (users_database w) in
  let first := get_user_by_id id_ w in
  let second := get_user_by_id id_ (snd first) in
  fst second = fst first /\ snd second = snd first /\
  (find_user id_ users = Ok None ->
     fst first = Ok (new_user id_) /\
     users_database (snd first) = Some (users ++ [new_user id_])) /\
  (forall u, find_user id_ users = Ok (Some u) -> first = (Ok u, w)).
Proof.
  cbv zeta. rewrite (get_user_by_id_run id_ w).
  destruct (find_user id_ (users_of (users_database w))) as [[u|]|e] eqn:F; cbn [fst snd].
  - rewrite get_user_by_id_run, F.
    split; [reflexivity|]. split; [reflexivity|]. split; [discriminate|]. congruence.
  - rewrite get_user_by_id_run. cbn [users_database set_users_database users_of].
    rewrite (find_user_app _ _ _ F). cbn [find_user].
    rewrite new_user_id, py_eq_refl.
    split; [reflexivity|]. split; [reflexivity|]. split; [now split | discriminate].
  - rewrite get_user_by_id_run, F.
    split; [reflexivity|]. split; [reflexivity|]. split; discriminate.
Qed.

(** Id 42 is not in the store and is created by the first call; id 5 is in
    the store. *)
Lemma get_user_by_id_twice_witness :
  fst (get_user_by_id 42 Sample.w0) = Ok (new_user 42) /\
  fst (get_user_by_id 42 (snd (get_user_by_id 42 Sample.w0))) = Ok (new_user 42) /\
  get_user_by_id 5 Sample.w0 = (Ok Sample.bob, Sample.w0).
Proof.
  destruct (get_user_by_id_twice 42 Sample.w0) as (Same & _ & Absent & _).
  destruct (Absent eq_refl) as [First _].
  destruct (get_user_by_id_twice 5 Sample.w0) as (_ & _ & _ & Present).
  split; [exact First|]. split; [now rewrite Same | exact (Present _ eq_refl)].
Defined.

(** C8. From a store in which each id occurs at most once, [save_user] and
    [get_user_by_id] lead to such a store again. [save_user] sets every
    supplied field in the first record with an equal id and keeps that
    record's other fields, or appends the record when no id is equal. *)
Theorem unique_ids_preserved (w : World) :
  let users := users_of (users_database w) in
  unique_ids users ->
  (forall user_data, unique_ids (users_of (users_database (snd (save_user user_data w))))) /\
  (forall id_, unique_ids (users_of (users_database (snd (get_user_by_id id_ w))))) /\
  (forall user_data i, find_index user_data users O = Ok (Some i) ->
     exists old, users !! i = Some old /\
       users_database (snd (save_user (Some user_data) w))
         = Some (<[i := merge_keys user_data old]> users) /\
       forall key, merge_keys user_data old !! key
                   = match user_data !! key with Some v => Some v | None => old !! key end) /\
  (forall user_data, find_index user_data users O = Ok None ->
     users_database (snd (save_user (Some user_data) w)) = Some (users ++ [user_data])).
Proof.
  cbv zeta. intros U. repeat split.
  - intros [ud|]; [|exact U]. rewrite save_user_run.
    destruct (saved ud (users_of (users_database w))) as [l|e] eqn:S; cbn; [|exact U].
    exact (saved_unique _ _ _ S U).
  - intros k. rewrite get_user_by_id_run.
    destruct (find_user k (users_of (users_database w))) as [[u|]|e] eqn:F; cbn; try exact U.
    apply (saved_unique (new_user k) (users_of (users_database w))); [|exact U].
    exact (saved_absent k _ _ (new_user_id k) F).
  - intros ud i F. rewrite save_user_run. unfold saved. rewrite F. cbn.
    destruct (find_index_some _ _ _ _ F) as (j & old & -> & Hold). cbn [Nat.add].
    exists old. split; [exact Hold|]. split; [|apply merge_keys_lookup].
    f_equal. apply list_eq. intros n. destruct (decide (j = n)) as [->|N].
    + rewrite list_lookup_alter_eq, Hold. cbn. symmetry.
      apply list_lookup_insert_eq. now apply lookup_lt_Some in Hold.
    + now rewrite list_lookup_alter_ne, list_lookup_insert_ne.
  - intros ud F. rewrite save_user_run. unfold saved. now rewrite F.
Qed.

(** A store of three profiles with distinct ids, and a save of one of
    them. *)
Lemma unique_ids_preserved_witness :
  unique_ids (users_of (users_database Sample.w0)) /\
  unique_ids (users_of (users_database
    (snd (save_user (Some (Sample.mk_user 5 "bob" "Bob" false false 0)) Sample.w0)))) /\
  unique_ids (users_of (users_database (snd (get_user_by_id 42 Sample.w0)))).
Proof.
  assert (unique_ids (users_of (users_database Sample.w0))) as U
    by (apply distinct_ids_unique; reflexivity).
  destruct (unique_ids_preserved Sample.w0 U) as (S & G & _).
  split; [exact U|]. split; [apply S | apply G].
Defined.

(** ** Well-formed profiles *)

Ltac fields :=
  unfold wf_user, uid, uname, ufull, uadmin, ubanned, utotal in *;
  repeat (rewrite lookup_insert_eq || (rewrite lookup_insert_ne by discriminate));
  try tauto; try reflexivity.

Lemma wf_new_user k : wf_user (new_user k).
Proof. repeat split; reflexivity. Qed.

Lemma uid_new_user k : uid (new_user k) = k.
Proof. reflexivity. Qed.

Lemma wf_set_username u s : wf_user u -> wf_user (<["username" := VStr s]> u).
Proof. intros W. fields. Qed.

Lemma wf_set_full_name u s : wf_user u -> wf_user (<["full_name" := VStr s]> u).
Proof. intros W. fields. Qed.

Lemma wf_set_banned u b : wf_user u -> wf_user (<["banned" := VBool b]> u).
Proof. intros W. fields. Qed.

Lemma wf_set_total u n : wf_user u -> wf_user (<["messages_total" := VInt n]> u).
Proof. intros W. fields. Qed.

Lemma uid_insert u f v : f <> "id" -> uid (<[f := v]> u) = uid u.
Proof. intros N. unfold uid. now rewrite lookup_insert_ne. Qed.

Lemma uadmin_insert u f v : f <> "admin" -> uadmin (<[f := v]> u) = uadmin u.
Proof. intros N. unfold uadmin. now rewrite lookup_insert_ne. Qed.

Lemma ubanned_insert u f v : f <> "banned" -> ubanned (<[f := v]> u) = ubanned u.
Proof. intros N. unfold ubanned. now rewrite lookup_insert_ne. Qed.

Lemma utotal_insert u f v : f <> "messages_total" -> utotal (<[f := v]> u) = utotal u.
Proof. intros N. unfold utotal. now rewrite lookup_insert_ne. Qed.

Lemma uname_insert u f v : f <> "username" -> uname (<[f := v]> u) = uname u.
Proof. intros N. unfold uname. now rewrite lookup_insert_ne. Qed.

Lemma ufull_insert u f v : f <> "full_name" -> ufull (<[f := v]> u) = ufull u.
Proof. intros N. unfold ufull. now rewrite lookup_insert_ne. Qed.

Lemma wf_refresh upd u : wf_user u -> wf_user (refresh upd u).
Proof.
  intros W. unfold refresh. destruct (message upd) as [m|]; [|exact W].
  apply wf_set_full_name. destruct (from_username m); [now apply wf_set_username | exact W].
Qed.

Lemma refresh_id upd u : uid (refresh upd u) = uid u.
Proof.
  unfold refresh. destruct (message upd) as [m|]; [|reflexivity].
  rewrite uid_insert by discriminate.
  destruct (from_username m); [now rewrite uid_insert by discriminate | reflexivity].
Qed.

Lemma refresh_admin upd u : uadmin (refresh upd u) = uadmin u.
Proof.
  unfold refresh. destruct (message upd) as [m|]; [|reflexivity].
  rewrite uadmin_insert by discriminate.
  destruct (from_username m); [now rewrite uadmin_insert by discriminate | reflexivity].
Qed.

Lemma refresh_banned upd u : ubanned (refresh upd u) = ubanned u.
Proof.
  unfold refresh. destruct (message upd) as [m|]; [|reflexivity].
  rewrite ubanned_insert by discriminate.
  destruct (from_username m); [now rewrite ubanned_insert by discriminate | reflexivity].
Qed.

Lemma refresh_total upd u : utotal (refresh upd u) = utotal u.
Proof.
  unfold refresh. destruct (message upd) as [m|]; [|reflexivity].
  rewrite utotal_insert by discriminate.
  destruct (from_username m); [now rewrite utotal_insert by discriminate | reflexivity].
Qed.

Lemma id_is_wf k u : wf_user u -> id_is (VInt k) u = (uid u =? k)%Z.
Proof. intros (H & _). unfold id_is. now rewrite H. Qed.

Lemma find_user_wf k us : wf_users us -> find_user k us = Ok (lookup_user k us).
Proof.
  unfold lookup_user. induction 1 as [|u rest W _ IH]; [reflexivity|].
  cbn. unfold id_is at 1. destruct W as (H & _). rewrite H.
  destruct (py_eq _ _); [reflexivity | exact IH].
Qed.

Lemma lookup_user_found k us u :
  wf_users us -> lookup_user k us = Some u -> wf_user u /\ uid u = k.
Proof.
  unfold lookup_user. intros W H. apply List.find_some in H as [I E].
  assert (wf_user u) as Wu.
  { unfold wf_users in W. rewrite List.Forall_forall in W. now apply W. }
  split; [exact Wu|]. rewrite (id_is_wf _ _ Wu) in E. lia.
Qed.

Lemma wf_view k us : wf_users us -> wf_user (view k us) /\ uid (view k us) = k.
Proof.
  intros W. unfold view. destruct (lookup_user k us) as [u|] eqn:L.
  - exact (lookup_user_found _ _ _ W L).
  - split; [apply wf_new_user | reflexivity].
Qed.

Lemma lookup_user_app_none k us l :
  lookup_user k us = None -> lookup_user k (us ++ l) = lookup_user k l.
Proof.
  unfold lookup_user. induction us as [|u rest IH]; cbn; [reflexivity|].
  destruct (id_is (VInt k) u); [discriminate | exact IH].
Qed.

Lemma lookup_user_app_some k us l u :
  lookup_user k us = Some u -> lookup_user k (us ++ l) = Some u.
Proof.
  unfold lookup_user. induction us as [|x rest IH]; cbn; [discriminate|].
  destruct (id_is (VInt k) x); [congruence | exact IH].
Qed.

Lemma wf_ensure k us : wf_users us -> wf_users (ensure k us).
Proof.
  intros W. unfold ensure. destruct (lookup_user k us); [exact W|].
  apply Forall_app. split; [exact W|]. constructor; [apply wf_new_user | constructor].
Qed.

Lemma lookup_ensure k us : lookup_user k (ensure k us) = Some (view k us).
Proof.
  unfold ensure, view. destruct (lookup_user k us) as [u|] eqn:L; [exact L|].
  rewrite (lookup_user_app_none _ _ _ L). unfold lookup_user. cbn.
  unfold id_is. now rewrite new_user_id, py_eq_refl.
Qed.

Lemma lookup_ensure_other k j us :
  j <> k -> lookup_user j (ensure k us) = lookup_user j us.
Proof.
  intros N. unfold ensure. destruct (lookup_user k us) as [u|] eqn:L; [reflexivity|].
  destruct (lookup_user j us) as [x|] eqn:Lj.
  - now apply lookup_user_app_some.
  - rewrite (lookup_user_app_none _ _ _ Lj). unfold lookup_user. cbn.
    unfold id_is. rewrite new_user_id, py_eq_int.
    destruct (Z.eqb_spec k j); [congruence | reflexivity].
Qed.

(** ** Replacing a stored profile *)

Lemma wf_set_user k new us : wf_users us -> wf_user new -> wf_users (set_user k new us).
Proof.
  intros W N. induction W as [|u rest Wu Wr IH]; cbn; [constructor|].
  destruct (id_is (VInt k) u); constructor; auto.
Qed.

Lemma lookup_set_user k new us old :
  lookup_user k us = Some old -> id_is (VInt k) new = true ->
  lookup_user k (set_user k new us) = Some new.
Proof.
  unfold lookup_user. intros L N. induction us as [|u rest IH]; cbn in *; [discriminate|].
  destruct (id_is (VInt k) u) eqn:E; cbn.
  - now rewrite N.
  - rewrite E. now apply IH.
Qed.

Lemma lookup_set_user_other k j new us :
  wf_users us -> wf_user new -> uid new = k -> j <> k ->
  lookup_user j (set_user k new us) = lookup_user j us.
Proof.
  unfold lookup_user. intros W N Hid Hne.
  induction W as [|u rest Wu _ IH]; cbn; [reflexivity|].
  destruct (id_is (VInt k) u) eqn:E; cbn.
  - rewrite (id_is_wf _ _ Wu) in E. rewrite (id_is_wf _ _ N), (id_is_wf _ _ Wu).
    destruct (Z.eqb_spec (uid new) j); [lia|].
    destruct (Z.eqb_spec (uid u) j); [lia | reflexivity].
  - destruct (id_is (VInt j) u); [reflexivity | exact IH].
Qed.

Lemma set_user_same k us u : lookup_user k us = Some u -> set_user k u us = us.
Proof.
  unfold lookup_user. induction us as [|x rest IH]; cbn; [reflexivity|].
  destruct (id_is (VInt k) x); [congruence|]. intros H. now rewrite (IH H).
Qed.

Lemma set_user_twice k a b us :
  id_is (VInt k) a = true -> set_user k b (set_user k a us) = set_user k b us.
Proof.
  intros A. induction us as [|x rest IH]; cbn; [reflexivity|].
  destruct (id_is (VInt k) x) eqn:E; cbn.
  - now rewrite A.
  - now rewrite E, IH.
Qed.

Lemma insert_merge (old : user) f v : merge_keys (<[f := v]> old) old = <[f := v]> old.
Proof.
  unfold merge_keys. rewrite <- insert_union_l. f_equal. apply map_eq. intros i.
  rewrite lookup_union. now destruct (old !! i).
Qed.

Lemma saved_insert k us old f v :
  wf_users us -> lookup_user k us = Some old -> f <> "id" ->
  saved (<[f := v]> old) us = Ok (set_user k (<[f := v]> old) us).
Proof.
  intros W L N. pose proof (lookup_user_found _ _ _ W L) as [(Hid & _) Hk].
  assert ((<[f := v]> old) !! "id" = Some (VInt k)) as Hud
    by (rewrite lookup_insert_ne by exact N; now rewrite Hid, Hk).
  revert L. unfold lookup_user.
  induction W as [|u rest Wu _ IH]; cbn; [discriminate|].
  rewrite saved_cons, Hud. unfold id_is at 1 3. destruct Wu as (Hu & _). rewrite Hu.
  destruct (py_eq (VInt (uid u)) (VInt k)).
  - intros [= ->]. now rewrite insert_merge.
  - intros L. now rewrite (IH L).
Qed.

Lemma save_insert_run k w old f v :
  wf_db w -> lookup_user k (users_of (users_database w)) = Some old -> f <> "id" ->
  save_user (Some (<[f := v]> old)) w
  = (Ok tt, set_users_database
              (Some (set_user k (<[f := v]> old) (users_of (users_database w)))) w).
Proof.
  intros W L N. rewrite save_user_run. now rewrite (saved_insert k _ _ _ _ W L N).
Qed.

(** ** Sending and logging *)

Lemma sends_app t1 t2 : sends (t1 ++ t2) = sends t1 ++ sends t2.
Proof.
  induction t1 as [|e t IH]; [reflexivity|].
  destruct e; cbn; now rewrite IH.
Qed.

Lemma sleeps_app t1 t2 : sleeps (t1 ++ t2) = sleeps t1 ++ sleeps t2.
Proof.
  induction t1 as [|e t IH]; [reflexivity|].
  destruct e; cbn; now rewrite IH.
Qed.

Lemma builds_app t1 t2 : builds (t1 ++ t2) = (builds t1 + builds t2)%nat.
Proof.
  induction t1 as [|e t IH]; [reflexivity|].
  destruct e; cbn; now rewrite IH.
Qed.

Ltac world :=
  cbn [users_database trace restart_requested_flag form_message event_loop_closed threads
       set_users_database emit set_restart_requested_flag set_form_message
       set_event_loop_closed set_threads frame users_of fst snd] in *.

Section HandlerFacts.

Variable config : Config.
Variable transport : value -> string -> bool.

Lemma send_safe_spec chat text w :
  exists w', _send_safe transport chat text w = (Ok tt, w') /\
    users_database w' = users_database w /\
    sends (trace w') = sends (trace w) ++ [(chat, expand text)] /\
    frame w' = frame w.
Proof.
  unfold _send_safe, bind, modify, logging_error. fold (expand text).
  destruct (transport chat (expand text)); eexists; (split; [reflexivity|]); world;
    rewrite ?sends_app; cbn [sends]; rewrite ?app_nil_r; auto.
Qed.

Lemma log_from_run what u w :
  wf_user u ->
  log_from what u w
  = (Ok tt, emit (Log WARNING (what +:+ " from "
                               +:+ format_user (VStr (ufull u)) (VStr (uname u)) (VInt (uid u)))) w).
Proof.
  intros (Hid & Hn & Hf & _). unfold log_from.
  rewrite (bind_ok _ _ _ _ _ (getitem_run _ _ _ w Hf)).
  rewrite (bind_ok _ _ _ _ _ (getitem_run _ _ _ w Hn)).
  rewrite (bind_ok _ _ _ _ _ (getitem_run _ _ _ w Hid)).
  reflexivity.
Qed.

Lemma get_user_spec k w :
  wf_db w ->
  exists w', get_user_by_id k w = (Ok (view k (users_of (users_database w))), w') /\
    users_of (users_database w') = ensure k (users_of (users_database w)) /\
    sends (trace w') = sends (trace w) /\
    frame w' = frame w.
Proof.
  intros W. rewrite get_user_by_id_run, (find_user_wf _ _ W). unfold view, ensure.
  destruct (lookup_user k (users_of (users_database w))); eexists;
    (split; [reflexivity|]); world; rewrite ?sends_app, ?app_nil_r; auto.
Qed.

(** [_user_check_get] on a well-formed store: the sender's profile is
    looked up or created, handle and full name are refreshed and stored,
    and a banned sender is sent the notice. *)
Lemma user_check_get_spec update w :
  wf_db w ->
  let k := effective_chat_id update in
  let users := users_of (users_database w) in
  let u := refresh update (view k users) in
  exists w', _user_check_get config transport update w = (Ok u, w') /\
    users_of (users_database w') = set_user k u (ensure k users) /\
    sends (trace w') = sends (trace w) ++ (if ubanned u then banned_notice config k else []) /\
    frame w' = frame w.
Proof.
  intros W k users u.
  destruct (get_user_spec k w W) as (w1 & G & D1 & S1 & F1).
  fold users in G, D1.
  destruct (wf_view k users W) as [Wv Kv].
  assert (wf_db w1) as W1 by (unfold wf_db; rewrite D1; now apply wf_ensure).
  assert (lookup_user k (users_of (users_database w1)) = Some (view k users)) as L1
    by (rewrite D1; apply lookup_ensure).
  assert (wf_user u) as Wu by (apply wf_refresh, Wv).
  assert (exists w3,
    (user <- get_user_by_id k ;;
     user <- match (match message update with Some m => from_username m | None => None end) with
             | Some s => let user := <["username" := VStr s]> user in
                         save_user (Some user) ;; ret user
             | None => ret user
             end ;;
     match (match message update with Some m => Some (from_full_name m) | None => None end) with
     | Some s => let user := <["full_name" := VStr s]> user in
                 save_user (Some user) ;; ret user
     | None => ret user
     end) w = (Ok u, w3) /\
    users_of (users_database w3) = set_user k u (ensure k users) /\
    sends (trace w3) = sends (trace w) /\ frame w3 = frame w) as (w3 & E3 & D3 & S3 & F3).
  { rewrite (bind_ok _ _ _ _ _ G). subst u. unfold refresh.
    destruct (message update) as [m|].
    - destruct (from_username m) as [s|].
      + cbv zeta. unfold bind at 1. unfold bind at 1.
        rewrite (save_insert_run k w1 _ "username" (VStr s) W1 L1) by discriminate.
        unfold ret at 1. unfold bind at 1.
        set (ua := <["username" := VStr s]> (view k users)).
        assert (wf_user ua) as Wa by (now apply wf_set_username).
        assert (id_is (VInt k) ua = true) as Ia.
        { rewrite (id_is_wf _ _ Wa). unfold ua. rewrite uid_insert by discriminate. lia. }
        rewrite (save_insert_run k _ ua "full_name" (VStr (from_full_name m))); try discriminate.
        * eexists. split; [reflexivity|]. world. rewrite D1.
          rewrite (set_user_twice _ _ _ _ Ia). auto.
        * unfold wf_db. world. rewrite D1. apply wf_set_user; [now apply wf_ensure | exact Wa].
        * world. rewrite D1. now apply (lookup_set_user _ _ _ (view k users)), Ia; apply lookup_ensure.
      + cbv zeta. unfold ret at 1. unfold bind at 1. unfold bind at 1.
        rewrite (save_insert_run k w1 _ "full_name" (VStr (from_full_name m)) W1 L1)
          by discriminate.
        eexists. split; [reflexivity|]. world. rewrite D1. auto.
    - unfold ret, bind. eexists. split; [reflexivity|]. rewrite D1.
      rewrite (set_user_same _ _ _ (lookup_ensure k users)). auto. }
  unfold _user_check_get. cbv zeta. fold k.
  unfold bind at 1. rewrite G. unfold bind at 1.
  unfold bind at 1 in E3. rewrite G in E3. unfold bind at 1 in E3.
  match type of E3 with
  | match ?c with _ => _ end = _ => destruct c as [[ua|e] wa] eqn:Ea
  end.
  2:{ discriminate. }
  unfold bind at 1. rewrite E3.
  destruct Wu as (_ & _ & _ & _ & Hb & _).
  rewrite (bind_ok _ _ _ _ _ (getitem_run _ _ _ w3 Hb)). cbn [truthy].
  destruct (ubanned u).
  - unfold banned_notice.
    destruct (0 <? String.length (strip (banned_message config)))%nat.
    + destruct (send_safe_spec (VInt k) (strip (banned_message config)) w3)
        as (w4 & E4 & D4 & S4 & F4).
      rewrite (bind_ok _ _ _ _ _ E4). exists w4. split; [reflexivity|].
      rewrite D4, S4, S3, F4. auto.
    + exists w3. split; [reflexivity|]. rewrite app_nil_r. auto.
  - exists w3. split; [reflexivity|]. rewrite app_nil_r. auto.
Qed.

End HandlerFacts.

Lemma append_assoc (a b c : string) : (a +:+ b) +:+ c = a +:+ b +:+ c.
Proof.
  induction a as [|x a IH]; [reflexivity|].
  change (String x ((a +:+ b) +:+ c) = String x (a +:+ b +:+ c)). now f_equal.
Qed.

(** ** bot_message *)

Section MessageFacts.

Variable config : Config.
Variable transport : value -> string -> bool.

(** After [_user_check_get]: the store is well formed and holds the
    refreshed profile of the sender. *)
Lemma user_check_get_full update w :
  wf_db w ->
  let k := effective_chat_id update in
  let users := users_of (users_database w) in
  let u := refresh update (view k users) in
  exists w', _user_check_get config transport update w = (Ok u, w') /\
    users_of (users_database w') = set_user k u (ensure k users) /\
    sends (trace w') = sends (trace w) ++ (if ubanned u then banned_notice config k else []) /\
    frame w' = frame w /\
    wf_db w' /\ wf_user u /\ uid u = k /\
    lookup_user k (users_of (users_database w')) = Some u.
Proof.
  intros W k users u.
  destruct (user_check_get_spec config transport update w W) as (w' & E & D & S & F).
  fold k users u in E, D, S.
  destruct (wf_view k users W) as [Wv Kv].
  assert (wf_user u) as Wu by apply wf_refresh, Wv.
  assert (uid u = k) as Ku by (unfold u; now rewrite refresh_id).
  exists w'. repeat (split; [assumption|]).
  split; [unfold wf_db; rewrite D; apply wf_set_user; [now apply wf_ensure | exact Wu]|].
  split; [exact Wu|]. split; [exact Ku|].
  rewrite D. apply (lookup_set_user _ _ _ (view k users)); [apply lookup_ensure|].
  rewrite (id_is_wf _ _ Wu). lia.
Qed.

(** The broadcast loop of [bot_message]. *)
Lemma broadcast_spec message_text users w :
  wf_users users ->
  exists w',
    for_each users (fun broadcast_user =>
      admin <- getitem broadcast_user "admin" ;;
      if truthy admin then
        log_from "Sending user request to" broadcast_user ;;
        id <- getitem broadcast_user "id" ;;
        _send_safe transport id message_text
      else ret tt) w = (Ok tt, w') /\
    users_database w' = users_database w /\
    sends (trace w') = sends (trace w)
                       ++ map (fun a => (VInt (uid a), expand message_text)) (admins users) /\
    frame w' = frame w.
Proof.
  intros W. revert w. induction W as [|a rest Wa _ IH]; intros w.
  - exists w. split; [reflexivity|]. cbn. now rewrite app_nil_r.
  - cbn [for_each]. unfold admins. cbn [List.filter]. fold (admins rest).
    pose proof Wa as (Hid & _ & _ & Had & _).
    unfold bind at 1. rewrite (bind_ok _ _ _ _ _ (getitem_run _ _ _ w Had)). cbn [truthy].
    destruct (uadmin a).
    + rewrite (bind_ok _ _ _ _ _ (log_from_run _ _ _ Wa)).
      rewrite (bind_ok _ _ _ _ _ (getitem_run _ _ _ _ Hid)).
      destruct (send_safe_spec transport (VInt (uid a)) message_text
                  (emit (Log WARNING ("Sending user request to" +:+ " from "
                     +:+ format_user (VStr (ufull a)) (VStr (uname a)) (VInt (uid a)))) w))
        as (w1 & E1 & D1 & S1 & F1).
      rewrite E1. destruct (IH w1) as (w2 & E2 & D2 & S2 & F2).
      exists w2. split; [exact E2|]. rewrite D2, S2, F2, D1, S1, F1. world.
      rewrite sends_app. cbn [sends map]. rewrite app_nil_r, <- app_assoc. auto.
    + unfold ret at 1. destruct (IH w) as (w2 & E2 & D2 & S2 & F2).
      exists w2. auto.
Qed.

(** What [bot_message] does for a sender who is neither banned nor an
    admin. *)
Lemma bot_message_spec update m w :
  wf_db w -> message update = Some m ->
  let k := effective_chat_id update in
  let users := users_of (users_database w) in
  let u := refresh update (view k users) in
  ubanned u = false -> uadmin u = false ->
  let u2 := <["messages_total" := VInt (utotal u + 1)]> u in
  exists w', bot_message config transport update w = (Ok tt, w') /\
    users_of (users_database w') = set_user k u2 (ensure k users) /\
    sends (trace w') = sends (trace w) ++
      (if (utotal u + 1 <=? user_max_messages config)%Z
       then map (fun a => (VInt (uid a), expand (relay_prefix u +:+ LF +:+ LF +:+ text m)))
                (admins (users_of (users_database w')))
            ++ [(VInt k, expand (confirmation_message config))]
       else []) /\
    frame w' = frame w.
Proof.
  intros W Hm k users u NB NA u2.
  destruct (user_check_get_full update w W)
    as (w1 & E1 & D1 & S1 & F1 & W1 & Wu & Ku & L1).
  fold k users u in E1, D1, S1, Wu, Ku, L1. rewrite NB, app_nil_r in S1.
  pose proof Wu as (Hid & Hn & Hf & Ha & Hb & Ht).
  unfold bot_message. rewrite (bind_ok _ _ _ _ _ E1).
  rewrite (bind_ok _ _ _ _ _ (log_from_run _ _ _ Wu)).
  rewrite (bind_ok _ _ _ _ _ (getitem_run _ _ _ _ Hb)), NB. cbn [truthy].
  rewrite (bind_ok _ _ _ _ _ (getitem_run _ _ _ _ Ha)), NA. cbn [truthy].
  rewrite (bind_ok _ _ _ _ _ (getitem_run _ _ _ _ Ht)).
  unfold lift at 1, bind at 1. cbn [py_add_one as_int]. cbv zeta. fold u2.
  set (w1' := emit _ w1).
  assert (wf_db w1') as W1' by exact W1.
  rewrite (bind_ok _ _ _ _ _
             (save_insert_run k w1' u "messages_total" (VInt (utotal u + 1)) W1' L1
                ltac:(discriminate))).
  fold u2.
  assert (wf_user u2) as Wu2 by (now apply wf_set_total).
  pose proof Wu2 as (Hid2 & Hn2 & Hf2 & _ & _ & Ht2).
  assert (uid u2 = k) as Ku2 by (unfold u2; now rewrite uid_insert by discriminate).
  assert (utotal u2 = utotal u + 1) as Tu2 by (unfold u2, utotal; now rewrite lookup_insert_eq).
  rewrite (bind_ok _ _ _ _ _ (getitem_run _ _ _ _ Ht2)), Tu2.
  unfold lift at 1, bind at 1. cbn [py_le as_int].
  set (w2 := set_users_database _ w1').
  assert (users_of (users_database w2) = set_user k u2 (ensure k users)) as D2.
  { unfold w2, w1'. world. rewrite D1. apply set_user_twice.
    rewrite (id_is_wf _ _ Wu). lia. }
  assert (sends (trace w2) = sends (trace w)) as S2.
  { unfold w2, w1'. world. rewrite sends_app, S1. cbn. now rewrite app_nil_r. }
  assert (frame w2 = frame w) as F2 by (unfold w2, w1'; world; exact F1).
  destruct (utotal u + 1 <=? user_max_messages config)%Z.
  - rewrite Hm. unfold ret at 1, bind at 1.
    rewrite (bind_ok _ _ _ _ _ (read_users_run w2)).
    rewrite (bind_ok _ _ _ _ _ (getitem_run _ _ _ _ Hf2)).
    rewrite (bind_ok _ _ _ _ _ (getitem_run _ _ _ _ Hn2)).
    rewrite (bind_ok _ _ _ _ _ (getitem_run _ _ _ _ Hid2)).
    cbv zeta. cbn [py_str].
    assert (wf_users (users_of (users_database w2))) as W2.
    { rewrite D2. apply wf_set_user; [now apply wf_ensure | exact Wu2]. }
    match goal with
    | |- context [for_each _ (fun b => _ <- _ ;; if _ then _ ;; _ <- _ ;; _send_safe _ _ ?t else _)] =>
        destruct (broadcast_spec t _ w2 W2) as (w3 & E3 & D3 & S3 & F3)
    end.
    rewrite (bind_ok _ _ _ _ _ E3).
    rewrite (bind_ok _ _ _ _ _ (getitem_run _ _ _ _ Hid2)).
    destruct (send_safe_spec transport (VInt (uid u2)) (confirmation_message config) w3)
      as (w4 & E4 & D4 & S4 & F4).
    exists w4. split; [exact E4|]. rewrite D4, S4, F4, D3, S3, F3, S2, F2, Ku2.
    split; [exact D2|]. split; [|reflexivity].
    rewrite <- app_assoc. do 3 f_equal.
    unfold u2. rewrite ufull_insert, uname_insert by discriminate.
    unfold relay_prefix. rewrite Ku. now rewrite !append_assoc.
  - exists w2. split; [reflexivity|]. rewrite app_nil_r. auto.
Qed.

End MessageFacts.

(** ** Texts without a backslash *)

Lemma contains_cons p c s : contains p (String c s) = false -> contains p s = false.
Proof. cbn [contains]. intros H. now apply orb_false_iff in H as [_ H]. Qed.

Lemma contains_head c d s : contains (String c "") (String d s) = false -> c <> d.
Proof.
  cbn [contains startswith]. intros H E. apply orb_false_iff in H as [H _].
  destruct (decide (c = d)); [discriminate | contradiction].
Qed.

Lemma replace_from_fresh c old new s :
  contains (String c "") s = false -> replace_from (String c old) new O s = s.
Proof.
  induction s as [|d s IH]; intros H; [reflexivity|].
  cbn [replace_from startswith].
  destruct (decide (c = d)) as [E|_]; [now apply contains_head in H|].
  f_equal. apply IH. exact (contains_cons _ _ _ H).
Qed.

Lemma replace_from_app_fresh c old new p s :
  contains (String c "") p = false ->
  replace_from (String c old) new O (p +:+ s) = p +:+ replace_from (String c old) new O s.
Proof.
  induction p as [|d p IH]; intros H; [reflexivity|].
  change (String d p +:+ s) with (String d (p +:+ s)).
  cbn [replace_from startswith].
  destruct (decide (c = d)) as [E|_]; [now apply contains_head in H|].
  change (String d p +:+ ?x) with (String d (p +:+ x)).
  f_equal. apply IH. exact (contains_cons _ _ _ H).
Qed.

Lemma expand_fresh s : contains "\" s = false -> expand s = s.
Proof.
  intros H. unfold expand, replace.
  rewrite (replace_from_fresh _ "n" LF s H). exact (replace_from_fresh _ "t" TAB s H).
Qed.

Lemma expand_app_fresh p s : contains "\" p = false -> expand (p +:+ s) = p +:+ expand s.
Proof.
  intros H. unfold expand, replace.
  rewrite (replace_from_app_fresh _ "n" LF p s H).
  exact (replace_from_app_fresh _ "t" TAB p _ H).
Qed.

Lemma contains_app_fresh c a b :
  contains (String c "") a = false -> contains (String c "") b = false ->
  contains (String c "") (a +:+ b) = false.
Proof.
  induction a as [|d a IH]; intros Ha Hb; [exact Hb|].
  change (String d a +:+ b) with (String d (a +:+ b)).
  cbn [contains startswith].
  destruct (decide (c = d)) as [E|_]; [now apply contains_head in Ha|].
  cbn [orb]. apply IH; [exact (contains_cons _ _ _ Ha) | exact Hb].
Qed.

Lemma string_of_uint_fresh d : contains "\" (NilEmpty.string_of_uint d) = false.
Proof. induction d; cbn [NilEmpty.string_of_uint]; [reflexivity | ..]; exact IHd. Qed.

Lemma str_of_int_fresh n : contains "\" (str_of_int n) = false.
Proof.
  unfold str_of_int, NilZero.string_of_int, NilZero.string_of_uint.
  destruct (Z.to_int n) as [d|d].
  - destruct d; try reflexivity; apply (string_of_uint_fresh (_ _)).
  - assert (forall s, contains "\" s = false -> contains "\" (String "-" s) = false) as M
      by (intros s H; cbn [contains startswith]; exact H).
    apply M. destruct d; try reflexivity; apply (string_of_uint_fresh (_ _)).
Qed.

(** ** Quota and relay *)

Section Quota.

Variable config : Config.
Variable transport : value -> string -> bool.

(** One text message of a sender who is neither banned nor an admin, in
    terms of the sender's profile before and after. *)
Lemma bot_message_step update m w :
  wf_db w -> message update = Some m ->
  let k := effective_chat_id update in
  let v := view k (users_of (users_database w)) in
  ubanned v = false -> uadmin v = false ->
  exists w', bot_message config transport update w = (Ok tt, w') /\
    wf_db w' /\
    lookup_user k (users_of (users_database w'))
      = Some (<["messages_total" := VInt (utotal v + 1)]> (refresh update v)) /\
    utotal (view k (users_of (users_database w'))) = utotal v + 1 /\
    ubanned (view k (users_of (users_database w'))) = false /\
    uadmin (view k (users_of (users_database w'))) = false /\
    sends (trace w') = sends (trace w) ++
      (if (utotal v + 1 <=? user_max_messages config)%Z
       then map (fun a => (VInt (uid a),
                           expand (relay_prefix (refresh update v) +:+ LF +:+ LF +:+ text m)))
                (admins (users_of (users_database w')))
            ++ [(VInt k, expand (confirmation_message config))]
       else []) /\
    frame w' = frame w.
Proof.
  intros W Hm k v NB NA.
  destruct (wf_view k (users_of (users_database w)) W) as [Wv Kv]. fold v in Wv, Kv.
  assert (wf_user (refresh update v)) as Wu by apply wf_refresh, Wv.
  destruct (bot_message_spec config transport update m w W Hm) as (w' & E & D & S & F).
  { fold k v. now rewrite refresh_banned. }
  { fold k v. now rewrite refresh_admin. }
  fold k v in D, S. rewrite refresh_total in D, S.
  set (u2 := <["messages_total" := VInt (utotal v + 1)]> (refresh update v)) in *.
  assert (wf_user u2) as Wu2 by (now apply wf_set_total).
  assert (uid u2 = k) as Ku2
    by (unfold u2; rewrite uid_insert by discriminate; now rewrite refresh_id).
  assert (lookup_user k (users_of (users_database w')) = Some u2) as L.
  { rewrite D. apply (lookup_set_user _ _ _ v); [apply lookup_ensure|].
    rewrite (id_is_wf _ _ Wu2). lia. }
  exists w'. split; [exact E|].
  split; [unfold wf_db; rewrite D; apply wf_set_user; [now apply wf_ensure | exact Wu2]|].
  split; [exact L|]. unfold view at 1 2 3. rewrite L.
  split; [unfold u2, utotal; now rewrite lookup_insert_eq|].
  split; [unfold u2; rewrite ubanned_insert by discriminate; now rewrite refresh_banned|].
  split; [unfold u2; rewrite uadmin_insert by discriminate; now rewrite refresh_admin|].
  split; [exact S | exact F].
Qed.

(** Text messages of one sender, one after the other: the counter grows by
    one with each, and once the quota is used up nothing is sent. *)
Lemma bot_messages_count k updates : forall w,
  wf_db w ->
  Forall (fun update => effective_chat_id update = k /\ is_Some (message update)) updates ->
  let v := view k (users_of (users_database w)) in
  ubanned v = false -> uadmin v = false ->
  exists w', for_each updates (bot_message config transport) w = (Ok tt, w') /\
    wf_db w' /\
    utotal (view k (users_of (users_database w'))) = utotal v + Z.of_nat (length updates) /\
    ubanned (view k (users_of (users_database w'))) = false /\
    uadmin (view k (users_of (users_database w'))) = false /\
    (user_max_messages config <= utotal v -> sends (trace w') = sends (trace w)).
Proof.
  induction updates as [|update rest IH]; intros w W Hall v NB NA.
  - exists w. split; [reflexivity|]. cbn [length]. rewrite Z.add_0_r. auto.
  - inversion Hall as [|? ? [Hk [m Hm]] Hrest]; subst.
    destruct (bot_message_step update m w W Hm NB NA)
      as (w1 & E1 & W1 & _ & T1 & B1 & A1 & S1 & _).
    destruct (IH w1 W1 Hrest B1 A1) as (w2 & E2 & W2 & T2 & B2 & A2 & S2).
    exists w2. cbn [for_each]. rewrite (bind_ok _ _ _ _ _ E1).
    split; [exact E2|]. split; [exact W2|].
    split; [rewrite T2, T1; fold v; cbn [length]; lia|].
    split; [exact B2|]. split; [exact A2|].
    intros Hmax. rewrite S2 by (rewrite T1; fold v; lia). rewrite S1. fold v.
    destruct (Z.leb_spec (utotal v + 1) (user_max_messages config)); [lia|].
    apply app_nil_r.
Qed.

End Quota.

Lemma admins_ensure k us : admins (ensure k us) = admins us.
Proof.
  unfold ensure. destruct (lookup_user k us); [reflexivity|].
  unfold admins. rewrite List.filter_app. cbn. apply app_nil_r.
Qed.

Lemma admins_set_user k new us old :
  lookup_user k us = Some old -> uadmin old = false -> uadmin new = false ->
  admins (set_user k new us) = admins us.
Proof.
  unfold lookup_user, admins. intros L O N.
  induction us as [|x rest IH]; cbn in *; [reflexivity|].
  destruct (id_is (VInt k) x).
  - injection L as ->. cbn. now rewrite N, O.
  - cbn. now rewrite (IH L).
Qed.

Ltac wf_closed := repeat (constructor || split); reflexivity.

(** C1. A text message of a sender who is neither banned nor an admin
    raises the sender's stored [messages_total] by one. It is relayed to the
    admins and confirmed to the sender when the new counter is at most
    [user_max_messages], so also when it just reaches it, and nothing at all
    is sent when the new counter is above. Any number of further messages
    keep raising the counter by one each, and once the counter has reached
    the maximum none of them sends anything. *)
Theorem quota_enforced (config : Config) (transport : value -> string -> bool)
    (update : Update) (m : Message) (w : World) :
  wf_db w -> message update = Some m ->
  let k := effective_chat_id update in
  let v := view k (users_of (users_database w)) in
  ubanned v = false -> uadmin v = false ->
  exists w', bot_message config transport update w = (Ok tt, w') /\
    utotal (view k (users_of (users_database w'))) = utotal v + 1 /\
    (utotal v + 1 <= user_max_messages config ->
       sends (trace w') = sends (trace w)
         ++ map (fun a => (VInt (uid a),
                           expand (relay_prefix (refresh update v) +:+ LF +:+ LF +:+ text m)))
                (admins (users_of (users_database w')))
         ++ [(VInt k, expand (confirmation_message config))]) /\
    (user_max_messages config < utotal v + 1 -> sends (trace w') = sends (trace w)) /\
    (forall later,
       Forall (fun update => effective_chat_id update = k /\ is_Some (message update)) later ->
       exists w'', for_each later (bot_message config transport) w' = (Ok tt, w'') /\
         utotal (view k (users_of (users_database w'')))
           = utotal v + 1 + Z.of_nat (length later) /\
         (user_max_messages config <= utotal v + 1 -> sends (trace w'') = sends (trace w'))).
Proof.
  intros W Hm k v NB NA.
  destruct (bot_message_step config transport update m w W Hm NB NA)
    as (w' & E & W' & _ & T & B & A & S & _).
  fold k v in T, B, A, S.
  exists w'. split; [exact E|]. split; [exact T|].
  split; [|split].
  - intros H. rewrite S. destruct (Z.leb_spec (utotal v + 1) (user_max_messages config)); [|lia].
    reflexivity.
  - intros H. rewrite S. destruct (Z.leb_spec (utotal v + 1) (user_max_messages config)); [lia|].
    apply app_nil_r.
  - intros later Hl.
    destruct (bot_messages_count config transport k later w' W' Hl B A)
      as (w'' & E2 & _ & T2 & _ & _ & S2).
    exists w''. split; [exact E2|]. rewrite T2, T. split; [reflexivity|].
    intros H. apply S2. rewrite T. exact H.
Qed.

(** The third message of a sender with two messages so far, with a quota of
    three, is relayed, and a fourth one is dropped. *)
Lemma quota_enforced_witness :
  exists w', bot_message Sample.cfg Sample.always_delivered (Sample.from_alice "hi") Sample.w2
             = (Ok tt, w') /\
    utotal (view 42 (users_of (users_database w'))) = 3 /\
    sends (trace w') = [(VInt 1, "Alice A (@alice) (42)" +:+ LF +:+ LF +:+ "hi");
                        (VInt 42, "Sent" +:+ LF +:+ "Thank you")] /\
    exists w'', bot_message Sample.cfg Sample.always_delivered (Sample.from_alice "again") w'
                = (Ok tt, w'') /\
      utotal (view 42 (users_of (users_database w''))) = 4 /\
      sends (trace w'') = sends (trace w').
Proof.
  destruct (quota_enforced Sample.cfg Sample.always_delivered (Sample.from_alice "hi")
              (mkMessage (Some "alice") "Alice A" "hi") Sample.w2
              ltac:(wf_closed) eq_refl eq_refl eq_refl) as (w' & E & T & S & _ & L).
  exists w'. split; [exact E|]. split; [exact T|].
  assert (sends (trace w') = [(VInt 1, "Alice A (@alice) (42)" +:+ LF +:+ LF +:+ "hi");
                              (VInt 42, "Sent" +:+ LF +:+ "Thank you")]) as S'.
  { injection E as <-. reflexivity. }
  split; [exact S'|].
  destruct (L [Sample.from_alice "again"]) as (w'' & E2 & T2 & S2).
  { constructor; [|constructor]. split; [reflexivity | now eexists]. }
  exists w''. cbn [for_each] in E2. unfold bind at 1 in E2.
  destruct (bot_message Sample.cfg Sample.always_delivered (Sample.from_alice "again") w')
    as [[[]|e] wx] eqn:EQ; [|discriminate].
  injection E2 as <-. split; [reflexivity|]. split; [exact T2|]. apply S2. vm_compute. discriminate.
Defined.

Lemma relay_prefix_fresh u :
  contains "\" (ufull u) = false -> contains "\" (uname u) = false ->
  contains "\" (relay_prefix u) = false.
Proof.
  intros F N. unfold relay_prefix.
  repeat (apply contains_app_fresh; [first [exact F | exact N | reflexivity | apply str_of_int_fresh] |]).
  reflexivity.
Qed.

(** C3. A text message within quota of a sender who is neither banned nor an
    admin: each profile of the store with a true admin flag, and nobody
    else, is sent the text headed by [full_name (@username) (id)] of the
    sender and an empty line, and then the sender is sent the confirmation
    message. Every text passes through the escape expansion of
    [_send_safe]; a header without a backslash is sent as it is. The admins
    are those of the store before the message. *)
Theorem relay_to_admins (config : Config) (transport : value -> string -> bool)
    (update : Update) (m : Message) (w : World) :
  wf_db w -> message update = Some m ->
  let k := effective_chat_id update in
  let v := view k (users_of (users_database w)) in
  ubanned v = false -> uadmin v = false ->
  utotal v + 1 <= user_max_messages config ->
  let u := refresh update v in
  let copy := expand (relay_prefix u +:+ LF +:+ LF +:+ text m) in
  exists w', bot_message config transport update w = (Ok tt, w') /\
    sends (trace w') = sends (trace w)
      ++ map (fun a => (VInt (uid a), copy)) (admins (users_of (users_database w')))
      ++ [(VInt k, expand (confirmation_message config))] /\
    admins (users_of (users_database w')) = admins (users_of (users_database w)) /\
    ufull u = from_full_name m /\
    uname u = match from_username m with Some s => s | None => uname v end /\
    uid u = k /\
    (contains "\" (ufull u) = false -> contains "\" (uname u) = false ->
     copy = relay_prefix u +:+ LF +:+ LF +:+ expand (text m)).
Proof.
  intros W Hm k v NB NA Q u copy.
  destruct (wf_view k (users_of (users_database w)) W) as [Wv Kv]. fold v in Wv, Kv.
  destruct (bot_message_spec config transport update m w W Hm) as (w' & E & D & S & _).
  { fold k v. now rewrite refresh_banned. }
  { fold k v. now rewrite refresh_admin. }
  fold k v u in D, S. unfold u in S at 1. rewrite refresh_total in S.
  destruct (Z.leb_spec (utotal v + 1) (user_max_messages config)); [|lia].
  exists w'. split; [exact E|]. split; [exact S|].
  split.
  { rewrite D, (admins_set_user k _ _ v); [apply admins_ensure | apply lookup_ensure | exact NA |].
    rewrite uadmin_insert by discriminate. unfold u. now rewrite refresh_admin. }
  split; [|split; [|split]].
  - unfold u, refresh. rewrite Hm. unfold ufull. now rewrite lookup_insert_eq.
  - unfold u, refresh. rewrite Hm. rewrite uname_insert by discriminate.
    destruct (from_username m); [|reflexivity]. unfold uname. now rewrite lookup_insert_eq.
  - unfold u. now rewrite refresh_id.
  - intros F N. unfold copy.
    rewrite <- append_assoc, expand_app_fresh.
    + rewrite (append_assoc (relay_prefix u)). now do 2 f_equal.
    + apply contains_app_fresh; [now apply relay_prefix_fresh | reflexivity].
Qed.

(** Sender 42, handle alice, full name Alice A, with two admins in the
    store. *)
Lemma relay_to_admins_witness :
  exists w', bot_message Sample.cfg Sample.always_delivered (Sample.from_alice "hi") Sample.w0
             = (Ok tt, w') /\
    relay_prefix (refresh (Sample.from_alice "hi") (view 42 (users_of (users_database Sample.w0))))
      = "Alice A (@alice) (42)" /\
    sends (trace w') = [(VInt 1, "Alice A (@alice) (42)" +:+ LF +:+ LF +:+ "hi");
                        (VInt 7, "Alice A (@alice) (42)" +:+ LF +:+ LF +:+ "hi");
                        (VInt 42, "Sent" +:+ LF +:+ "Thank you")].
Proof.
  destruct (relay_to_admins Sample.cfg Sample.always_delivered (Sample.from_alice "hi")
              (mkMessage (Some "alice") "Alice A" "hi") Sample.w0
              ltac:(wf_closed) eq_refl eq_refl eq_refl ltac:(vm_compute; discriminate))
    as (w' & E & S & _).
  exists w'. split; [exact E|]. split; [reflexivity|].
  injection E as <-. reflexivity.
Defined.

(** A full name that holds the characters backslash and [n] is relayed with
    a line break in their place, like any text [_send_safe] sends. *)
Example relay_header_with_escape :
  sends (trace (snd (bot_message Sample.cfg Sample.always_delivered
                       (mkUpdate 42 (Some (mkMessage (Some "alice") "C:\new" "hi")))
                       (Sample.world_of (Some [Sample.admin1])))))
  = [(VInt 1, "C:" +:+ LF +:+ "ew (@alice) (42)" +:+ LF +:+ LF +:+ "hi");
     (VInt 42, "Sent" +:+ LF +:+ "Thank you")].
Proof. reflexivity. Qed.

(** ** The ban gate *)

Section BanGate.

Variable config : Config.
Variable transport : value -> string -> bool.
Variable int_of_str : string -> Z + string.

(** Every handler but [/chatid] is, for a banned sender,
    [_user_check_get] and one log line. *)
Lemma banned_gate h update args w :
  wf_db w ->
  let k := effective_chat_id update in
  let u := refresh update (view k (users_of (users_database w))) in
  ubanned u = true -> h <> on_chatid ->
  exists w1 line,
    _user_check_get config transport update w = (Ok u, w1) /\
    run_handler config transport int_of_str h update args w
    = (Ok tt, emit (Log WARNING line) w1).
Proof.
  intros W k u B N.
  destruct (user_check_get_full config transport update w W)
    as (w1 & E1 & _ & _ & _ & _ & Wu & _ & _).
  fold k u in E1, Wu. pose proof Wu as (_ & _ & _ & _ & Hb & _). rewrite B in Hb.
  exists w1.
  destruct h; try contradiction; cbn [run_handler];
    unfold bot_command_start, bot_message, bot_command_users, bot_command_ban,
      bot_command_unban, bot_command_ban_unban, bot_command_restart,
      bot_command_resetmessages;
    eexists; (split; [exact E1|]);
    rewrite (bind_ok _ _ _ _ _ E1);
    rewrite (bind_ok _ _ _ _ _ (log_from_run _ _ _ Wu));
    rewrite (bind_ok _ _ _ _ _ (getitem_run _ _ _ _ Hb));
    cbn [truthy]; reflexivity.
Qed.

(** [/chatid] answers with the id after [_user_check_get], whatever the
    flags of the sender. *)
Lemma chatid_spec update w :
  wf_db w ->
  let k := effective_chat_id update in
  let u := refresh update (view k (users_of (users_database w))) in
  exists w', bot_command_chatid config transport update w = (Ok tt, w') /\
    users_of (users_database w') = set_user k u (ensure k (users_of (users_database w))) /\
    sends (trace w') = sends (trace w)
      ++ (if ubanned u then banned_notice config k else [])
      ++ [(VInt k, str_of_int k)] /\
    frame w' = frame w.
Proof.
  intros W k u.
  destruct (user_check_get_full config transport update w W)
    as (w1 & E1 & D1 & S1 & F1 & _ & Wu & Ku & _).
  fold k u in E1, D1, S1, Wu, Ku. pose proof Wu as (Hid & _).
  unfold bot_command_chatid.
  rewrite (bind_ok _ _ _ _ _ E1).
  rewrite (bind_ok _ _ _ _ _ (log_from_run _ _ _ Wu)).
  rewrite (bind_ok _ _ _ _ _ (getitem_run _ _ _ _ Hid)).
  cbn [py_str]. rewrite Ku.
  match goal with
  | |- context [_send_safe _ _ _ ?x] =>
      destruct (send_safe_spec transport (VInt k) (str_of_int k) x) as (w2 & E2 & D2 & S2 & F2)
  end.
  exists w2. split; [exact E2|]. rewrite D2, S2, F2. world.
  rewrite sends_app, S1. cbn [sends]. rewrite app_nil_r, <- app_assoc.
  rewrite (expand_fresh _ (str_of_int_fresh k)). auto.
Qed.

End BanGate.

(** C2. A banned sender: for every handler except [/chatid] the handler
    does what [_user_check_get] does (it refreshes the stored handle and full
    name and sends the banned notice, stripped, when that is not empty) and
    then only writes a log line, so the notice is the only message sent and
    the store and the bot's fields are those [_user_check_get] left.
    [/chatid] sends, for every sender, after the notice a banned sender gets,
    the sender's chat id in decimal to that chat. *)
Theorem ban_gate (config : Config) (transport : value -> string -> bool)
    (int_of_str : string -> Z + string) (update : Update) (args : option (list string))
    (w : World) :
  wf_db w ->
  let k := effective_chat_id update in
  let users := users_of (users_database w) in
  let u := refresh update (view k users) in
  (ubanned (view k users) = true ->
   forall h, h <> on_chatid ->
     exists w1 w' line,
       _user_check_get config transport update w = (Ok u, w1) /\
       run_handler config transport int_of_str h update args w = (Ok tt, w') /\
       w' = emit (Log WARNING line) w1 /\
       sends (trace w') = sends (trace w) ++ banned_notice config k /\
       banned_notice config k
         = (if (0 <? String.length (strip (banned_message config)))%nat
            then [(VInt k, expand (strip (banned_message config)))] else []) /\
       users_of (users_database w') = set_user k u (ensure k users) /\
       frame w' = frame w) /\
  (exists w', run_handler config transport int_of_str on_chatid update args w = (Ok tt, w') /\
     sends (trace w') = sends (trace w)
       ++ (if ubanned (view k users) then banned_notice config k else [])
       ++ [(VInt k, str_of_int k)] /\
     users_of (users_database w') = set_user k u (ensure k users) /\
     frame w' = frame w).
Proof.
  intros W k users u. split.
  - intros B h N.
    assert (ubanned u = true) as Bu by (unfold u; now rewrite refresh_banned).
    destruct (banned_gate config transport int_of_str h update args w W Bu N)
      as (w1 & line & E1 & R).
    destruct (user_check_get_spec config transport update w W) as (w1' & E1' & D1 & S1 & F1).
    fold k users u in E1', D1, S1. rewrite E1 in E1'. injection E1' as <-.
    rewrite Bu in S1.
    exists w1, (emit (Log WARNING line) w1), line.
    split; [exact E1|]. split; [exact R|]. split; [reflexivity|]. world.
    rewrite sends_app, S1. cbn [sends]. rewrite app_nil_r. auto.
  - destruct (chatid_spec config transport update w W) as (w' & E & D & S & F).
    fold k users u in D, S. unfold u in S. rewrite refresh_banned in S.
    exists w'. auto.
Qed.

(** Bob is banned: [/start] and a text message get him the notice and
    nothing else, [/chatid] gets him the notice and his id. *)
Lemma ban_gate_witness :
  sends (trace (snd (run_handler Sample.cfg Sample.always_delivered Sample.int_literal
                       on_start Sample.from_bob None Sample.w0)))
    = [(VInt 5, "You are banned")] /\
  sends (trace (snd (run_handler Sample.cfg Sample.always_delivered Sample.int_literal
                       on_message Sample.from_bob None Sample.w0)))
    = [(VInt 5, "You are banned")] /\
  sends (trace (snd (run_handler Sample.cfg Sample.always_delivered Sample.int_literal
                       on_chatid Sample.from_bob None Sample.w0)))
    = [(VInt 5, "You are banned"); (VInt 5, "5")].
Proof.
  destruct (ban_gate Sample.cfg Sample.always_delivered Sample.int_literal Sample.from_bob None
              Sample.w0 ltac:(wf_closed)) as [G (wc & Ec & Sc & _)].
  destruct (G eq_refl on_start ltac:(discriminate)) as (? & ws & ? & _ & Es & _ & Ss & _).
  destruct (G eq_refl on_message ltac:(discriminate)) as (? & wm & ? & _ & Em & _ & Sm & _).
  rewrite Es, Em, Ec. cbn [snd]. rewrite Ss, Sm, Sc. repeat split; reflexivity.
Defined.

(** ** /ban and /unban *)

Section BanUnban.

Variable config : Config.
Variable transport : value -> string -> bool.
Variable int_of_str : string -> Z + string.

(** [/ban] and [/unban] of a sender who is an admin and not banned, by
    what [context.args] holds. [users1] is the store [_user_check_get]
    leaves. *)
Lemma ban_unban_spec ban update args w :
  wf_db w ->
  let k := effective_chat_id update in
  let users := users_of (users_database w) in
  let u := refresh update (view k users) in
  let users1 := set_user k u (ensure k users) in
  ubanned u = false -> uadmin u = true ->
  exists w', bot_command_ban_unban config transport int_of_str ban update args w = (Ok tt, w') /\
    frame w' = frame w /\ wf_users users1 /\ lookup_user k users1 = Some u /\
    match args with
    | None | Some [] =>
        users_of (users_database w') = users1 /\ sends (trace w') = sends (trace w)
    | Some (arg0 :: _) =>
        match int_of_str (strip arg0) with
        | inr e =>
            users_of (users_database w') = users1 /\
            sends (trace w') = sends (trace w) ++ [(VInt k, expand e)]
        | inl t =>
            users_of (users_database w')
              = set_user t (<["banned" := VBool ban]> (view t users1)) (ensure t users1) /\
            sends (trace w') = sends (trace w)
              ++ [(VInt k, expand (if ban then ban_confirmation_message config
                                   else unban_confirmation_message config))]
        end
    end.
Proof.
  intros W k users u users1 NB A.
  destruct (user_check_get_full config transport update w W)
    as (w1 & E1 & D1 & S1 & F1 & W1 & Wu & Ku & L1).
  fold k users u in E1, D1, S1, Wu, Ku, L1. fold users1 in D1.
  rewrite NB, app_nil_r in S1.
  pose proof Wu as (Hid & _ & _ & Ha & Hb & _).
  unfold bot_command_ban_unban.
  rewrite (bind_ok _ _ _ _ _ E1).
  rewrite (bind_ok _ _ _ _ _ (log_from_run _ _ _ Wu)).
  rewrite (bind_ok _ _ _ _ _ (getitem_run _ _ _ _ Hb)), NB. cbn [truthy].
  rewrite (bind_ok _ _ _ _ _ (getitem_run _ _ _ _ Ha)), A. cbn [truthy negb].
  set (w1' := emit _ w1).
  assert (wf_db w1') as W1' by exact W1.
  assert (users_of (users_database w1') = users1) as D1' by exact D1.
  assert (sends (trace w1') = sends (trace w)) as S1'.
  { unfold w1'. world. rewrite sends_app, S1. cbn. apply app_nil_r. }
  assert (frame w1' = frame w) as F1' by exact F1.
  assert (wf_users users1) as Wus by (rewrite <- D1; exact W1).
  assert (lookup_user k users1 = Some u) as Lk by (rewrite <- D1; exact L1).
  unfold with_target.
  destruct args as [[|arg0 rest]|].
  - exists w1'. unfold ret. auto 10.
  - destruct (int_of_str (strip arg0)) as [t|e].
    + destruct (get_user_spec t w1' W1') as (w2 & E2 & D2 & S2 & F2).
      rewrite D1' in E2, D2.
      rewrite (bind_ok _ _ _ _ _ E2). cbv zeta.
      assert (wf_db w2) as W2 by (unfold wf_db; rewrite D2; now apply wf_ensure).
      assert (lookup_user t (users_of (users_database w2)) = Some (view t users1)) as L2
        by (rewrite D2; apply lookup_ensure).
      rewrite (bind_ok _ _ _ _ _
                 (save_insert_run t w2 _ "banned" (VBool ban) W2 L2 ltac:(discriminate))).
      rewrite (bind_ok _ _ _ _ _ (getitem_run _ _ _ _ Hid)). rewrite Ku.
      match goal with
      | |- context [set_users_database ?d w2] => set (w3 := set_users_database d w2)
      end.
      assert (exists w4,
        (if ban then _send_safe transport (VInt k) (ban_confirmation_message config)
         else _send_safe transport (VInt k) (unban_confirmation_message config)) w3
        = (Ok tt, w4) /\ users_database w4 = users_database w3 /\
        sends (trace w4) = sends (trace w3)
          ++ [(VInt k, expand (if ban then ban_confirmation_message config
                               else unban_confirmation_message config))] /\
        frame w4 = frame w3) as (w4 & E4 & D4 & S4 & F4)
        by (destruct ban; apply send_safe_spec).
      exists w4. split; [exact E4|]. rewrite D4, S4, F4.
      split; [transitivity (frame w2); [reflexivity | now rewrite F2]|].
      split; [exact Wus|]. split; [exact Lk|].
      unfold w3. cbn [users_database set_users_database trace users_of].
      rewrite D2, S2, S1'. auto.
    + rewrite (bind_ok _ _ _ _ _ (getitem_run _ _ _ _ Hid)). rewrite Ku.
      destruct (send_safe_spec transport (VInt k) e w1') as (w2 & E2 & D2 & S2 & F2).
      exists w2. split; [exact E2|]. rewrite D2, S2, F2, D1', S1', F1'. auto 10.
  - exists w1'. unfold ret. auto 10.
Qed.

End BanUnban.

(** C4 (as the code has it). [/ban] and [/unban] of an admin who is not
    banned. Without an argument the handler stops and sends nothing. With
    arguments the first one, stripped, is parsed as an integer and the others
    are ignored. When it does not parse, the error text is sent to the admin
    and the store stays as [_user_check_get] left it, which differs from the
    store before only in the admin's own record. When it parses to [t], the
    profile of [t] is looked up or created, its banned flag is set to [ban],
    it is stored with its other fields as they were, no other id's profile
    changes, and the admin is sent the ban or unban confirmation. An
    [/unban t] of a non-banned admin after that leaves [t] not banned. *)
Theorem ban_unban_target (config : Config) (transport : value -> string -> bool)
    (int_of_str : string -> Z + string) (ban : bool) (update : Update)
    (args : option (list string)) (w : World) :
  wf_db w ->
  let k := effective_chat_id update in
  let users := users_of (users_database w) in
  ubanned (view k users) = false -> uadmin (view k users) = true ->
  let users1 := set_user k (refresh update (view k users)) (ensure k users) in
  let confirmation := if ban then ban_confirmation_message config
                      else unban_confirmation_message config in
  exists w', bot_command_ban_unban config transport int_of_str ban update args w = (Ok tt, w') /\
    wf_db w' /\
    (forall j, j <> k -> lookup_user j users1 = lookup_user j users) /\
    (args = None \/ args = Some [] ->
       users_of (users_database w') = users1 /\ sends (trace w') = sends (trace w)) /\
    (forall arg0 rest e, args = Some (arg0 :: rest) -> int_of_str (strip arg0) = inr e ->
       users_of (users_database w') = users1 /\
       sends (trace w') = sends (trace w) ++ [(VInt k, expand e)]) /\
    (forall arg0 rest t, args = Some (arg0 :: rest) -> int_of_str (strip arg0) = inl t ->
       lookup_user t (users_of (users_database w'))
         = Some (<["banned" := VBool ban]> (view t users1)) /\
       ubanned (view t (users_of (users_database w'))) = ban /\
       (forall j, j <> t -> lookup_user j (users_of (users_database w')) = lookup_user j users1) /\
       sends (trace w') = sends (trace w) ++ [(VInt k, expand confirmation)] /\
       (forall update2 arg0' rest',
          let k2 := effective_chat_id update2 in
          ubanned (view k2 (users_of (users_database w'))) = false ->
          uadmin (view k2 (users_of (users_database w'))) = true ->
          int_of_str (strip arg0') = inl t ->
          exists w'', bot_command_unban config transport int_of_str update2
                        (Some (arg0' :: rest')) w' = (Ok tt, w'') /\
            ubanned (view t (users_of (users_database w''))) = false)).
Proof.
  intros W k users NB A users1 confirmation.
  assert (forall b upd ar x, wf_db x ->
    let kx := effective_chat_id upd in
    let usx := users_of (users_database x) in
    let ux1 := set_user kx (refresh upd (view kx usx)) (ensure kx usx) in
    ubanned (view kx usx) = false -> uadmin (view kx usx) = true ->
    exists x', bot_command_ban_unban config transport int_of_str b upd ar x = (Ok tt, x') /\
      wf_users ux1 /\
      match ar with
      | None | Some [] => users_of (users_database x') = ux1 /\ sends (trace x') = sends (trace x)
      | Some (arg0 :: _) =>
          match int_of_str (strip arg0) with
          | inr e => users_of (users_database x') = ux1 /\
                     sends (trace x') = sends (trace x) ++ [(VInt kx, expand e)]
          | inl t =>
              users_of (users_database x')
                = set_user t (<["banned" := VBool b]> (view t ux1)) (ensure t ux1) /\
              sends (trace x') = sends (trace x)
                ++ [(VInt kx, expand (if b then ban_confirmation_message config
                                      else unban_confirmation_message config))]
          end
      end) as Spec.
  { intros b upd ar x Wx kx usx ux1 NBx Ax.
    destruct (ban_unban_spec config transport int_of_str b upd ar x Wx)
      as (x' & E & _ & Wus & _ & M).
    - fold kx usx. now rewrite refresh_banned.
    - fold kx usx. now rewrite refresh_admin.
    - exists x'. auto. }
  assert (forall b t us, wf_users us ->
    let us' := set_user t (<["banned" := VBool b]> (view t us)) (ensure t us) in
    wf_users us' /\
    lookup_user t us' = Some (<["banned" := VBool b]> (view t us)) /\
    ubanned (view t us') = b /\
    (forall j, j <> t -> lookup_user j us' = lookup_user j us)) as Target.
  { intros b t us Wus us'. destruct (wf_view t us Wus) as [Wv Kv].
    assert (wf_user (<["banned" := VBool b]> (view t us))) as Wb by (now apply wf_set_banned).
    assert (uid (<["banned" := VBool b]> (view t us)) = t) as Kb
      by (now rewrite uid_insert by discriminate).
    assert (lookup_user t us' = Some (<["banned" := VBool b]> (view t us))) as L.
    { apply (lookup_set_user _ _ _ (view t us)); [apply lookup_ensure|].
      rewrite (id_is_wf _ _ Wb). lia. }
    split; [apply wf_set_user; [now apply wf_ensure | exact Wb]|].
    split; [exact L|].
    split; [unfold view at 1; rewrite L; unfold ubanned; now rewrite lookup_insert_eq|].
    intros j N. unfold us'.
    rewrite lookup_set_user_other; auto using wf_ensure.
    now apply lookup_ensure_other. }
  destruct (Spec ban update args w W NB A) as (w' & E & Wus & M).
  fold k users users1 in Wus, M.
  assert (wf_db w') as W'.
  { unfold wf_db. destruct args as [[|arg0 rest]|]; try (destruct M as [-> _]; exact Wus).
    destruct (int_of_str (strip arg0)); destruct M as [-> _];
      [apply (Target ban z users1 Wus) | exact Wus]. }
  exists w'. split; [exact E|]. split; [exact W'|].
  split.
  { intros j N. unfold users1. destruct (wf_view k users W) as [Wv Kv].
    rewrite lookup_set_user_other; auto using wf_ensure, wf_refresh.
    - now apply lookup_ensure_other.
    - now rewrite refresh_id. }
  split; [intros [-> | ->]; exact M|].
  split.
  { intros arg0 rest e -> P. rewrite P in M. exact M. }
  intros arg0 rest t -> P. rewrite P in M. destruct M as [D S].
  destruct (Target ban t users1 Wus) as (_ & L & B & O).
  rewrite D. split; [exact L|]. split; [exact B|]. split; [exact O|]. split; [exact S|].
  intros update2 arg0' rest' k2 NB2 A2 P2. rewrite <- D in NB2, A2.
  destruct (Spec false update2 (Some (arg0' :: rest')) w' W' NB2 A2) as (w'' & E2 & Wus2 & M2).
  rewrite P2 in M2. destruct M2 as [D2 _].
  exists w''. split; [exact E2|]. rewrite D2. now apply Target.
Qed.

(** The admin with id 1 sends [/ban 42] and then [/unban 42]; [/ban abc]
    is answered with the error text. *)
Lemma ban_unban_target_witness :
  exists w' w'',
    bot_command_ban Sample.cfg Sample.always_delivered Sample.int_literal Sample.from_root
      (Some ["42"]) Sample.w0 = (Ok tt, w') /\
    ubanned (view 42 (users_of (users_database w'))) = true /\
    sends (trace w') = [(VInt 1, "Banned")] /\
    bot_command_unban Sample.cfg Sample.always_delivered Sample.int_literal Sample.from_root
      (Some ["42"]) w' = (Ok tt, w'') /\
    ubanned (view 42 (users_of (users_database w''))) = false.
Proof.
  destruct (ban_unban_target Sample.cfg Sample.always_delivered Sample.int_literal true
              Sample.from_root (Some ["42"]) Sample.w0 ltac:(wf_closed) eq_refl eq_refl)
    as (w' & E & _ & _ & _ & _ & Success).
  destruct (Success "42" [] 42 eq_refl eq_refl) as (_ & B & Other & S & Again).
  destruct (Again Sample.from_root "42" []) as (w'' & E2 & B2).
  - change (effective_chat_id Sample.from_root) with 1. unfold view.
    rewrite (Other 1 ltac:(discriminate)). reflexivity.
  - change (effective_chat_id Sample.from_root) with 1. unfold view.
    rewrite (Other 1 ltac:(discriminate)). reflexivity.
  - reflexivity.
  - exists w', w''. repeat split; assumption.
Defined.

(** [/ban 42 9]: two arguments, and 42 is banned all the same; [/ban] with
    no argument is not answered at all. *)
Lemma ban_ignores_further_arguments :
  length ["42"; "9"] = 2%nat /\
  ubanned (view 42 (users_of (users_database (snd
    (bot_command_ban Sample.cfg Sample.always_delivered Sample.int_literal Sample.from_root
       (Some ["42"; "9"]) Sample.w0))))) = true /\
  sends (trace (snd
    (bot_command_ban Sample.cfg Sample.always_delivered Sample.int_literal Sample.from_root
       (Some ["42"; "9"]) Sample.w0))) = [(VInt 1, "Banned")] /\
  sends (trace (snd
    (bot_command_ban Sample.cfg Sample.always_delivered Sample.int_literal Sample.from_root
       (Some []) Sample.w0))) = [].
Proof. repeat split; reflexivity. Qed.

(** ** The polling loop *)

Section Loop.

Variable config : Config.
Variable transport : value -> string -> bool.
Variable int_of_str : string -> Z + string.

Lemma transport_error_round r w :
  transport_error r -> restart_requested_flag w = false ->
  exists w', round config transport int_of_str r w = (Running, w') /\
    restart_requested_flag w' = false /\
    sleeps (trace w') = sleeps (trace w) ++ [RESTART_ON_ERROR_DELAY] /\
    builds (trace w') = S (builds (trace w)).
Proof.
  intros ((form & Hf) & Hi & (text & He & Hc) & Hs) Fl.
  unfold round, try_block. rewrite Hf, Hi, He. cbn [fold_left].
  rewrite Hc. unfold wait_and_restart. world. rewrite Fl, Hs.
  eexists. split; [reflexivity|]. world.
  rewrite !sleeps_app, !builds_app. cbn. rewrite !app_nil_r.
  split; [reflexivity|]. split; [reflexivity | lia].
Qed.

Lemma transport_errors_retry rounds : forall w,
  Forall transport_error rounds -> restart_requested_flag w = false ->
  exists w', start_bot config transport int_of_str rounds w = (Running, w') /\
    restart_requested_flag w' = false /\
    sleeps (trace w') = sleeps (trace w) ++ repeat RESTART_ON_ERROR_DELAY (length rounds) /\
    builds (trace w') = (builds (trace w) + length rounds)%nat.
Proof.
  induction rounds as [|r rest IH]; intros w Hall Fl.
  - exists w. cbn. rewrite app_nil_r, Nat.add_0_r. auto.
  - inversion Hall as [|? ? Hr Hrest]; subst.
    destruct (transport_error_round r w Hr Fl) as (w1 & E1 & F1 & S1 & B1).
    destruct (IH w1 Hrest F1) as (w2 & E2 & F2 & S2 & B2).
    exists w2. cbn [start_bot]. rewrite E1. split; [exact E2|]. split; [exact F2|].
    rewrite S2, S1, B2, B1, <- app_assoc. cbn [length repeat app]. split; [reflexivity | lia].
Qed.

End Loop.

(** C5. One round of the loop of [start_bot], by how its [try] block is left.
    With the restart flag set and no [KeyboardInterrupt], the round only
    writes log lines: nothing is waited for, the flag is cleared, and the loop
    goes on to build the application anew. After an exception that is not the
    closed event loop, with the flag clear, the error is logged,
    [RESTART_ON_ERROR_DELAY] seconds are waited, and the loop goes on; any
    number of such rounds in a row each wait and build again. A
    [KeyboardInterrupt], in the [try] block or during the wait, ends the loop:
    whatever rounds would follow, nothing is built after it. *)
Theorem start_bot_rounds (config : Config) (transport : value -> string -> bool)
    (int_of_str : string -> Z + string) (r : Round) (w : World) :
  let round := round config transport int_of_str in
  let start_bot := start_bot config transport int_of_str in
  forall e w1, try_block config transport int_of_str r w = (e, w1) ->
  (e <> KeyboardInterrupt -> restart_requested_flag w1 = true ->
     exists w2 logs, round r w = (Running, w2) /\
       trace w2 = trace w1 ++ logs /\ sleeps logs = [] /\ builds logs = O /\
       restart_requested_flag w2 = false /\
       forall r2 form, form_file r2 = inl form -> inbound r2 = [] ->
         trace (snd (try_block config transport int_of_str r2 w2))
         = trace w2 ++ [Log WARNING "Starting telegram bot"; Build]) /\
  (forall text, e = Raised text -> contains "Event loop is closed" text = false ->
     restart_requested_flag w1 = false ->
     (sleep_interrupted r = false ->
        exists w2, round r w = (Running, w2) /\
          trace w2 = trace w1 ++ [Log ERROR "Telegram bot error!";
                                  Log WARNING "Restarting bot polling after 10 seconds";
                                  Sleep RESTART_ON_ERROR_DELAY;
                                  Log WARNING "Restarting bot polling"] /\
          restart_requested_flag w2 = false /\
          forall more, Forall transport_error more ->
            exists w3, start_bot more w2 = (Running, w3) /\
              sleeps (trace w3)
                = sleeps (trace w2) ++ repeat RESTART_ON_ERROR_DELAY (length more) /\
              builds (trace w3) = (builds (trace w2) + length more)%nat) /\
     (sleep_interrupted r = true ->
        forall rest, exists w2, start_bot (r :: rest) w = (Stopped, w2) /\
          sleeps (trace w2) = sleeps (trace w1) /\ builds (trace w2) = builds (trace w1))) /\
  (e = KeyboardInterrupt ->
     forall rest, exists w2, start_bot (r :: rest) w = (Stopped, w2) /\
       trace w2 = trace w1 ++ [Log WARNING "KeyboardInterrupt @ bot_start";
                               Log WARNING "Telegram bot stopped"]).
Proof.
  intros round0 start_bot0 e w1 T. subst round0 start_bot0. split; [|split].
  - intros NK Fl.
    assert (wait_and_restart r w1
            = (Running, set_restart_requested_flag false
                          (emit (Log WARNING "Restarting bot polling") w1))) as Wa
      by (unfold wait_and_restart; world; now rewrite Fl).
    assert (forall l, wait_and_restart r (emit (Log ERROR l) w1)
            = (Running, set_restart_requested_flag false
                          (emit (Log WARNING "Restarting bot polling")
                             (emit (Log ERROR l) w1)))) as We
      by (intros l; unfold wait_and_restart; world; now rewrite Fl).
    assert (forall w2, restart_requested_flag w2 = false ->
              forall r2 form, form_file r2 = inl form -> inbound r2 = [] ->
                trace (snd (try_block config transport int_of_str r2 w2))
                = trace w2 ++ [Log WARNING "Starting telegram bot"; Build]) as Next.
    { intros w2 _ r2 form Hf Hi. unfold try_block. rewrite Hf, Hi. cbn [fold_left]. world.
      now rewrite <- app_assoc. }
    unfold round. rewrite T. destruct e as [|text|]; [contradiction | |].
    + destruct (contains "Event loop is closed" text).
      * rewrite Fl. cbn [negb]. rewrite Wa. eexists _, [_]. split; [reflexivity|].
        split; [reflexivity|]. do 3 (split; [reflexivity|]). now apply Next.
      * rewrite We. eexists _, [_; _]. split; [reflexivity|].
        split; [world; now rewrite <- app_assoc|].
        do 3 (split; [reflexivity|]). now apply Next.
    + rewrite Wa. eexists _, [_]. split; [reflexivity|].
      split; [reflexivity|]. do 3 (split; [reflexivity|]). now apply Next.
  - intros text -> Hc Fl. split.
    + intros Hs. unfold round. rewrite T, Hc. unfold wait_and_restart. world. rewrite Fl, Hs.
      eexists. split; [reflexivity|].
      split; [world; now rewrite <- !app_assoc|]. split; [reflexivity|].
      intros more Hm.
      match goal with
      | |- exists w3, start_bot _ _ _ _ ?x = _ /\ _ =>
          destruct (transport_errors_retry config transport int_of_str more x Hm eq_refl)
            as (w3 & E3 & _ & S3 & B3)
      end.
      exists w3. auto.
    + intros Hs rest. cbn [start_bot]. unfold round. rewrite T, Hc.
      unfold wait_and_restart. world. rewrite Fl, Hs.
      eexists. split; [reflexivity|]. world.
      rewrite !sleeps_app, !builds_app. cbn. rewrite !app_nil_r. split; [reflexivity | lia].
  - intros -> rest. cbn [start_bot]. unfold round. rewrite T.
    eexists. split; [reflexivity|]. world. now rewrite <- app_assoc.
Qed.

(** A restart requested by the admin, two network errors in a row, and an
    interrupt at the keyboard. *)
Lemma start_bot_rounds_witness :
  (exists w2, round Sample.cfg Sample.always_delivered Sample.int_literal
                Sample.restart_round Sample.w0 = (Running, w2) /\
     sleeps (trace w2) = [] /\ restart_requested_flag w2 = false) /\
  (exists w3, start_bot Sample.cfg Sample.always_delivered Sample.int_literal
                [Sample.error_round; Sample.error_round; Sample.error_round] Sample.w0
              = (Running, w3) /\
     sleeps (trace w3) = [10; 10; 10] /\ builds (trace w3) = 3%nat) /\
  (exists w2, start_bot Sample.cfg Sample.always_delivered Sample.int_literal
                [Sample.interrupt_round; Sample.error_round] Sample.w0 = (Stopped, w2) /\
     builds (trace w2) = 1%nat) /\
  (exists w2, start_bot Sample.cfg Sample.always_delivered Sample.int_literal
                [Sample.interrupted_wait_round; Sample.error_round] Sample.w0 = (Stopped, w2) /\
     builds (trace w2) = 1%nat /\ sleeps (trace w2) = []).
Proof.
  split; [|split; [|split]].
  - destruct (start_bot_rounds Sample.cfg Sample.always_delivered Sample.int_literal
                Sample.restart_round Sample.w0 _ _ eq_refl) as [Restart _].
    destruct (Restart ltac:(discriminate) eq_refl) as (w2 & logs & E & T & S & _ & F & _).
    exists w2. split; [exact E|]. split; [|exact F].
    rewrite T, sleeps_app, S. reflexivity.
  - destruct (start_bot_rounds Sample.cfg Sample.always_delivered Sample.int_literal
                Sample.error_round Sample.w0 _ _ eq_refl) as (_ & Error & _).
    destruct (Error _ eq_refl eq_refl eq_refl) as [Retry _].
    destruct (Retry eq_refl) as (w2 & E & T & _ & More).
    destruct (More [Sample.error_round; Sample.error_round]) as (w3 & E3 & S3 & B3).
    { repeat constructor; try (eexists; reflexivity).
      all: eexists; split; reflexivity. }
    exists w3. cbn [start_bot]. rewrite E. split; [exact E3|].
    rewrite S3, B3, T, sleeps_app, builds_app. split; reflexivity.
  - destruct (start_bot_rounds Sample.cfg Sample.always_delivered Sample.int_literal
                Sample.interrupt_round Sample.w0 _ _ eq_refl) as (_ & _ & Interrupt).
    destruct (Interrupt eq_refl [Sample.error_round]) as (w2 & E & T).
    exists w2. split; [exact E|]. rewrite T, builds_app. reflexivity.
  - destruct (start_bot_rounds Sample.cfg Sample.always_delivered Sample.int_literal
                Sample.interrupted_wait_round Sample.w0 _ _ eq_refl) as (_ & Error & _).
    destruct (Error _ eq_refl eq_refl eq_refl) as [_ Interrupted].
    destruct (Interrupted eq_refl [Sample.error_round]) as (w2 & E & S & B).
    exists w2. split; [exact E|]. rewrite S, B. split; reflexivity.
Defined.

(** ** An unreadable store *)

(** C7. When the database cannot be read, [read_users] returns the empty
    list and changes nothing. The callers go on from there: a lookup creates
    the default profile, and a text message is handled to its end, relayed to
    no admin (there is none) and confirmed to the sender when the quota
    allows one message. *)
Theorem read_users_unreadable (config : Config) (transport : value -> string -> bool)
    (w : World) :
  users_database w = None ->
  read_users w = (Ok [], w) /\
  (forall id_, fst (get_user_by_id id_ w) = Ok (new_user id_) /\
               users_database (snd (get_user_by_id id_ w)) = Some [new_user id_]) /\
  (forall update m, message update = Some m ->
     exists w', bot_message config transport update w = (Ok tt, w') /\
       sends (trace w') = sends (trace w)
         ++ (if (1 <=? user_max_messages config)%Z
             then [(VInt (effective_chat_id update), expand (confirmation_message config))]
             else [])).
Proof.
  intros N. split; [|split].
  - rewrite read_users_run, N. reflexivity.
  - intros k. rewrite get_user_by_id_run, N. cbn. auto.
  - intros update m Hm.
    assert (wf_db w) as W by (unfold wf_db; rewrite N; constructor).
    destruct (bot_message_spec config transport update m w W Hm) as (w' & E & D & S & _).
    { rewrite N, refresh_banned. reflexivity. }
    { rewrite N, refresh_admin. reflexivity. }
    exists w'. split; [exact E|]. rewrite S, D, N. cbn [users_of].
    rewrite refresh_total.
    rewrite (admins_set_user _ _ _ (view (effective_chat_id update) []));
      [| apply lookup_ensure | reflexivity
       | rewrite uadmin_insert by discriminate; now rewrite refresh_admin].
    rewrite admins_ensure. reflexivity.
Qed.

(** A first message while the database cannot be read. *)
Lemma read_users_unreadable_witness :
  read_users (Sample.world_of None) = (Ok [], Sample.world_of None) /\
  sends (trace (snd (bot_message Sample.cfg Sample.always_delivered (Sample.from_alice "hi")
                       (Sample.world_of None))))
    = [(VInt 42, "Sent" +:+ LF +:+ "Thank you")].
Proof.
  destruct (read_users_unreadable Sample.cfg Sample.always_delivered (Sample.world_of None)
              eq_refl) as (R & _ & M).
  split; [exact R|].
  destruct (M (Sample.from_alice "hi") _ eq_refl) as (w' & E & S).
  rewrite E. cbn [snd]. rewrite S. reflexivity.
Defined.

(** ** What the expansion leaves *)

Section TwoCharacters.

(** Replacing the two characters [a b] by the one character [n]. *)
Variables a b n : ascii.

Lemma replace_from_skip c s :
  replace_from (String a (String b "")) (String n "") 1 (String c s)
  = replace_from (String a (String b "")) (String n "") 0 s.
Proof. reflexivity. Qed.

Lemma replace_from_step c s :
  replace_from (String a (String b "")) (String n "") 0 (String c s)
  = if startswith (String a (String b "")) (String c s)
    then String n (replace_from (String a (String b "")) (String n "") 1 s)
    else String c (replace_from (String a (String b "")) (String n "") 0 s).
Proof. reflexivity. Qed.

Lemma startswith_one x c s :
  startswith (String x "") (String c s) = (if decide (x = c) then true else false).
Proof. cbn. now destruct (decide (x = c)). Qed.

Lemma startswith_two x y c s :
  startswith (String x (String y "")) (String c s)
  = (if decide (x = c) then startswith (String y "") s else false).
Proof. reflexivity. Qed.

(** The result starts with a character other than [n] only when the text
    did. *)
Lemma replace_from_head x s :
  n <> x ->
  startswith (String x "") (replace_from (String a (String b "")) (String n "") 0 s) = true ->
  startswith (String x "") s = true.
Proof.
  intros N. destruct s as [|c s]; [trivial|].
  rewrite replace_from_step.
  destruct (startswith (String a (String b "")) (String c s)).
  - rewrite startswith_one. destruct (decide (x = n)); [congruence | discriminate].
  - now rewrite !startswith_one.
Qed.

(** A pair [x y] of characters other than [n] that is not in the text is not
    in the result either, as long as the result of every match is checked:
    the pair replaced is [a b] itself, or the text has no [x y]. *)
Lemma replace_from_keeps_out x y s :
  n <> x -> n <> y ->
  (x = a /\ y = b) \/ contains (String x (String y "")) s = false ->
  contains (String x (String y ""))
    (replace_from (String a (String b "")) (String n "") 0 s) = false /\
  contains (String x (String y ""))
    (replace_from (String a (String b "")) (String n "") 1 s) = false.
Proof.
  intros Nx Ny. induction s as [|c s IH]; intros H; [split; reflexivity|].
  assert ((x = a /\ y = b) \/ contains (String x (String y "")) s = false) as H'.
  { destruct H as [H|H]; [now left | right; exact (contains_cons _ _ _ H)]. }
  destruct (IH H') as [IH0 IH1]. split; [|rewrite replace_from_skip; exact IH0].
  rewrite replace_from_step.
  destruct (startswith (String a (String b "")) (String c s)) eqn:M.
  - cbn [contains]. rewrite startswith_two.
    destruct (decide (x = n)); [congruence|]. exact IH1.
  - cbn [contains]. rewrite startswith_two, IH0, orb_false_r.
    destruct (decide (x = c)) as [->|]; [|reflexivity].
    destruct (startswith (String y "")
                (replace_from (String a (String b "")) (String n "") 0 s)) eqn:Hd;
      [|reflexivity].
    apply (replace_from_head _ _ Ny) in Hd.
    destruct H as [[-> ->]|H].
    + rewrite startswith_two in M. destruct (decide (a = a)); congruence.
    + cbn [contains] in H. rewrite startswith_two in H.
      destruct (decide (c = c)); [|congruence]. rewrite Hd in H. discriminate.
Qed.

End TwoCharacters.

(** The text [_send_safe] sends holds neither of the two escapes. *)
Lemma expand_no_escape text :
  contains "\n" (expand text) = false /\ contains "\t" (expand text) = false.
Proof.
  unfold expand, replace. split.
  - apply (replace_from_keeps_out "\" "t" (ascii_of_nat 9)); try discriminate.
    right. apply (replace_from_keeps_out "\" "n" (ascii_of_nat 10)); try discriminate.
    now left.
  - apply (replace_from_keeps_out "\" "t" (ascii_of_nat 9)); try discriminate. now left.
Qed.

(** ** The notice after a restart *)

(** What the thread started by [/restart] sends: the configured text with
    the newline escape replaced, and nothing else replaced. *)
Lemma send_message_after_restart_sends config transport (u : user) id w :
  u !! "id" = Some id ->
  sends (trace (snd (send_message_after_restart config transport u w)))
  = sends (trace w) ++ [(id, replace "\n" LF (restart_message_done config))].
Proof.
  intros H. unfold send_message_after_restart, bind, logging_warning, logging_error, modify, ret.
  rewrite H. destruct (transport id _); cbn [snd]; world;
    rewrite !sends_app; cbn [sends]; now rewrite ?app_nil_r.
Qed.

(** C9, and where the code leaves it. Every text [_send_safe] sends has
    both escapes replaced and holds neither any more. The notice after a
    restart does not go through [_send_safe]: with [restart_message_done]
    set to [Done\n\tok], the admin who sent [/restart] gets the start notice
    with both escapes replaced and, once the flag is cleared, the done notice
    with the newline escape replaced and the backslash and [t] of the tab
    escape still in it. *)
Theorem restart_done_notice_keeps_tab_escape :
  (forall transport chat text w,
     sends (trace (snd (_send_safe transport chat text w)))
       = sends (trace w) ++ [(chat, expand text)] /\
     contains "\n" (expand text) = false /\ contains "\t" (expand text) = false) /\
  sends (trace (thread_step Sample.cfg Sample.always_delivered
                  (snd (start_bot Sample.cfg Sample.always_delivered Sample.int_literal
                          [Sample.restart_round] Sample.w0))))
    = [(VInt 1, "Restarting..."); (VInt 1, "Done" +:+ LF +:+ "\tok")] /\
  contains "\t" ("Done" +:+ LF +:+ "\tok") = true /\
  expand (restart_message_done Sample.cfg) = "Done" +:+ LF +:+ TAB +:+ "ok".
Proof.
  split; [|repeat split; reflexivity].
  intros transport chat text w.
  destruct (send_safe_spec transport chat text w) as (w' & E & _ & S & _).
  rewrite E. split; [exact S | apply expand_no_escape].
Qed.

(** * Further properties of the code *)

(** ** UsersHandler: saving and looking up *)

Lemma py_eq_trans_r a b c : py_eq b c = true -> py_eq a b = py_eq a c.
Proof. intros H%py_eq_true. rewrite !py_eq_canon. now rewrite H. Qed.

Lemma find_index_raise ud us i e : find_index ud us i = Raise e -> e = KeyError "id".
Proof.
  revert i. induction us as [|u rest IH]; intros i; cbn; [discriminate|].
  destruct (u !! "id"); [|congruence]. destruct (ud !! "id"); [|congruence].
  destruct (py_eq _ _); [discriminate | apply IH].
Qed.

Lemma find_user_raise k us e : find_user k us = Raise e -> e = KeyError "id".
Proof.
  induction us as [|u rest IH]; cbn; [discriminate|].
  destruct (u !! "id"); [|congruence].
  destruct (py_eq _ _); [discriminate | apply IH].
Qed.

Lemma saved_find k ud us l b :
  ud !! "id" = Some b -> py_eq b (VInt k) = true -> saved ud us = Ok l ->
  find_user k l
  = Ok (Some (match lookup_user k us with Some old => merge_keys ud old | None => ud end)).
Proof.
  intros Hb E. revert l. unfold lookup_user.
  induction us as [|u rest IH]; intros l.
  - rewrite saved_nil. intros [= <-]. cbn. now rewrite Hb, E.
  - rewrite saved_cons, Hb. cbn [List.find]. unfold id_is at 1.
    destruct (u !! "id") as [a|] eqn:Ha; [|discriminate].
    rewrite (py_eq_trans_r a b (VInt k) E).
    destruct (py_eq a (VInt k)) eqn:P.
    + intros [= <-]. cbn [find_user]. unfold merge_keys at 1.
      rewrite (lookup_union_Some_l _ _ _ _ Hb), E. reflexivity.
    + destruct (saved ud rest) as [l'|e]; [|discriminate].
      intros [= <-]. cbn [find_user]. rewrite Ha, P. now apply IH.
Qed.

Lemma py_eq_other b k j : py_eq b (VInt k) = true -> j <> k -> py_eq b (VInt j) = false.
Proof.
  intros E%py_eq_true N. rewrite py_eq_canon, E. cbn [canon as_int].
  apply bool_decide_eq_false. congruence.
Qed.

Lemma saved_find_other k j ud us l b :
  ud !! "id" = Some b -> py_eq b (VInt k) = true -> j <> k -> saved ud us = Ok l ->
  find_user j l = find_user j us.
Proof.
  intros Hb E N. pose proof (py_eq_other b k j E N) as Bj. revert l.
  induction us as [|u rest IH]; intros l.
  - rewrite saved_nil. intros [= <-]. cbn. now rewrite Hb, Bj.
  - rewrite saved_cons, Hb.
    destruct (u !! "id") as [a|] eqn:Ha; [|discriminate].
    destruct (py_eq a b) eqn:P.
    + intros [= <-]. cbn [find_user]. unfold merge_keys at 1.
      rewrite (lookup_union_Some_l _ _ _ _ Hb), Ha, Bj.
      assert (py_eq a (VInt j) = false) as ->; [|reflexivity].
      apply (py_eq_other a k j); [|exact N].
      rewrite <- (py_eq_trans_r a b (VInt k) E). exact P.
    + destruct (saved ud rest) as [l'|e]; [|discriminate].
      intros [= <-]. cbn [find_user]. rewrite Ha.
      destruct (py_eq a (VInt j)); [reflexivity | now apply IH].
Qed.

Lemma saved_length ud us l :
  saved ud us = Ok l -> length l = length us \/ length l = S (length us).
Proof.
  revert l. induction us as [|u rest IH]; intros l.
  - rewrite saved_nil. intros [= <-]. now right.
  - rewrite saved_cons.
    destruct (u !! "id"); [|discriminate]. destruct (ud !! "id"); [|discriminate].
    destruct (py_eq _ _).
    + intros [= <-]. now left.
    + destruct (saved ud rest) as [l'|e]; [|discriminate].
      intros [= <-]. cbn [length]. destruct (IH l' eq_refl) as [-> | ->]; auto.
Qed.

(** X1. After a [save_user] that returned, [get_user_by_id] with the saved
    record's id returns a record that holds every field of the saved one (the
    stored record merged with it, or the saved record itself when the id was
    new) and writes nothing. *)
Theorem save_then_get (id_ : Z) (user_data : user) (b : value) (w : World) :
  user_data !! "id" = Some b -> py_eq b (VInt id_) = true ->
  fst (save_user (Some user_data) w) = Ok tt ->
  let w' := snd (save_user (Some user_data) w) in
  exists stored,
    get_user_by_id id_ w' = (Ok stored, w') /\
    stored = match lookup_user id_ (users_of (users_database w)) with
             | Some old => merge_keys user_data old
             | None => user_data
             end /\
    forall key v, user_data !! key = Some v -> stored !! key = Some v.
Proof.
  intros Hb E. rewrite save_user_run.
  destruct (saved user_data (users_of (users_database w))) as [l|e] eqn:S; [|discriminate].
  intros _. cbn [snd]. rewrite get_user_by_id_run. cbn [users_database set_users_database users_of].
  rewrite (saved_find id_ _ _ _ _ Hb E S).
  eexists. split; [reflexivity|]. split; [reflexivity|].
  intros key v Hv. destruct (lookup_user id_ (users_of (users_database w))); [|exact Hv].
  now rewrite merge_keys_lookup, Hv.
Qed.

(** Bob's record is saved with a new handle and looked up again. *)
Lemma save_then_get_witness :
  exists stored,
    get_user_by_id 5 (snd (save_user (Some More.bobby) Sample.w0))
    = (Ok stored, snd (save_user (Some More.bobby) Sample.w0)) /\
    stored !! "username" = Some (VStr "bobby") /\ stored !! "banned" = Some (VBool true).
Proof.
  destruct (save_then_get 5 More.bobby (VInt 5) Sample.w0
              eq_refl eq_refl eq_refl) as (stored & G & -> & F).
  eexists. split; [exact G|]. split; reflexivity.
Defined.

(** X2. A [save_user] that returned does not change what [get_user_by_id]
    returns for any other id. *)
Theorem save_keeps_other_ids (id_ j : Z) (user_data : user) (b : value) (w : World) :
  user_data !! "id" = Some b -> py_eq b (VInt id_) = true -> j <> id_ ->
  fst (save_user (Some user_data) w) = Ok tt ->
  fst (get_user_by_id j (snd (save_user (Some user_data) w))) = fst (get_user_by_id j w).
Proof.
  intros Hb E N. rewrite save_user_run.
  destruct (saved user_data (users_of (users_database w))) as [l|e] eqn:S; [|discriminate].
  intros _. cbn [snd]. rewrite !get_user_by_id_run.
  cbn [users_database set_users_database users_of].
  rewrite (saved_find_other id_ j _ _ _ _ Hb E N S).
  destruct (find_user j (users_of (users_database w))) as [[u|]|e]; reflexivity.
Qed.

Lemma save_keeps_other_ids_witness :
  fst (get_user_by_id 1 (snd (save_user (Some More.bobby) Sample.w0)))
  = Ok Sample.admin1.
Proof.
  rewrite (save_keeps_other_ids 5 1 More.bobby (VInt 5) Sample.w0 eq_refl eq_refl
             ltac:(discriminate) eq_refl).
  reflexivity.
Defined.

(** X3. [save_user] and [get_user_by_id] raise nothing but [KeyError('id')],
    and when they raise, nothing was written or logged. *)
Theorem directory_raises_cleanly (w : World) (e : exn) :
  (forall user_data, fst (save_user user_data w) = Raise e ->
     e = KeyError "id" /\ snd (save_user user_data w) = w) /\
  (forall id_, fst (get_user_by_id id_ w) = Raise e ->
     e = KeyError "id" /\ snd (get_user_by_id id_ w) = w).
Proof.
  split.
  - intros [ud|]; [|discriminate]. rewrite save_user_run. unfold saved.
    destruct (find_index ud (users_of (users_database w)) 0) as [[i|]|e'] eqn:F;
      try discriminate.
    cbn. intros [= ->]. split; [exact (find_index_raise _ _ _ _ F) | reflexivity].
  - intros k. rewrite get_user_by_id_run.
    destruct (find_user k (users_of (users_database w))) as [[u|]|e'] eqn:F; try discriminate.
    cbn. intros [= ->]. split; [exact (find_user_raise _ _ _ F) | reflexivity].
Qed.

(** X4. Neither [save_user] nor [get_user_by_id] removes a record: the
    store keeps its length or grows by one, and no id is carried by fewer
    records than before. *)
Theorem directory_never_shrinks (w : World) :
  let users := users_of (users_database w) in
  (forall user_data,
     let users' := users_of (users_database (snd (save_user user_data w))) in
     (length users' = length users \/ length users' = S (length users)) /\
     forall v, (id_count v users <= id_count v users')%nat) /\
  (forall id_,
     let users' := users_of (users_database (snd (get_user_by_id id_ w))) in
     (length users' = length users \/ length users' = S (length users)) /\
     forall v, (id_count v users <= id_count v users')%nat).
Proof.
  cbv zeta.
  assert (forall ud l, saved ud (users_of (users_database w)) = Ok l ->
            (length l = length (users_of (users_database w)) \/
             length l = S (length (users_of (users_database w)))) /\
            forall v, (id_count v (users_of (users_database w)) <= id_count v l)%nat) as Sv.
  { intros ud l S. split; [exact (saved_length _ _ _ S)|].
    intros v. destruct (saved_count _ _ _ v S) as [-> | (-> & -> & _)]; lia. }
  split.
  - intros [ud|]; [|cbn; auto]. rewrite save_user_run.
    destruct (saved ud (users_of (users_database w))) as [l|e] eqn:S; cbn; [|auto].
    exact (Sv _ _ S).
  - intros k. rewrite get_user_by_id_run.
    destruct (find_user k (users_of (users_database w))) as [[u|]|e] eqn:F; cbn; auto.
    apply (Sv (new_user k)). exact (saved_absent k _ _ (new_user_id k) F).
Qed.

Lemma directory_raises_cleanly_witness :
  get_user_by_id 1 (Sample.world_of (Some [More.nameless]))
  = (Raise (KeyError "id"), Sample.world_of (Some [More.nameless])).
Proof.
  destruct (directory_raises_cleanly (Sample.world_of (Some [More.nameless])) (KeyError "id"))
    as [_ G].
  destruct (G 1 eq_refl) as [_ Same].
  rewrite (surjective_pairing (get_user_by_id 1 _)), Same. reflexivity.
Defined.

(** X5. A record without an ["id"] key: [save_user] appends it to an empty
    or unreadable store, and from then on every [get_user_by_id] and every
    [save_user] of a record raises [KeyError('id')]; on a store that is not
    empty the save itself raises and writes nothing. *)
Theorem record_without_id (user_data : user) (w : World) :
  user_data !! "id" = None ->
  (users_of (users_database w) = [] ->
     let w' := set_users_database (Some [user_data]) w in
     save_user (Some user_data) w = (Ok tt, w') /\
     (forall id_, get_user_by_id id_ w' = (Raise (KeyError "id"), w')) /\
     (forall other, save_user (Some other) w' = (Raise (KeyError "id"), w'))) /\
  (users_of (users_database w) <> [] ->
     save_user (Some user_data) w = (Raise (KeyError "id"), w)).
Proof.
  intros N. split.
  - intros E. cbv zeta. split; [|split].
    + rewrite save_user_run, E. reflexivity.
    + intros k. rewrite get_user_by_id_run. cbn. now rewrite N.
    + intros other. rewrite save_user_run. cbn [users_database set_users_database users_of].
      rewrite saved_cons, N. reflexivity.
  - intros NE. rewrite save_user_run.
    destruct (users_of (users_database w)) as [|u rest]; [contradiction|].
    rewrite saved_cons, N. now destruct (u !! "id").
Qed.

Lemma record_without_id_witness :
  save_user (Some More.nameless) (Sample.world_of None)
  = (Ok tt, Sample.world_of (Some [More.nameless])) /\
  fst (get_user_by_id 42 (Sample.world_of (Some [More.nameless]))) = Raise (KeyError "id") /\
  save_user (Some More.nameless) Sample.w0 = (Raise (KeyError "id"), Sample.w0).
Proof.
  destruct (record_without_id More.nameless (Sample.world_of None) eq_refl) as [Empty _].
  destruct (Empty eq_refl) as (S & G & _).
  destruct (record_without_id More.nameless Sample.w0 eq_refl) as [_ Full].
  split; [exact S|]. split; [exact (f_equal fst (G 42)) | apply Full; discriminate].
Defined.

(** ** The handlers, case by case *)

Section HandlerCases.

Variable config : Config.
Variable transport : value -> string -> bool.
Variable int_of_str : string -> Z + string.

(** A sender who is not banned and not an admin: the admin-only handlers
    are [_user_check_get] and one log line. *)
Lemma admin_gate_run h update args w :
  wf_db w ->
  let k := effective_chat_id update in
  let u := refresh update (view k (users_of (users_database w))) in
  ubanned u = false -> uadmin u = false -> More.admin_only h = true ->
  exists w1 line,
    _user_check_get config transport update w = (Ok u, w1) /\
    run_handler config transport int_of_str h update args w
    = (Ok tt, emit (Log WARNING line) w1).
Proof.
  intros W k u B A H.
  destruct (user_check_get_full config transport update w W)
    as (w1 & E1 & _ & _ & _ & _ & Wu & _ & _).
  fold k u in E1, Wu. pose proof Wu as (_ & _ & _ & Ha & Hb & _). rewrite B in Hb. rewrite A in Ha.
  exists w1.
  destruct h; try discriminate H; cbn [run_handler];
    unfold bot_command_users, bot_command_ban, bot_command_unban, bot_command_ban_unban,
      bot_command_restart, bot_command_resetmessages;
    eexists; (split; [exact E1|]);
    rewrite (bind_ok _ _ _ _ _ E1);
    rewrite (bind_ok _ _ _ _ _ (log_from_run _ _ _ Wu));
    rewrite (bind_ok _ _ _ _ _ (getitem_run _ _ _ _ Hb));
    cbn [truthy];
    rewrite (bind_ok _ _ _ _ _ (getitem_run _ _ _ _ Ha));
    cbn [truthy negb]; reflexivity.
Qed.

(** A text message of an admin who is not banned is [_user_check_get] and
    one log line. *)
Lemma admin_text_run update w :
  wf_db w ->
  let k := effective_chat_id update in
  let u := refresh update (view k (users_of (users_database w))) in
  ubanned u = false -> uadmin u = true ->
  exists w1 line,
    _user_check_get config transport update w = (Ok u, w1) /\
    bot_message config transport update w = (Ok tt, emit (Log WARNING line) w1).
Proof.
  intros W k u B A.
  destruct (user_check_get_full config transport update w W)
    as (w1 & E1 & _ & _ & _ & _ & Wu & _ & _).
  fold k u in E1, Wu. pose proof Wu as (_ & _ & _ & Ha & Hb & _). rewrite B in Hb. rewrite A in Ha.
  exists w1. eexists. split; [exact E1|]. unfold bot_message.
  rewrite (bind_ok _ _ _ _ _ E1).
  rewrite (bind_ok _ _ _ _ _ (log_from_run _ _ _ Wu)).
  rewrite (bind_ok _ _ _ _ _ (getitem_run _ _ _ _ Hb)). cbn [truthy].
  rewrite (bind_ok _ _ _ _ _ (getitem_run _ _ _ _ Ha)). cbn [truthy]. reflexivity.
Qed.

(** [/start] of a sender who is not banned. *)
Lemma start_spec update w :
  wf_db w ->
  let k := effective_chat_id update in
  let users := users_of (users_database w) in
  let u := refresh update (view k users) in
  ubanned u = false ->
  exists w', bot_command_start config transport update w = (Ok tt, w') /\
    users_of (users_database w') = More.checked update users /\
    sends (trace w') = sends (trace w)
      ++ [(VInt k, expand (if uadmin u then admin_message config else form_message w))] /\
    frame w' = frame w.
Proof.
  intros W k users u B.
  destruct (user_check_get_full config transport update w W)
    as (w1 & E1 & D1 & S1 & F1 & _ & Wu & Ku & _).
  fold k users u in E1, D1, S1, Wu, Ku. rewrite B, app_nil_r in S1.
  pose proof Wu as (Hid & _ & _ & Ha & Hb & _). rewrite B in Hb.
  unfold bot_command_start.
  rewrite (bind_ok _ _ _ _ _ E1).
  rewrite (bind_ok _ _ _ _ _ (log_from_run _ _ _ Wu)).
  rewrite (bind_ok _ _ _ _ _ (getitem_run _ _ _ _ Hb)). cbn [truthy].
  rewrite (bind_ok _ _ _ _ _ (getitem_run _ _ _ _ Ha)).
  rewrite (bind_ok _ _ _ _ _ (getitem_run _ _ _ _ Hid)). cbn [truthy]. rewrite Ku.
  set (w1' := emit _ w1).
  assert (form_message w1' = form_message w) as Fm by (injection F1; auto).
  assert (sends (trace w1') = sends (trace w)) as S1'.
  { unfold w1'. world. rewrite sends_app, S1. cbn. apply app_nil_r. }
  destruct (uadmin u).
  - destruct (send_safe_spec transport (VInt k) (admin_message config) w1')
      as (w2 & E2 & D2 & S2 & F2).
    exists w2. split; [exact E2|]. rewrite D2, S2, F2, S1'.
    split; [exact D1|]. split; [reflexivity | exact F1].
  - unfold gets, bind at 1.
    destruct (send_safe_spec transport (VInt k) (form_message w1') w1')
      as (w2 & E2 & D2 & S2 & F2).
    exists w2. split; [exact E2|]. rewrite D2, S2, F2, S1', Fm.
    split; [exact D1|]. split; [reflexivity | exact F1].
Qed.

Lemma users_listing_run users : forall message w,
  wf_users users ->
  users_listing users message w
  = (Ok (fold_left (fun message u => message +:+ More.line_of u) users message), w).
Proof.
  induction users as [|u rest IH]; intros message w W; [reflexivity|].
  inversion W as [|? ? Wu Wr]; subst.
  destruct Wu as (Hid & Hn & Hf & Ha & Hb & Ht).
  cbn [users_listing fold_left]. unfold users_line.
  unfold bind at 1.
  rewrite (bind_ok _ _ _ _ _ (getitem_run _ _ _ w Hid)).
  rewrite (bind_ok _ _ _ _ _ (getitem_run _ _ _ w Hn)).
  rewrite (bind_ok _ _ _ _ _ (getitem_run _ _ _ w Hf)).
  rewrite (bind_ok _ _ _ _ _ (getitem_run _ _ _ w Ha)).
  rewrite (bind_ok _ _ _ _ _ (getitem_run _ _ _ w Hb)).
  rewrite (bind_ok _ _ _ _ _ (getitem_run _ _ _ w Ht)).
  unfold ret at 1. rewrite (IH _ w Wr). reflexivity.
Qed.

(** [/users] of an admin who is not banned. *)
Lemma users_spec update w :
  wf_db w ->
  let k := effective_chat_id update in
  let users := users_of (users_database w) in
  let u := refresh update (view k users) in
  ubanned u = false -> uadmin u = true ->
  exists w', bot_command_users config transport update w = (Ok tt, w') /\
    users_of (users_database w') = More.checked update users /\
    sends (trace w') = sends (trace w)
      ++ [(VInt k, expand (More.listing_of (More.checked update users)))] /\
    frame w' = frame w.
Proof.
  intros W k users u B A.
  destruct (user_check_get_full config transport update w W)
    as (w1 & E1 & D1 & S1 & F1 & W1 & Wu & Ku & _).
  fold k users u in E1, D1, S1, Wu, Ku. rewrite B, app_nil_r in S1.
  pose proof Wu as (Hid & _ & _ & Ha & Hb & _). rewrite B in Hb. rewrite A in Ha.
  unfold bot_command_users.
  rewrite (bind_ok _ _ _ _ _ E1).
  rewrite (bind_ok _ _ _ _ _ (log_from_run _ _ _ Wu)).
  rewrite (bind_ok _ _ _ _ _ (getitem_run _ _ _ _ Hb)). cbn [truthy].
  rewrite (bind_ok _ _ _ _ _ (getitem_run _ _ _ _ Ha)). cbn [truthy negb].
  set (w1' := emit _ w1).
  assert (users_of (users_database w1') = More.checked update users) as D1' by exact D1.
  assert (sends (trace w1') = sends (trace w)) as S1'.
  { unfold w1'. world. rewrite sends_app, S1. cbn. apply app_nil_r. }
  rewrite (bind_ok _ _ _ _ _ (read_users_run w1')). rewrite D1'.
  assert (wf_users (More.checked update users)) as Wc
    by (unfold wf_db in W1; rewrite D1 in W1; exact W1).
  rewrite (bind_ok _ _ _ _ _ (users_listing_run _ _ w1' Wc)).
  rewrite (bind_ok _ _ _ _ _ (getitem_run _ _ _ _ Hid)). rewrite Ku.
  match goal with
  | |- context [_send_safe _ _ ?t w1'] =>
      destruct (send_safe_spec transport (VInt k) t w1') as (w2 & E2 & D2 & S2 & F2)
  end.
  exists w2. split; [exact E2|]. rewrite D2, S2, F2, S1'.
  split; [exact D1'|]. split; [reflexivity | exact F1].
Qed.

(** [/restart] of an admin who is not banned. *)
Lemma restart_spec update w :
  wf_db w ->
  let k := effective_chat_id update in
  let users := users_of (users_database w) in
  let u := refresh update (view k users) in
  ubanned u = false -> uadmin u = true ->
  exists w', bot_command_restart config transport update w = (Ok tt, w') /\
    users_of (users_database w') = More.checked update users /\
    sends (trace w') = sends (trace w) ++ [(VInt k, expand (restart_message_start config))] /\
    restart_requested_flag w' = true /\
    event_loop_closed w' = true /\
    threads w' = threads w ++ [u] /\
    form_message w' = form_message w.
Proof.
  intros W k users u B A.
  destruct (user_check_get_full config transport update w W)
    as (w1 & E1 & D1 & S1 & F1 & _ & Wu & Ku & _).
  fold k users u in E1, D1, S1, Wu, Ku. rewrite B, app_nil_r in S1.
  pose proof Wu as (Hid & _ & _ & Ha & Hb & _). rewrite B in Hb. rewrite A in Ha.
  unfold bot_command_restart.
  rewrite (bind_ok _ _ _ _ _ E1).
  rewrite (bind_ok _ _ _ _ _ (log_from_run _ _ _ Wu)).
  rewrite (bind_ok _ _ _ _ _ (getitem_run _ _ _ _ Hb)). cbn [truthy].
  rewrite (bind_ok _ _ _ _ _ (getitem_run _ _ _ _ Ha)). cbn [truthy negb].
  unfold logging_warning at 1, modify at 1, bind at 1.
  rewrite (bind_ok _ _ _ _ _ (getitem_run _ _ _ _ Hid)). rewrite Ku.
  match goal with
  | |- context [bind (_send_safe _ _ ?t) _ ?x] =>
      destruct (send_safe_spec transport (VInt k) t x) as (w2 & E2 & D2 & S2 & F2)
  end.
  rewrite (bind_ok _ _ _ _ _ E2). unfold modify, bind.
  eexists. split; [reflexivity|]. world. injection F2 as _ Fm _ Ft. injection F1 as _ Fm1 _ Ft1.
  world. rewrite D2, S2, Ft, Fm, !sends_app, S1. cbn [sends]. rewrite !app_nil_r.
  rewrite Ft1, Fm1. auto 10.
Qed.

(** [/resetmessages] of an admin who is not banned, by what [context.args]
    holds. *)
Lemma resetmessages_spec update args w :
  wf_db w ->
  let k := effective_chat_id update in
  let users := users_of (users_database w) in
  let u := refresh update (view k users) in
  let users1 := More.checked update users in
  ubanned u = false -> uadmin u = true ->
  exists w', bot_command_resetmessages config transport int_of_str update args w = (Ok tt, w') /\
    frame w' = frame w /\ wf_users users1 /\ lookup_user k users1 = Some u /\
    match args with
    | None | Some [] =>
        users_of (users_database w') = users1 /\ sends (trace w') = sends (trace w)
    | Some (arg0 :: _) =>
        match int_of_str (strip arg0) with
        | inr e =>
            users_of (users_database w') = users1 /\
            sends (trace w') = sends (trace w) ++ [(VInt k, expand e)]
        | inl t =>
            users_of (users_database w')
              = set_user t (<["messages_total" := VInt 0]> (view t users1)) (ensure t users1) /\
            sends (trace w') = sends (trace w)
              ++ [(VInt k, expand (resetmessages_confirmation_message config))]
        end
    end.
Proof.
  intros W k users u users1 NB A.
  destruct (user_check_get_full config transport update w W)
    as (w1 & E1 & D1 & S1 & F1 & W1 & Wu & Ku & L1).
  fold k users u in E1, D1, S1, Wu, Ku, L1.
  change (set_user k u (ensure k users)) with users1 in D1.
  rewrite NB, app_nil_r in S1.
  pose proof Wu as (Hid & _ & _ & Ha & Hb & _).
  unfold bot_command_resetmessages.
  rewrite (bind_ok _ _ _ _ _ E1).
  rewrite (bind_ok _ _ _ _ _ (log_from_run _ _ _ Wu)).
  rewrite (bind_ok _ _ _ _ _ (getitem_run _ _ _ _ Hb)), NB. cbn [truthy].
  rewrite (bind_ok _ _ _ _ _ (getitem_run _ _ _ _ Ha)), A. cbn [truthy negb].
  set (w1' := emit _ w1).
  assert (wf_db w1') as W1' by exact W1.
  assert (users_of (users_database w1') = users1) as D1' by exact D1.
  assert (sends (trace w1') = sends (trace w)) as S1'.
  { unfold w1'. world. rewrite sends_app, S1. cbn. apply app_nil_r. }
  assert (frame w1' = frame w) as F1' by exact F1.
  assert (wf_users users1) as Wus by (rewrite <- D1; exact W1).
  assert (lookup_user k users1 = Some u) as Lk by (rewrite <- D1; exact L1).
  unfold with_target.
  destruct args as [[|arg0 rest]|].
  - exists w1'. unfold ret. auto 10.
  - destruct (int_of_str (strip arg0)) as [t|e].
    + destruct (get_user_spec t w1' W1') as (w2 & E2 & D2 & S2 & F2).
      rewrite D1' in E2, D2.
      rewrite (bind_ok _ _ _ _ _ E2). cbv zeta.
      assert (wf_db w2) as W2 by (unfold wf_db; rewrite D2; now apply wf_ensure).
      assert (lookup_user t (users_of (users_database w2)) = Some (view t users1)) as L2
        by (rewrite D2; apply lookup_ensure).
      rewrite (bind_ok _ _ _ _ _
                 (save_insert_run t w2 _ "messages_total" (VInt 0) W2 L2 ltac:(discriminate))).
      rewrite (bind_ok _ _ _ _ _ (getitem_run _ _ _ _ Hid)). rewrite Ku.
      match goal with
      | |- context [set_users_database ?d w2] => set (w3 := set_users_database d w2)
      end.
      destruct (send_safe_spec transport (VInt k) (resetmessages_confirmation_message config) w3)
        as (w4 & E4 & D4 & S4 & F4).
      exists w4. split; [exact E4|]. rewrite D4, S4, F4.
      split; [transitivity (frame w2); [reflexivity | now rewrite F2]|].
      split; [exact Wus|]. split; [exact Lk|].
      unfold w3. cbn [users_database set_users_database trace users_of].
      rewrite D2, S2, S1'. auto.
    + rewrite (bind_ok _ _ _ _ _ (getitem_run _ _ _ _ Hid)). rewrite Ku.
      destruct (send_safe_spec transport (VInt k) e w1') as (w2 & E2 & D2 & S2 & F2).
      exists w2. split; [exact E2|]. rewrite D2, S2, F2, D1', S1', F1'. auto 10.
  - exists w1'. unfold ret. auto 10.
Qed.

(** A text update without [update.message], of a sender who is neither
    banned nor an admin. *)
Lemma edited_message_spec update w :
  wf_db w -> message update = None ->
  let k := effective_chat_id update in
  let users := users_of (users_database w) in
  let u := view k users in
  ubanned u = false -> uadmin u = false ->
  exists w',
    bot_message config transport update w
    = (if (utotal u + 1 <=? user_max_messages config)%Z then Raise AttributeError else Ok tt, w') /\
    users_of (users_database w')
      = set_user k (<["messages_total" := VInt (utotal u + 1)]> u) (ensure k users) /\
    sends (trace w') = sends (trace w) /\
    frame w' = frame w.
Proof.
  intros W Hm k users u NB NA.
  destruct (user_check_get_full config transport update w W)
    as (w1 & E1 & D1 & S1 & F1 & W1 & Wu & Ku & L1).
  assert (refresh update (view k users) = u) as R by (unfold refresh; now rewrite Hm).
  fold k users in E1, D1, S1, Wu, Ku, L1. rewrite R in E1, D1, S1, Wu, Ku, L1.
  rewrite NB, app_nil_r in S1.
  pose proof Wu as (Hid & Hn & Hf & Ha & Hb & Ht).
  unfold bot_message. rewrite (bind_ok _ _ _ _ _ E1).
  rewrite (bind_ok _ _ _ _ _ (log_from_run _ _ _ Wu)).
  rewrite (bind_ok _ _ _ _ _ (getitem_run _ _ _ _ Hb)), NB. cbn [truthy].
  rewrite (bind_ok _ _ _ _ _ (getitem_run _ _ _ _ Ha)), NA. cbn [truthy].
  rewrite (bind_ok _ _ _ _ _ (getitem_run _ _ _ _ Ht)).
  unfold lift at 1, bind at 1. cbn [py_add_one as_int]. cbv zeta.
  set (u2 := <["messages_total" := VInt (utotal u + 1)]> u).
  set (w1' := emit _ w1).
  assert (wf_db w1') as W1' by exact W1.
  rewrite (bind_ok _ _ _ _ _
             (save_insert_run k w1' u "messages_total" (VInt (utotal u + 1)) W1' L1
                ltac:(discriminate))).
  fold u2.
  assert (wf_user u2) as Wu2 by (now apply wf_set_total).
  pose proof Wu2 as (_ & _ & _ & _ & _ & Ht2).
  assert (utotal u2 = utotal u + 1) as Tu2 by (unfold u2, utotal; now rewrite lookup_insert_eq).
  rewrite (bind_ok _ _ _ _ _ (getitem_run _ _ _ _ Ht2)), Tu2.
  unfold lift at 1, bind at 1. cbn [py_le as_int].
  set (w2 := set_users_database _ w1').
  assert (users_of (users_database w2) = set_user k u2 (ensure k users)) as D2.
  { unfold w2, w1'. world. rewrite D1. apply set_user_twice.
    rewrite (id_is_wf _ _ Wu). lia. }
  assert (sends (trace w2) = sends (trace w)) as S2.
  { unfold w2, w1'. world. rewrite sends_app, S1. cbn. now rewrite app_nil_r. }
  assert (frame w2 = frame w) as F2 by (unfold w2, w1'; world; exact F1).
  exists w2. split; [|auto].
  destruct (utotal u + 1 <=? user_max_messages config)%Z; [|reflexivity].
  rewrite Hm. reflexivity.
Qed.

End HandlerCases.

(** The store and the sends of a handler that is [_user_check_get] and a
    log line, for a sender who is not banned. *)
Lemma gate_effects config transport update w w1 u line :
  wf_db w ->
  _user_check_get config transport update w = (Ok u, w1) ->
  ubanned (view (effective_chat_id update) (users_of (users_database w))) = false ->
  users_of (users_database (emit (Log WARNING line) w1))
    = More.checked update (users_of (users_database w)) /\
  sends (trace (emit (Log WARNING line) w1)) = sends (trace w) /\
  frame (emit (Log WARNING line) w1) = frame w.
Proof.
  intros W E B.
  destruct (user_check_get_spec config transport update w W) as (w1' & E' & D & S & F).
  rewrite E in E'. injection E' as _ <-.
  rewrite refresh_banned, B, app_nil_r in S. world.
  rewrite sends_app, S. cbn [sends]. rewrite app_nil_r. auto.
Qed.

(** X6. [/users], [/ban], [/unban], [/restart] and [/resetmessages] of a
    sender who is neither banned nor an admin: nothing is sent, the store is
    as [_user_check_get] left it (only the sender's own handle and full name
    refreshed), and the restart flag, the event loop and the threads are
    untouched. *)
Theorem admin_commands_need_admin (config : Config) (transport : value -> string -> bool)
    (int_of_str : string -> Z + string) (h : handler) (update : Update)
    (args : option (list string)) (w : World) :
  wf_db w ->
  let k := effective_chat_id update in
  let users := users_of (users_database w) in
  ubanned (view k users) = false -> uadmin (view k users) = false ->
  More.admin_only h = true ->
  exists w', run_handler config transport int_of_str h update args w = (Ok tt, w') /\
    sends (trace w') = sends (trace w) /\
    users_of (users_database w') = set_user k (refresh update (view k users)) (ensure k users) /\
    frame w' = frame w.
Proof.
  intros W k users B A H.
  destruct (admin_gate_run config transport int_of_str h update args w W)
    as (w1 & line & E1 & R); auto.
  { fold k users. now rewrite refresh_banned. }
  { fold k users. now rewrite refresh_admin. }
  destruct (gate_effects config transport update w w1 _ line W E1 B) as (D & S & F).
  eexists. split; [exact R|]. auto.
Qed.

(** Alice is no admin: her [/ban 1] and her [/restart] do nothing. *)
Lemma admin_commands_need_admin_witness :
  (exists w', run_handler Sample.cfg Sample.always_delivered Sample.int_literal on_ban
                (Sample.from_alice "") (Some ["1"]) More.w_alice = (Ok tt, w') /\
     sends (trace w') = [] /\ ubanned (view 1 (users_of (users_database w'))) = false) /\
  (exists w', run_handler Sample.cfg Sample.always_delivered Sample.int_literal on_restart
                (Sample.from_alice "") None More.w_alice = (Ok tt, w') /\
     sends (trace w') = [] /\ restart_requested_flag w' = false).
Proof.
  split.
  - destruct (admin_commands_need_admin Sample.cfg Sample.always_delivered Sample.int_literal
                on_ban (Sample.from_alice "") (Some ["1"]) More.w_alice
                ltac:(wf_closed) eq_refl eq_refl eq_refl) as (w' & E & S & D & _).
    exists w'. split; [exact E|]. split; [exact S|]. now rewrite D.
  - destruct (admin_commands_need_admin Sample.cfg Sample.always_delivered Sample.int_literal
                on_restart (Sample.from_alice "") None More.w_alice
                ltac:(wf_closed) eq_refl eq_refl eq_refl) as (w' & E & S & _ & F).
    exists w'. split; [exact E|]. split; [exact S|]. now injection F.
Defined.

(** X7. A text message of an admin who is not banned is not relayed, not
    confirmed and not counted: nothing is sent and the admin's
    [messages_total] stays as it is. *)
Theorem admin_text_ignored (config : Config) (transport : value -> string -> bool)
    (update : Update) (w : World) :
  wf_db w ->
  let k := effective_chat_id update in
  let users := users_of (users_database w) in
  ubanned (view k users) = false -> uadmin (view k users) = true ->
  exists w', bot_message config transport update w = (Ok tt, w') /\
    sends (trace w') = sends (trace w) /\
    users_of (users_database w') = set_user k (refresh update (view k users)) (ensure k users) /\
    utotal (view k (users_of (users_database w'))) = utotal (view k users) /\
    frame w' = frame w.
Proof.
  intros W k users B A.
  destruct (admin_text_run config transport update w W) as (w1 & line & E1 & R).
  { fold k users. now rewrite refresh_banned. }
  { fold k users. now rewrite refresh_admin. }
  destruct (gate_effects config transport update w w1 _ line W E1 B) as (D & S & F).
  eexists. split; [exact R|]. split; [exact S|]. split; [exact D|]. split; [|exact F].
  rewrite D. unfold More.checked. fold k users.
  destruct (wf_view k users W) as [Wv Kv].
  unfold view at 1.
  rewrite (lookup_set_user _ _ _ (view k users)); [apply refresh_total | apply lookup_ensure |].
  rewrite (id_is_wf _ _ (wf_refresh update _ Wv)), refresh_id. lia.
Qed.

Lemma admin_text_ignored_witness :
  exists w', bot_message Sample.cfg Sample.always_delivered Sample.from_root Sample.w0
             = (Ok tt, w') /\
    sends (trace w') = [] /\ utotal (view 1 (users_of (users_database w'))) = 0.
Proof.
  destruct (admin_text_ignored Sample.cfg Sample.always_delivered Sample.from_root Sample.w0
              ltac:(wf_closed) eq_refl eq_refl) as (w' & E & S & _ & T & _).
  exists w'. auto.
Defined.

(** X8. A text update without [update.message] (an edited message), of a
    sender who is neither banned nor an admin: the counter is raised by one
    and stored, nothing is sent, and within the quota the handler ends with
    [AttributeError] where it reads [update.message.text]; above the quota it
    returns. *)
Theorem edited_message_counts (config : Config) (transport : value -> string -> bool)
    (update : Update) (w : World) :
  wf_db w -> message update = None ->
  let k := effective_chat_id update in
  let users := users_of (users_database w) in
  ubanned (view k users) = false -> uadmin (view k users) = false ->
  exists w',
    bot_message config transport update w
    = (if (utotal (view k users) + 1 <=? user_max_messages config)%Z
       then Raise AttributeError else Ok tt, w') /\
    lookup_user k (users_of (users_database w'))
      = Some (<["messages_total" := VInt (utotal (view k users) + 1)]> (view k users)) /\
    sends (trace w') = sends (trace w) /\
    frame w' = frame w.
Proof.
  intros W Hm k users B A.
  destruct (edited_message_spec config transport update w W Hm B A) as (w' & E & D & S & F).
  fold k users in E, D. exists w'. split; [exact E|]. split; [|auto].
  rewrite D. destruct (wf_view k users W) as [Wv Kv].
  apply (lookup_set_user _ _ _ (view k users)); [apply lookup_ensure|].
  rewrite (id_is_wf _ _ (wf_set_total _ _ Wv)), uid_insert by discriminate. lia.
Qed.

(** Alice edits a message: with two messages used of three the handler
    raises, and her counter is three afterwards. *)
Lemma edited_message_counts_witness :
  exists w', bot_message Sample.cfg Sample.always_delivered More.alice_edits Sample.w2
             = (Raise AttributeError, w') /\
    utotal (view 42 (users_of (users_database w'))) = 3 /\ sends (trace w') = [].
Proof.
  destruct (edited_message_counts Sample.cfg Sample.always_delivered More.alice_edits Sample.w2
              ltac:(wf_closed) eq_refl eq_refl eq_refl) as (w' & E & L & S & _).
  exists w'. split; [exact E|]. split; [|exact S].
  unfold view. change (effective_chat_id More.alice_edits) with 42 in L. rewrite L. reflexivity.
Defined.

(** X9. [/start] of a sender who is not banned: an admin is sent
    [admin_message], anybody else the form text that was read when polling
    started; the store is as [_user_check_get] left it. *)
Theorem start_answers (config : Config) (transport : value -> string -> bool)
    (update : Update) (w : World) :
  wf_db w ->
  let k := effective_chat_id update in
  let users := users_of (users_database w) in
  ubanned (view k users) = false ->
  exists w', bot_command_start config transport update w = (Ok tt, w') /\
    sends (trace w') = sends (trace w)
      ++ [(VInt k, expand (if uadmin (view k users) then admin_message config
                           else form_message w))] /\
    users_of (users_database w') = set_user k (refresh update (view k users)) (ensure k users) /\
    frame w' = frame w.
Proof.
  intros W k users B.
  destruct (start_spec config transport update w W) as (w' & E & D & S & F).
  { fold k users. now rewrite refresh_banned. }
  fold k users in S. rewrite refresh_admin in S. exists w'. auto.
Qed.

Lemma start_answers_witness :
  sends (trace (snd (bot_command_start Sample.cfg Sample.always_delivered Sample.from_root
                       Sample.w0))) = [(VInt 1, "Admin help")] /\
  sends (trace (snd (bot_command_start Sample.cfg Sample.always_delivered (Sample.from_alice "")
                       Sample.w0))) = [(VInt 42, "Fill in the form")].
Proof.
  destruct (start_answers Sample.cfg Sample.always_delivered Sample.from_root Sample.w0
              ltac:(wf_closed) eq_refl) as (w1 & E1 & S1 & _).
  destruct (start_answers Sample.cfg Sample.always_delivered (Sample.from_alice "") Sample.w0
              ltac:(wf_closed) eq_refl) as (w2 & E2 & S2 & _).
  rewrite E1, E2. cbn [snd]. rewrite S1, S2. split; reflexivity.
Defined.

Lemma listing_of_app us x : More.listing_of (us ++ [x]) = More.listing_of us +:+ More.line_of x.
Proof. unfold More.listing_of. now rewrite fold_left_app. Qed.

(** X10. [/users] of an admin who is not banned is answered with one
    message: the header and then one line per stored profile in the order of
    the store, read after the admin's own handle and full name were
    refreshed. *)
Theorem users_lists_store (config : Config) (transport : value -> string -> bool)
    (update : Update) (w : World) :
  wf_db w ->
  let k := effective_chat_id update in
  let users := users_of (users_database w) in
  ubanned (view k users) = false -> uadmin (view k users) = true ->
  let users1 := set_user k (refresh update (view k users)) (ensure k users) in
  exists w', bot_command_users config transport update w = (Ok tt, w') /\
    sends (trace w') = sends (trace w) ++ [(VInt k, expand (More.listing_of users1))] /\
    users_of (users_database w') = users1 /\
    More.listing_of [] = More.listing_header /\
    (forall us x, More.listing_of (us ++ [x]) = More.listing_of us +:+ More.line_of x).
Proof.
  intros W k users B A users1.
  destruct (users_spec config transport update w W) as (w' & E & D & S & F).
  { fold k users. now rewrite refresh_banned. }
  { fold k users. now rewrite refresh_admin. }
  exists w'. split; [exact E|]. split; [exact S|]. split; [exact D|].
  split; [reflexivity | exact listing_of_app].
Qed.

Lemma users_lists_store_witness :
  sends (trace (snd (bot_command_users Sample.cfg Sample.always_delivered Sample.from_root
                       (Sample.world_of (Some [Sample.admin1; Sample.bob])))))
  = [(VInt 1,
      "id" +:+ TAB +:+ "Username" +:+ TAB +:+ "Full name" +:+ TAB +:+ "Admin?" +:+ TAB
      +:+ "Banned?" +:+ TAB +:+ "Total messages" +:+ LF +:+ LF
      +:+ "1" +:+ TAB +:+ "@root" +:+ TAB +:+ "Root" +:+ TAB +:+ "True" +:+ TAB +:+ "False"
      +:+ TAB +:+ "0" +:+ LF
      +:+ "5" +:+ TAB +:+ "@bob" +:+ TAB +:+ "Bob" +:+ TAB +:+ "False" +:+ TAB +:+ "True"
      +:+ TAB +:+ "0" +:+ LF)].
Proof.
  destruct (users_lists_store Sample.cfg Sample.always_delivered Sample.from_root
              (Sample.world_of (Some [Sample.admin1; Sample.bob]))
              ltac:(wf_closed) eq_refl eq_refl) as (w' & E & S & _).
  rewrite E. cbn [snd]. rewrite S. reflexivity.
Defined.

Lemma target_update f v t us :
  wf_users us -> f <> "id" -> wf_user (<[f := v]> (view t us)) ->
  let us' := set_user t (<[f := v]> (view t us)) (ensure t us) in
  wf_users us' /\
  lookup_user t us' = Some (<[f := v]> (view t us)) /\
  (forall j, j <> t -> lookup_user j us' = lookup_user j us).
Proof.
  intros Wus Nf Wb us'. destruct (wf_view t us Wus) as [Wv Kv].
  assert (uid (<[f := v]> (view t us)) = t) as Kb by (now rewrite uid_insert).
  split; [apply wf_set_user; [now apply wf_ensure | exact Wb]|].
  split.
  - apply (lookup_set_user _ _ _ (view t us)); [apply lookup_ensure|].
    rewrite (id_is_wf _ _ Wb). lia.
  - intros j N. unfold us'.
    rewrite lookup_set_user_other; auto using wf_ensure.
    now apply lookup_ensure_other.
Qed.

(** X11. [/resetmessages] of an admin who is not banned. Without an
    argument nothing happens; a first argument that is no integer is answered
    with the error text and changes nothing; a first argument that parses to
    [t] sets the counter of [t] to 0, keeping its other fields and every other
    profile, and is confirmed to the admin. After that a text message of [t],
    if [t] is neither banned nor an admin and the quota is at least one, is
    relayed again and counted as the first. *)
Theorem resetmessages_reopens_quota (config : Config) (transport : value -> string -> bool)
    (int_of_str : string -> Z + string) (update : Update) (args : option (list string))
    (w : World) :
  wf_db w ->
  let k := effective_chat_id update in
  let users := users_of (users_database w) in
  ubanned (view k users) = false -> uadmin (view k users) = true ->
  let users1 := set_user k (refresh update (view k users)) (ensure k users) in
  exists w',
    bot_command_resetmessages config transport int_of_str update args w = (Ok tt, w') /\
    (args = None \/ args = Some [] ->
       users_of (users_database w') = users1 /\ sends (trace w') = sends (trace w)) /\
    (forall arg0 rest e, args = Some (arg0 :: rest) -> int_of_str (strip arg0) = inr e ->
       users_of (users_database w') = users1 /\
       sends (trace w') = sends (trace w) ++ [(VInt k, expand e)]) /\
    (forall arg0 rest t, args = Some (arg0 :: rest) -> int_of_str (strip arg0) = inl t ->
       lookup_user t (users_of (users_database w'))
         = Some (<["messages_total" := VInt 0]> (view t users1)) /\
       (forall j, j <> t -> lookup_user j (users_of (users_database w')) = lookup_user j users1) /\
       sends (trace w') = sends (trace w)
         ++ [(VInt k, expand (resetmessages_confirmation_message config))] /\
       forall update2 m,
         effective_chat_id update2 = t -> message update2 = Some m ->
         ubanned (view t users1) = false -> uadmin (view t users1) = false ->
         1 <= user_max_messages config ->
         exists w'', bot_message config transport update2 w' = (Ok tt, w'') /\
           utotal (view t (users_of (users_database w''))) = 1 /\
           sends (trace w'') = sends (trace w')
             ++ map (fun a => (VInt (uid a),
                               expand (relay_prefix
                                         (refresh update2 (view t (users_of (users_database w'))))
                                       +:+ LF +:+ LF +:+ text m)))
                    (admins (users_of (users_database w'')))
             ++ [(VInt t, expand (confirmation_message config))]).
Proof.
  intros W k users B A users1.
  destruct (resetmessages_spec config transport int_of_str update args w W)
    as (w' & E & _ & Wus & _ & M).
  { fold k users. now rewrite refresh_banned. }
  { fold k users. now rewrite refresh_admin. }
  change (More.checked update (users_of (users_database w))) with users1 in Wus, M.
  exists w'. split; [exact E|].
  split; [intros [-> | ->]; exact M|].
  split; [intros arg0 rest e -> P; rewrite P in M; exact M|].
  intros arg0 rest t -> P. rewrite P in M. destruct M as [D S].
  destruct (wf_view t users1 Wus) as [Wv Kv].
  destruct (target_update "messages_total" (VInt 0) t users1 Wus ltac:(discriminate)
              (wf_set_total _ _ Wv)) as (W' & L & O).
  rewrite D. split; [exact L|]. split; [exact O|]. split; [exact S|].
  intros update2 m Ht Hm B2 A2 Q. rewrite <- D in W', L |- *.
  assert (view t (users_of (users_database w')) = <["messages_total" := VInt 0]> (view t users1))
    as V by (unfold view at 1; now rewrite L).
  destruct (bot_message_step config transport update2 m w' W' Hm)
    as (w'' & E2 & _ & _ & T2 & _ & _ & S2 & _).
  { rewrite Ht, V. now rewrite ubanned_insert by discriminate. }
  { rewrite Ht, V. now rewrite uadmin_insert by discriminate. }
  rewrite Ht in T2, S2. rewrite V in T2, S2 at 1.
  assert (utotal (<["messages_total" := VInt 0]> (view t users1)) = 0) as Z0
    by (unfold utotal; now rewrite lookup_insert_eq).
  rewrite Z0 in T2, S2.
  destruct (Z.leb_spec (0 + 1) (user_max_messages config)); [|lia].
  exists w''. split; [exact E2|]. split; [exact T2 | exact S2].
Qed.

(** The admin resets alice, who has used up her quota of three; her next
    message is relayed. *)
Lemma resetmessages_reopens_quota_witness :
  exists w' w'',
    bot_command_resetmessages Sample.cfg Sample.always_delivered Sample.int_literal
      Sample.from_root (Some ["42"]) More.w_alice = (Ok tt, w') /\
    sends (trace w') = [(VInt 1, "Reset")] /\
    bot_message Sample.cfg Sample.always_delivered (Sample.from_alice "hi") w' = (Ok tt, w'') /\
    utotal (view 42 (users_of (users_database w''))) = 1.
Proof.
  destruct (resetmessages_reopens_quota Sample.cfg Sample.always_delivered Sample.int_literal
              Sample.from_root (Some ["42"]) More.w_alice ltac:(wf_closed) eq_refl eq_refl)
    as (w' & E & _ & _ & Success).
  destruct (Success "42" [] 42 eq_refl eq_refl) as (_ & _ & S & Next).
  destruct (Next (Sample.from_alice "hi") _ eq_refl eq_refl eq_refl eq_refl
              ltac:(vm_compute; discriminate)) as (w'' & E2 & T2 & _).
  exists w', w''. auto.
Defined.

(** ** The restart notice *)

Lemma send_message_after_restart_frame config transport (u : user) w :
  let w' := snd (send_message_after_restart config transport u w) in
  threads w' = threads w /\ restart_requested_flag w' = restart_requested_flag w /\
  users_database w' = users_database w.
Proof.
  unfold send_message_after_restart, bind, logging_warning, logging_error, modify, ret.
  destruct (u !! "id") as [id|]; [destruct (transport id _)|]; cbn; auto.
Qed.

(** X12. [/restart] of an admin who is not banned, with no other notice
    pending: the admin is sent [restart_message_start], the restart flag is
    set and the event loop closed. The thread that was started sends nothing
    while the flag is set; once the flag is cleared it sends the admin
    [restart_message_done] with the newline escape replaced, after the start
    notice, and is gone, so the notice is sent once. *)
Theorem restart_then_notice (config : Config) (transport : value -> string -> bool)
    (update : Update) (w : World) :
  wf_db w ->
  let k := effective_chat_id update in
  let users := users_of (users_database w) in
  ubanned (view k users) = false -> uadmin (view k users) = true ->
  threads w = [] ->
  exists w', bot_command_restart config transport update w = (Ok tt, w') /\
    sends (trace w') = sends (trace w) ++ [(VInt k, expand (restart_message_start config))] /\
    restart_requested_flag w' = true /\ event_loop_closed w' = true /\
    thread_step config transport w' = w' /\
    let w'' := thread_step config transport (set_restart_requested_flag false w') in
    sends (trace w'') = sends (trace w)
      ++ [(VInt k, expand (restart_message_start config));
          (VInt k, replace "\n" LF (restart_message_done config))] /\
    threads w'' = [] /\
    thread_step config transport w'' = w''.
Proof.
  intros W k users B A T.
  destruct (restart_spec config transport update w W) as (w' & E & _ & S & Fl & Cl & Th & _).
  { fold k users. now rewrite refresh_banned. }
  { fold k users. now rewrite refresh_admin. }
  fold k users in Th. rewrite T in Th. cbn [app] in Th.
  destruct (wf_view k users W) as [Wv Kv].
  pose proof (wf_refresh update _ Wv) as (Hid & _). rewrite refresh_id, Kv in Hid.
  exists w'. split; [exact E|]. split; [exact S|]. split; [exact Fl|]. split; [exact Cl|].
  split; [unfold thread_step; now rewrite Fl|].
  set (x := set_threads [] (set_restart_requested_flag false w')).
  assert (thread_step config transport (set_restart_requested_flag false w')
          = snd (send_message_after_restart config transport (refresh update (view k users)) x))
    as Step.
  { unfold thread_step. cbn [restart_requested_flag set_restart_requested_flag threads].
    now rewrite Th. }
  cbv zeta. rewrite Step.
  pose proof (send_message_after_restart_sends config transport _ _ x Hid) as Sx.
  destruct (send_message_after_restart_frame config transport
              (refresh update (view k users)) x) as (Tx & Fx & _).
  split; [rewrite Sx; unfold x; world; rewrite S, <- app_assoc; reflexivity|].
  split; [rewrite Tx; reflexivity|].
  unfold thread_step. rewrite Fx, Tx. reflexivity.
Qed.

Lemma restart_then_notice_witness :
  exists w', bot_command_restart Sample.cfg Sample.always_delivered Sample.from_root Sample.w0
             = (Ok tt, w') /\
    restart_requested_flag w' = true /\
    sends (trace (thread_step Sample.cfg Sample.always_delivered
                    (set_restart_requested_flag false w')))
    = [(VInt 1, "Restarting..."); (VInt 1, "Done" +:+ LF +:+ "\tok")].
Proof.
  destruct (restart_then_notice Sample.cfg Sample.always_delivered Sample.from_root Sample.w0
              ltac:(wf_closed) eq_refl eq_refl eq_refl) as (w' & E & _ & F & _ & _ & S & _).
  exists w'. split; [exact E|]. split; [exact F | exact S].
Defined.

(** ** What no handler does to the store *)

Lemma view_ensure j t us : view j (ensure t us) = view j us.
Proof.
  destruct (decide (j = t)) as [->|N].
  - unfold view at 1. now rewrite lookup_ensure.
  - unfold view. now rewrite lookup_ensure_other.
Qed.

Lemma view_set_user j t new us old :
  wf_users us -> wf_user new -> uid new = t -> lookup_user t us = Some old ->
  view j (set_user t new us) = if decide (j = t) then new else view j us.
Proof.
  intros W Wn K L. destruct (decide (j = t)) as [->|N].
  - unfold view. rewrite (lookup_set_user _ _ _ _ L); [reflexivity|].
    rewrite (id_is_wf _ _ Wn). lia.
  - unfold view. now rewrite lookup_set_user_other.
Qed.

Lemma view_target f v t j us :
  wf_users us -> f <> "id" -> wf_user (<[f := v]> (view t us)) ->
  view j (set_user t (<[f := v]> (view t us)) (ensure t us))
  = if decide (j = t) then <[f := v]> (view t us) else view j us.
Proof.
  intros W N Wn. destruct (wf_view t us W) as [Wv Kv].
  rewrite (view_set_user j t _ _ (view t us)); auto using wf_ensure, lookup_ensure.
  - destruct (decide (j = t)); [reflexivity | apply view_ensure].
  - now rewrite uid_insert.
Qed.

Lemma view_checked j update us :
  wf_users us ->
  view j (More.checked update us)
  = if decide (j = effective_chat_id update)
    then refresh update (view (effective_chat_id update) us) else view j us.
Proof.
  intros W. unfold More.checked. destruct (wf_view (effective_chat_id update) us W) as [Wv Kv].
  rewrite (view_set_user j _ _ _ (view (effective_chat_id update) us));
    auto using wf_ensure, lookup_ensure, wf_refresh.
  - destruct (decide (j = _)); [reflexivity | apply view_ensure].
  - now rewrite refresh_id.
Qed.

Lemma wf_checked update us : wf_users us -> wf_users (More.checked update us).
Proof.
  intros W. unfold More.checked. destruct (wf_view (effective_chat_id update) us W) as [Wv Kv].
  apply wf_set_user; auto using wf_ensure, wf_refresh.
Qed.

Lemma lookup_ensure_some j t us :
  is_Some (lookup_user j us) -> is_Some (lookup_user j (ensure t us)).
Proof.
  intros [x Hx]. unfold ensure. destruct (lookup_user t us); [now exists x|].
  exists x. now apply lookup_user_app_some.
Qed.

Lemma lookup_set_user_some j t new us old :
  wf_users us -> wf_user new -> uid new = t -> lookup_user t us = Some old ->
  is_Some (lookup_user j us) -> is_Some (lookup_user j (set_user t new us)).
Proof.
  intros W Wn K L H. destruct (decide (j = t)) as [->|N].
  - exists new. apply (lookup_set_user _ _ _ _ L). rewrite (id_is_wf _ _ Wn). lia.
  - now rewrite lookup_set_user_other.
Qed.

Lemma lookup_checked_some j update us :
  wf_users us -> is_Some (lookup_user j us) -> is_Some (lookup_user j (More.checked update us)).
Proof.
  intros W H. unfold More.checked. destruct (wf_view (effective_chat_id update) us W) as [Wv Kv].
  apply (lookup_set_user_some _ _ _ _ (view (effective_chat_id update) us));
    auto using wf_ensure, wf_refresh, lookup_ensure, lookup_ensure_some.
  now rewrite refresh_id.
Qed.

Lemma lookup_target_some f v t j us :
  wf_users us -> f <> "id" -> wf_user (<[f := v]> (view t us)) ->
  is_Some (lookup_user j us) ->
  is_Some (lookup_user j (set_user t (<[f := v]> (view t us)) (ensure t us))).
Proof.
  intros W N Wn H. destruct (wf_view t us W) as [Wv Kv].
  apply (lookup_set_user_some _ _ _ _ (view t us));
    auto using wf_ensure, lookup_ensure, lookup_ensure_some.
  now rewrite uid_insert.
Qed.

(** The counter write of [bot_message], seen from the store
    [_user_check_get] left. *)
Lemma checked_self update us x :
  wf_users us ->
  let k := effective_chat_id update in
  view k (More.checked update us) = refresh update (view k us) /\
  set_user k x (ensure k (More.checked update us)) = set_user k x (ensure k us).
Proof.
  intros W k. destruct (wf_view k us W) as [Wv Kv].
  assert (lookup_user k (More.checked update us) = Some (refresh update (view k us))) as L.
  { apply (lookup_set_user _ _ _ (view k us)); [apply lookup_ensure|].
    rewrite (id_is_wf _ _ (wf_refresh update _ Wv)), refresh_id. lia. }
  split; [unfold view at 1; now rewrite L|].
  unfold ensure at 1. rewrite L. unfold More.checked. fold k. apply set_user_twice.
  rewrite (id_is_wf _ _ (wf_refresh update _ Wv)), refresh_id. lia.
Qed.

Section Footprint.

Variable config : Config.
Variable transport : value -> string -> bool.
Variable int_of_str : string -> Z + string.

(** Every handler, whoever sends and whatever the arguments: the store it
    leaves is one of the three shapes of [store_step]. *)
Lemma handler_store_step h update args w :
  wf_db w ->
  More.store_step h update (users_of (users_database w))
    (users_of (users_database (snd (run_handler config transport int_of_str h update args w)))).
Proof.
  intros W.
  set (k := effective_chat_id update). set (users := users_of (users_database w)).
  set (u := refresh update (view k users)).
  assert (ubanned (view k users) = ubanned u) as Bv by (unfold u; now rewrite refresh_banned).
  assert (uadmin (view k users) = uadmin u) as Av by (unfold u; now rewrite refresh_admin).
  assert (forall w1 line, _user_check_get config transport update w = (Ok u, w1) ->
            users_of (users_database (emit (Log WARNING line) w1)) = More.checked update users)
    as Gate.
  { intros w1 line E1.
    destruct (user_check_get_spec config transport update w W) as (w1' & E' & D & _).
    fold k users u in E', D. rewrite E1 in E'. injection E' as <-. exact D. }
  destruct (ubanned u) eqn:B.
  - assert (h = on_chatid \/ h <> on_chatid) as [->|N]
      by (destruct h; (now left) || (right; discriminate)).
    + destruct (chatid_spec config transport update w W) as (w' & E & D & _).
      cbn [run_handler]. rewrite E. now apply More.step_checked.
    + destruct (banned_gate config transport int_of_str h update args w W B N)
        as (w1 & line & E1 & R).
      rewrite R. apply More.step_checked. now apply Gate.
  - assert (forall h', More.admin_only h' = true -> uadmin u = false ->
              More.store_step h' update users
                (users_of (users_database
                   (snd (run_handler config transport int_of_str h' update args w))))) as NoAdmin.
    { intros h' H A.
      destruct (admin_gate_run config transport int_of_str h' update args w W B A H)
        as (w1 & line & E1 & R).
      rewrite R. apply More.step_checked. now apply Gate. }
    destruct h.
    + destruct (start_spec config transport update w W B) as (w' & E & D & _).
      cbn [run_handler]. rewrite E. now apply More.step_checked.
    + destruct (chatid_spec config transport update w W) as (w' & E & D & _).
      cbn [run_handler]. rewrite E. now apply More.step_checked.
    + cbn [run_handler]. destruct (uadmin u) eqn:A.
      * destruct (admin_text_run config transport update w W B A) as (w1 & line & E1 & R).
        rewrite R. apply More.step_checked. now apply Gate.
      * destruct (checked_self update users
                    (<["messages_total" := VInt (utotal u + 1)]> u) W) as [Vk Sk].
        fold k u in Vk, Sk.
        apply (More.step_total _ _ _ _ k (utotal u + 1)); [reflexivity|].
        rewrite Vk, Sk.
        destruct (message update) as [m|] eqn:Hm.
        -- destruct (bot_message_spec config transport update m w W Hm B A)
             as (w' & E & D & _).
           rewrite E. exact D.
        -- assert (u = view k users) as Uv by (unfold u, refresh; now rewrite Hm).
           destruct (edited_message_spec config transport update w W Hm) as (w' & E & D & _).
           { fold k users. now rewrite <- Uv. }
           { fold k users. now rewrite <- Uv. }
           fold k users in D. rewrite <- Uv in D. rewrite E. exact D.
    + destruct (uadmin u) eqn:A; [|now apply NoAdmin].
      destruct (users_spec config transport update w W B A) as (w' & E & D & _).
      cbn [run_handler]. rewrite E. now apply More.step_checked.
    + destruct (uadmin u) eqn:A; [|now apply NoAdmin].
      destruct (ban_unban_spec config transport int_of_str true update args w W B A)
        as (w' & E & _ & _ & _ & M).
      cbn [run_handler]. unfold bot_command_ban. rewrite E. cbn [snd].
      destruct args as [[|arg0 rest]|]; try (apply More.step_checked; exact (proj1 M)).
      destruct (int_of_str (strip arg0)) as [t|e]; [|apply More.step_checked; exact (proj1 M)].
      apply (More.step_banned _ _ _ _ t true); [reflexivity | exact (proj1 M)].
    + destruct (uadmin u) eqn:A; [|now apply NoAdmin].
      destruct (ban_unban_spec config transport int_of_str false update args w W B A)
        as (w' & E & _ & _ & _ & M).
      cbn [run_handler]. unfold bot_command_unban. rewrite E. cbn [snd].
      destruct args as [[|arg0 rest]|]; try (apply More.step_checked; exact (proj1 M)).
      destruct (int_of_str (strip arg0)) as [t|e]; [|apply More.step_checked; exact (proj1 M)].
      apply (More.step_banned _ _ _ _ t false); [reflexivity | exact (proj1 M)].
    + destruct (uadmin u) eqn:A; [|now apply NoAdmin].
      destruct (restart_spec config transport update w W B A) as (w' & E & D & _).
      cbn [run_handler]. rewrite E. now apply More.step_checked.
    + destruct (uadmin u) eqn:A; [|now apply NoAdmin].
      destruct (resetmessages_spec config transport int_of_str update args w W B A)
        as (w' & E & _ & _ & _ & M).
      cbn [run_handler]. rewrite E. cbn [snd].
      destruct args as [[|arg0 rest]|]; try (apply More.step_checked; exact (proj1 M)).
      destruct (int_of_str (strip arg0)) as [t|e]; [|apply More.step_checked; exact (proj1 M)].
      apply (More.step_total _ _ _ _ t 0); [reflexivity | exact (proj1 M)].
Qed.

End Footprint.

Lemma store_step_keeps h update us us' :
  wf_users us -> More.store_step h update us us' ->
  wf_users us' /\
  (forall j, uadmin (view j us') = uadmin (view j us)) /\
  (forall j, is_Some (lookup_user j us) -> is_Some (lookup_user j us')) /\
  (More.writes_banned h = false -> forall j, ubanned (view j us') = ubanned (view j us)) /\
  (More.writes_total h = false -> forall j, utotal (view j us') = utotal (view j us)) /\
  (forall j, j <> effective_chat_id update ->
     uname (view j us') = uname (view j us) /\ ufull (view j us') = ufull (view j us)).
Proof.
  intros W Step.
  pose proof (wf_checked update us W) as Wc.
  assert (forall (A : Type) (g : user -> A),
            (forall x, g (refresh update x) = g x) ->
            forall j, g (view j (More.checked update us)) = g (view j us)) as Checked.
  { intros A g Hg j. rewrite (view_checked j update us W).
    destruct (decide (j = _)) as [->|]; [apply Hg | reflexivity]. }
  assert (forall j, j <> effective_chat_id update ->
            view j (More.checked update us) = view j us) as Others.
  { intros j N. rewrite (view_checked j update us W). now destruct (decide (j = _)). }
  assert (forall f v t, f <> "id" -> wf_user (<[f := v]> (view t (More.checked update us))) ->
            forall (A : Type) (g : user -> A),
              (forall x, g (<[f := v]> x) = g x) ->
              forall j, g (view j (set_user t (<[f := v]> (view t (More.checked update us)))
                                     (ensure t (More.checked update us))))
                        = g (view j (More.checked update us))) as Target.
  { intros f v t Nf Wn A g Hg j. rewrite (view_target f v t j _ Wc Nf Wn).
    destruct (decide (j = t)) as [->|]; [apply Hg | reflexivity]. }
  destruct Step as [-> | t b Hb -> | t n Ht ->].
  - split; [exact Wc|].
    split; [apply Checked, refresh_admin|].
    split; [intros j; now apply lookup_checked_some|].
    split; [intros _; apply Checked, refresh_banned|].
    split; [intros _; apply Checked, refresh_total|].
    intros j N. now rewrite (Others j N).
  - destruct (wf_view t _ Wc) as [Wv Kv].
    pose proof (wf_set_banned _ b Wv) as Wn.
    destruct (target_update "banned" (VBool b) t _ Wc ltac:(discriminate) Wn) as (W' & _ & _).
    split; [exact W'|].
    split.
    { intros j. rewrite (Target "banned" (VBool b) t ltac:(discriminate) Wn bool uadmin).
      - apply Checked, refresh_admin.
      - intros x. now apply uadmin_insert. }
    split.
    { intros j H. apply lookup_target_some;
        [exact Wc | discriminate | exact Wn | now apply lookup_checked_some]. }
    split; [congruence|].
    split.
    { intros _ j. rewrite (Target "banned" (VBool b) t ltac:(discriminate) Wn Z utotal).
      - apply Checked, refresh_total.
      - intros x. now apply utotal_insert. }
    intros j N.
    rewrite (Target "banned" (VBool b) t ltac:(discriminate) Wn string uname),
            (Target "banned" (VBool b) t ltac:(discriminate) Wn string ufull);
      try (intros x; now (apply uname_insert || apply ufull_insert)).
    now rewrite (Others j N).
  - destruct (wf_view t _ Wc) as [Wv Kv].
    pose proof (wf_set_total _ n Wv) as Wn.
    destruct (target_update "messages_total" (VInt n) t _ Wc ltac:(discriminate) Wn)
      as (W' & _ & _).
    split; [exact W'|].
    split.
    { intros j. rewrite (Target "messages_total" (VInt n) t ltac:(discriminate) Wn bool uadmin).
      - apply Checked, refresh_admin.
      - intros x. now apply uadmin_insert. }
    split.
    { intros j H. apply lookup_target_some;
        [exact Wc | discriminate | exact Wn | now apply lookup_checked_some]. }
    split.
    { intros _ j. rewrite (Target "messages_total" (VInt n) t ltac:(discriminate) Wn bool ubanned).
      - apply Checked, refresh_banned.
      - intros x. now apply ubanned_insert. }
    split; [congruence|].
    intros j N.
    rewrite (Target "messages_total" (VInt n) t ltac:(discriminate) Wn string uname),
            (Target "messages_total" (VInt n) t ltac:(discriminate) Wn string ufull);
      try (intros x; now (apply uname_insert || apply ufull_insert)).
    now rewrite (Others j N).
Qed.

(** X13. What no handler does, whoever the sender is and whatever the
    arguments are, on a store of well-typed profiles: the store stays
    well typed; no profile's admin flag changes and no profile is removed;
    a banned flag changes only in [/ban] and [/unban] and a counter only in
    the text handler and [/resetmessages]; handle and full name change for no
    id but the sender's. (An id that has no profile counts with the default
    profile a first contact creates.) *)
Theorem handler_footprint (config : Config) (transport : value -> string -> bool)
    (int_of_str : string -> Z + string) (h : handler) (update : Update)
    (args : option (list string)) (w : World) :
  wf_db w ->
  let users := users_of (users_database w) in
  let w' := snd (run_handler config transport int_of_str h update args w) in
  let users' := users_of (users_database w') in
  wf_db w' /\
  (forall j, uadmin (view j users') = uadmin (view j users)) /\
  (forall j, is_Some (lookup_user j users) -> is_Some (lookup_user j users')) /\
  (More.writes_banned h = false -> forall j, ubanned (view j users') = ubanned (view j users)) /\
  (More.writes_total h = false -> forall j, utotal (view j users') = utotal (view j users)) /\
  (forall j, j <> effective_chat_id update ->
     uname (view j users') = uname (view j users) /\ ufull (view j users') = ufull (view j users)).
Proof.
  intros W users w' users'.
  exact (store_step_keeps h update users users' W
           (handler_store_step config transport int_of_str h update args w W)).
Qed.

(** The admin bans alice: she stays no admin, her counter stays, and bob's
    record is as before. *)
Lemma handler_footprint_witness :
  uadmin (view 42 (users_of (users_database (snd
    (run_handler Sample.cfg Sample.always_delivered Sample.int_literal on_ban Sample.from_root
       (Some ["42"]) More.w_alice))))) = false /\
  utotal (view 42 (users_of (users_database (snd
    (run_handler Sample.cfg Sample.always_delivered Sample.int_literal on_ban Sample.from_root
       (Some ["42"]) More.w_alice))))) = 3.
Proof.
  destruct (handler_footprint Sample.cfg Sample.always_delivered Sample.int_literal on_ban
              Sample.from_root (Some ["42"]) More.w_alice ltac:(wf_closed))
    as (_ & A & _ & _ & T & _).
  split; [now rewrite (A 42) | now rewrite (T eq_refl 42)].
Defined.

Lemma store_step_sender h update us us' :
  wf_users us -> More.store_step h update us us' ->
  let k := effective_chat_id update in
  is_Some (lookup_user k us') /\
  uname (view k us') = uname (refresh update (view k us)) /\
  ufull (view k us') = ufull (refresh update (view k us)).
Proof.
  intros W Step k.
  pose proof (wf_checked update us W) as Wc.
  destruct (wf_view k us W) as [Wv Kv].
  assert (lookup_user k (More.checked update us) = Some (refresh update (view k us))) as L.
  { apply (lookup_set_user _ _ _ (view k us)); [apply lookup_ensure|].
    rewrite (id_is_wf _ _ (wf_refresh update _ Wv)), refresh_id. lia. }
  assert (view k (More.checked update us) = refresh update (view k us)) as V
    by (unfold view at 1; now rewrite L).
  assert (forall f v t, f <> "id" -> f <> "username" -> f <> "full_name" ->
            wf_user (<[f := v]> (view t (More.checked update us))) ->
            let us2 := set_user t (<[f := v]> (view t (More.checked update us)))
                         (ensure t (More.checked update us)) in
            is_Some (lookup_user k us2) /\
            uname (view k us2) = uname (refresh update (view k us)) /\
            ufull (view k us2) = ufull (refresh update (view k us))) as Target.
  { intros f v t N1 N2 N3 Wn us2. split.
    - apply lookup_target_some; [exact Wc | exact N1 | exact Wn | now rewrite L].
    - unfold us2. rewrite (view_target f v t k _ Wc N1 Wn).
      destruct (decide (k = t)) as [<-|]; [|now rewrite V].
      rewrite uname_insert, ufull_insert by assumption. now rewrite V. }
  destruct Step as [-> | t b Hb -> | t n Ht ->].
  - rewrite V, L. auto.
  - destruct (wf_view t _ Wc) as [Wt _].
    apply Target; try discriminate. now apply wf_set_banned.
  - destruct (wf_view t _ Wc) as [Wt _].
    apply Target; try discriminate. now apply wf_set_total.
Qed.

(** X14. After every handler, for every sender and whatever the handler
    goes on to do, the sender has a stored profile, and an update that
    carries a message leaves it with the full name of the update and with the
    handle of the update, or with the stored handle when the update has
    none. *)
Theorem sender_is_refreshed (config : Config) (transport : value -> string -> bool)
    (int_of_str : string -> Z + string) (h : handler) (update : Update)
    (args : option (list string)) (w : World) :
  wf_db w ->
  let k := effective_chat_id update in
  let users := users_of (users_database w) in
  let users' := users_of (users_database
                            (snd (run_handler config transport int_of_str h update args w))) in
  is_Some (lookup_user k users') /\
  forall m, message update = Some m ->
    ufull (view k users') = from_full_name m /\
    uname (view k users') = match from_username m with
                            | Some s => s
                            | None => uname (view k users)
                            end.
Proof.
  intros W k users users'.
  destruct (store_step_sender h update users users' W
              (handler_store_step config transport int_of_str h update args w W))
    as (S & N & F).
  split; [exact S|]. intros m Hm. fold k in N, F. rewrite N, F.
  unfold refresh. rewrite Hm. split.
  - unfold ufull. now rewrite lookup_insert_eq.
  - rewrite uname_insert by discriminate.
    destruct (from_username m); [|reflexivity]. unfold uname. now rewrite lookup_insert_eq.
Qed.

(** Bob, who is banned, sends [/start] under a new name. *)
Lemma sender_is_refreshed_witness :
  ufull (view 5 (users_of (users_database (snd
    (run_handler Sample.cfg Sample.always_delivered Sample.int_literal on_start
       (mkUpdate 5 (Some (mkMessage None "Robert" ""))) None Sample.w0))))) = "Robert" /\
  uname (view 5 (users_of (users_database (snd
    (run_handler Sample.cfg Sample.always_delivered Sample.int_literal on_start
       (mkUpdate 5 (Some (mkMessage None "Robert" ""))) None Sample.w0))))) = "bob".
Proof.
  destruct (sender_is_refreshed Sample.cfg Sample.always_delivered Sample.int_literal on_start
              (mkUpdate 5 (Some (mkMessage None "Robert" ""))) None Sample.w0 ltac:(wf_closed))
    as [_ R].
  exact (R _ eq_refl).
Defined.

(** ** More of the polling loop *)

(** X15. A round whose [try] block is left with an exception that names the
    closed event loop, while no restart was asked for, ends [start_bot]:
    ["Stopping telegram bot"] is logged, nothing is logged as an error,
    nothing is waited for, and whatever rounds would follow nothing is
    built. *)
Theorem closed_loop_stops (config : Config) (transport : value -> string -> bool)
    (int_of_str : string -> Z + string) (r : Round) (rest : list Round) (w w1 : World)
    (text : string) :
  try_block config transport int_of_str r w = (Raised text, w1) ->
  contains "Event loop is closed" text = true ->
  restart_requested_flag w1 = false ->
  start_bot config transport int_of_str (r :: rest) w
  = (Stopped, emit (Log WARNING "Telegram bot stopped")
                (emit (Log WARNING "Stopping telegram bot") w1)).
Proof.
  intros T C F. cbn [start_bot]. unfold round. rewrite T, C, F. reflexivity.
Qed.

Lemma closed_loop_stops_witness :
  fst (start_bot Sample.cfg Sample.always_delivered Sample.int_literal
         [More.closed_round; Sample.error_round] Sample.w0) = Stopped /\
  builds (trace (snd (start_bot Sample.cfg Sample.always_delivered Sample.int_literal
                        [More.closed_round; Sample.error_round] Sample.w0))) = 1%nat /\
  sleeps (trace (snd (start_bot Sample.cfg Sample.always_delivered Sample.int_literal
                        [More.closed_round; Sample.error_round] Sample.w0))) = [].
Proof.
  rewrite (closed_loop_stops Sample.cfg Sample.always_delivered Sample.int_literal
             More.closed_round [Sample.error_round] Sample.w0 _ _ eq_refl eq_refl eq_refl).
  repeat split; reflexivity.
Defined.

(** X16. A round in which the form file cannot be read: no application is
    built and nothing is dispatched; the exception is logged as an error, the
    fixed delay is waited, and the loop goes on, with the form text, the
    store and the pending threads as they were. *)
Theorem unreadable_form_retries (config : Config) (transport : value -> string -> bool)
    (int_of_str : string -> Z + string) (r : Round) (w : World) (text : string) :
  form_file r = inr text ->
  contains "Event loop is closed" text = false ->
  restart_requested_flag w = false -> sleep_interrupted r = false ->
  exists w', round config transport int_of_str r w = (Running, w') /\
    trace w' = trace w ++ [Log ERROR "Telegram bot error!";
                           Log WARNING "Restarting bot polling after 10 seconds";
                           Sleep RESTART_ON_ERROR_DELAY;
                           Log WARNING "Restarting bot polling"] /\
    users_database w' = users_database w /\
    form_message w' = form_message w /\
    threads w' = threads w /\
    restart_requested_flag w' = false.
Proof.
  intros Hf C F S. unfold round, try_block. rewrite Hf, C.
  unfold wait_and_restart. world. rewrite F, S.
  eexists. split; [reflexivity|]. world. rewrite <- !app_assoc. auto 10.
Qed.

Lemma unreadable_form_retries_witness :
  exists w', round Sample.cfg Sample.always_delivered Sample.int_literal More.no_form_round
               Sample.w0 = (Running, w') /\
    builds (trace w') = O /\ sleeps (trace w') = [10].
Proof.
  destruct (unreadable_form_retries Sample.cfg Sample.always_delivered Sample.int_literal
              More.no_form_round Sample.w0 _ eq_refl eq_refl eq_refl eq_refl)
    as (w' & E & T & _).
  exists w'. split; [exact E|]. rewrite T. split; reflexivity.
Defined.

Lemma round_clears_flag config transport int_of_str r w w' :
  round config transport int_of_str r w = (Running, w') -> restart_requested_flag w' = false.
Proof.
  assert (forall x, wait_and_restart r x = (Running, w') -> restart_requested_flag w' = false)
    as Wr.
  { intros x. unfold wait_and_restart.
    destruct (restart_requested_flag x); [|destruct (sleep_interrupted r)];
      try discriminate; now intros [= <-]. }
  unfold round. destruct (try_block config transport int_of_str r w) as [[|text|] x];
    [discriminate | | apply Wr].
  destruct (contains "Event loop is closed" text); [|apply Wr].
  destruct (negb (restart_requested_flag x)); [discriminate | apply Wr].
Qed.

(** X17. Whenever [start_bot] goes on after a round, the restart flag is
    clear, so a notice thread that is pending is not left waiting: its next
    step sends the done notice to the admin it was started for and ends
    it. *)
Theorem loop_releases_notice (config : Config) (transport : value -> string -> bool)
    (int_of_str : string -> Z + string) (rounds : list Round) (w w' : World) :
  rounds <> [] ->
  start_bot config transport int_of_str rounds w = (Running, w') ->
  restart_requested_flag w' = false /\
  forall u rest id, threads w' = u :: rest -> u !! "id" = Some id ->
    sends (trace (thread_step config transport w'))
      = sends (trace w') ++ [(id, replace "\n" LF (restart_message_done config))] /\
    threads (thread_step config transport w') = rest.
Proof.
  intros NE E.
  assert (restart_requested_flag w' = false) as F.
  { revert w E NE. induction rounds as [|r rest IH]; intros w E NE; [contradiction|].
    cbn [start_bot] in E.
    destruct (round config transport int_of_str r w) as [[|] w1] eqn:R; [|discriminate].
    destruct rest as [|r2 rest].
    - cbn in E. injection E as <-. exact (round_clears_flag _ _ _ _ _ _ R).
    - apply (IH w1 E). discriminate. }
  split; [exact F|]. intros u rest id T Hid.
  unfold thread_step. rewrite F, T.
  rewrite (send_message_after_restart_sends config transport u id _ Hid).
  destruct (send_message_after_restart_frame config transport u (set_threads rest w'))
    as (Tx & _). rewrite Tx. split; reflexivity.
Qed.

Lemma loop_releases_notice_witness :
  exists w', start_bot Sample.cfg Sample.always_delivered Sample.int_literal
               [Sample.restart_round] Sample.w0 = (Running, w') /\
    restart_requested_flag w' = false /\
    sends (trace (thread_step Sample.cfg Sample.always_delivered w'))
    = sends (trace w') ++ [(VInt 1, "Done" +:+ LF +:+ "\tok")].
Proof.
  eexists. split; [reflexivity|].
  destruct (loop_releases_notice Sample.cfg Sample.always_delivered Sample.int_literal
              [Sample.restart_round] Sample.w0 _ ltac:(discriminate) eq_refl) as [F N].
  split; [exact F|]. exact (proj1 (N _ _ (VInt 1) eq_refl eq_refl)).
Defined.
